(** * kevvy: the CVE lookup cog ([kevvy/cogs/cve_lookup.py])

    A shallow embedding of the message pipeline ([on_message]), of the
    configuration commands and of the sorting step of [/cve latest],
    together with the properties of the alert core that follow from the
    code.

    Conventions of the embedding.
    - Python [int] is [Z]; a CVSS score (an [int] or a finite [float]) is
      a rational [Q], compared exactly as Python compares numbers; the
      decimal literals of the source are read as the decimals they
      spell.  NaN and the infinities are outside the model.
    - A [str] is a list of Unicode code points ([N]).
    - Calls that may raise return an [Outcome]; [try]/[except] is written
      out as a match on it.
    - Calls to [logger] have no effect on what the cog answers or stores
      and are left out. *)

From Stdlib Require Import ZArith QArith List String Ascii Lia Permutation Sorted.
From stdpp Require Import base list gmap strings.
Import ListNotations.

Local Open Scope string_scope.
Local Open Scope list_scope.
Local Open Scope Z_scope.

(** ** Calls that may raise *)

Inductive Outcome (A : Type) : Type :=
| Ret (a : A)
| Raise.
Arguments Ret {A} a.
Arguments Raise {A}.

(** ** Severity gate

    [SeverityLevelChoices = Literal["critical", "high", "medium", "low",
    "all"]]. *)

Inductive SeverityLevelChoices : Type :=
| critical | high | medium | low | all.

Definition level_name (l : SeverityLevelChoices) : string :=
  match l with
  | critical => "critical"
  | high => "high"
  | medium => "medium"
  | low => "low"
  | all => "all"
  end.

(** [cve_score < min_score_threshold] on numbers. *)
Definition Qltb (x y : Q) : bool := negb (Qle_bool y x).

(** The threshold table of [on_message]:
    [{"critical": 9.0, "high": 7.0, "medium": 4.0, "low": 0.1,
      "all": 0.0}.get(global_threshold_str, 0.0)]. *)
Definition min_score_threshold (global_threshold_str : string) : Q :=
  if String.eqb global_threshold_str "critical" then 9%Q
  else if String.eqb global_threshold_str "high" then 7%Q
  else if String.eqb global_threshold_str "medium" then 4%Q
  else if String.eqb global_threshold_str "low" then (1 # 10)%Q
  else if String.eqb global_threshold_str "all" then 0%Q
  else 0%Q.

(** The severity threshold check of [on_message].  [cve_score] is
    [cve_details.get("cvss")]: [Some q] when it is an [int] or a [float]
    ([isinstance(cve_score, (int, float))]), [None] when the key is
    missing or holds anything else.  The result is [false] exactly when
    the loop body runs [continue]. *)
Definition passes_threshold (global_threshold_str : string)
    (cve_score : option Q) : bool :=
  match cve_score with
  | Some sc =>
      if Qltb sc (min_score_threshold global_threshold_str) then false
      else true
  | None =>
      if negb (String.eqb global_threshold_str "all") then false
      else true
  end.

(** ** Identifier scanner

    [CVE_SCAN_REGEX = re.compile(r"CVE-\d{4}-\d{4,}", re.IGNORECASE)] and
    [CVE_VALIDATE_REGEX = re.compile(r"^CVE-\d{4}-\d{4,}$", re.IGNORECASE)]
    work on [str], so [\d] is any Unicode decimal digit and [str.upper]
    is the Unicode upper-casing.  Both tables belong to the interpreter;
    they are taken as a parameter. *)

Abbreviation codepoint := N (only parsing).
Abbreviation text := (list N) (only parsing).

Record UnicodeTables : Type := {
  (** [\d]: the code point is a decimal digit (category Nd) *)
  isdecimal : codepoint -> bool;
  (** the upper-casing of one code point; [str.upper] concatenates them *)
  upper_cp : codepoint -> list codepoint
}.

(** What the scanner relies on: upper-casing sends the letters of the
    prefix to [CVE] and leaves the hyphen and every decimal digit alone. *)
Record unicode_tables_ok (U : UnicodeTables) : Prop := {
  upper_decimal : forall d, isdecimal U d = true -> upper_cp U d = [d];
  upper_C : upper_cp U 67%N = [67%N];
  upper_c : upper_cp U 99%N = [67%N];
  upper_V : upper_cp U 86%N = [86%N];
  upper_v : upper_cp U 118%N = [86%N];
  upper_E : upper_cp U 69%N = [69%N];
  upper_e : upper_cp U 101%N = [69%N];
  upper_hyphen : upper_cp U 45%N = [45%N]
}.

(** The tables restricted to ASCII. *)
Definition ascii_tables : UnicodeTables := {|
  isdecimal := fun c => (48 <=? c)%N && (c <=? 57)%N;
  upper_cp := fun c => if (97 <=? c)%N && (c <=? 122)%N then [(c - 32)%N] else [c]
|}.

(** [s.upper()] *)
Definition str_upper (U : UnicodeTables) (s : text) : text :=
  flat_map (upper_cp U) s.

(** A literal letter under [re.IGNORECASE]: for [C], [V] and [E] the
    only code points with the same case folding are the two ASCII
    letters. *)
Definition lit_ci (upper lower c : codepoint) : bool :=
  (c =? upper)%N || (c =? lower)%N.

Definition is_hyphen (c : codepoint) : bool := (c =? 45)%N.

(** The longest run of decimal digits at the head of [s] (a greedy
    [\d*]) and what follows it. *)
Fixpoint span_digits (U : UnicodeTables) (s : text) : text * text :=
  match s with
  | [] => ([], [])
  | c :: tl =>
      if isdecimal U c then
        let '(ds, rest) := span_digits U tl in (c :: ds, rest)
      else ([], s)
  end.

(** One match of [CVE-\d{4}-\d{4,}] anchored at the head of [s]: the
    matched text and the remainder. *)
Definition match_cve_at (U : UnicodeTables) (s : text) : option (text * text) :=
  match s with
  | c :: v :: e :: h1 :: d1 :: d2 :: d3 :: d4 :: h2 :: tl =>
      if lit_ci 67%N 99%N c && lit_ci 86%N 118%N v && lit_ci 69%N 101%N e
         && is_hyphen h1
         && isdecimal U d1 && isdecimal U d2 && isdecimal U d3 && isdecimal U d4
         && is_hyphen h2
      then
        let '(ds, rest) := span_digits U tl in
        if (4 <=? length ds)%nat
        then Some (c :: v :: e :: h1 :: d1 :: d2 :: d3 :: d4 :: h2 :: ds, rest)
        else None
      else None
  | _ => None
  end.

Arguments match_cve_at : simpl never.

(** [findall]: leftmost matches, left to right, without overlap.  After a
    match of [n] code points the next [n - 1] positions are skipped. *)
Fixpoint findall_from (U : UnicodeTables) (skip : nat) (s : text) : list text :=
  match s with
  | [] => []
  | _ :: tl =>
      match skip with
      | S k => findall_from U k tl
      | O =>
          match match_cve_at U s with
          | Some (m, _) => m :: findall_from U (length m - 1) tl
          | None => findall_from U 0 tl
          end
      end
  end.

Definition CVE_SCAN_REGEX_findall (U : UnicodeTables) (content : text) : list text :=
  findall_from U 0 content.

(** [CVE_VALIDATE_REGEX.match(cve_id)] as a truth value.  Without
    [re.MULTILINE], [$] matches at the end of the string and before a
    newline that ends it. *)
Definition CVE_VALIDATE_REGEX_match (U : UnicodeTables) (cve_id : text) : bool :=
  match match_cve_at U cve_id with
  | Some (_, rest) =>
      match rest with
      | [] => true
      | [c] => (c =? 10)%N
      | _ => false
      end
  | None => false
  end.

(** The shape of a text matched by the scan pattern. *)
Inductive scanned (U : UnicodeTables) : text -> Prop :=
| scanned_intro c v e d1 d2 d3 d4 ds :
    lit_ci 67%N 99%N c = true -> lit_ci 86%N 118%N v = true ->
    lit_ci 69%N 101%N e = true ->
    Forall (fun d => isdecimal U d = true) (d1 :: d2 :: d3 :: d4 :: ds) ->
    (4 <= length ds)%nat ->
    scanned U (c :: v :: e :: 45%N :: d1 :: d2 :: d3 :: d4 :: 45%N :: ds).

Definition MAX_CVES_PER_MESSAGE : nat := 5.

(** A string literal as code points. *)
Fixpoint cps (s : string) : text :=
  match s with
  | EmptyString => []
  | String a tl => N_of_ascii a :: cps tl
  end.

(** ** Policy store

    [self.db] is a [KEVConfigDB] ([kevvy/db_utils.py]); the cog only
    calls its methods, so the store is an interface here.  A row of the
    guild table is read through [guild_config.get(key, default)]; the
    record holds what those reads return. *)

Record GuildConfig : Type := {
  (** [guild_config.get("cve_monitoring_enabled", False)] as a truth value *)
  cve_monitoring_enabled : bool;
  (** [guild_config.get("verbose_mode", False)] as a truth value *)
  verbose_mode : bool;
  (** [guild_config.get("cve_severity_threshold", "all")] *)
  cve_severity_threshold : string
}.

Record ChannelConfig : Type := {
  (** [conf.get("channel_id")] *)
  channel_id : Z;
  (** [conf.get("enabled", False)] as a truth value *)
  enabled : bool;
  (** [conf.get("verbose_mode")]: [None] inherits the guild's setting *)
  channel_verbose_mode : option bool
}.

Class KEVConfigDB (DB : Type) : Type := {
  get_cve_guild_config : DB -> Z -> Outcome (option GuildConfig);
  set_cve_guild_config : DB -> Z -> bool -> bool -> string -> Outcome DB;
  update_cve_guild_enabled : DB -> Z -> bool -> Outcome DB;
  update_cve_guild_verbose_mode : DB -> Z -> bool -> Outcome DB;
  update_cve_guild_severity_threshold : DB -> Z -> string -> Outcome DB;
  get_all_cve_channel_configs_for_guild : DB -> Z -> Outcome (list ChannelConfig);
  add_or_update_cve_channel :
    DB -> Z -> Z -> bool -> option bool -> option string -> option string -> Outcome DB;
  remove_cve_channel : DB -> Z -> Z -> Outcome DB;
  set_channel_verbosity : DB -> Z -> Z -> option bool -> Outcome DB;
  set_all_channel_verbosity : DB -> Z -> bool -> Outcome DB;
  get_effective_verbosity : DB -> Z -> Z -> Outcome bool
}.

(** The calls a command makes on [self.db], in order. *)
Inductive DbCall : Type :=
| Call_get_cve_guild_config (guild_id : Z)
| Call_set_cve_guild_config (guild_id : Z) (enabled verbose_mode : bool)
    (severity_threshold : string)
| Call_update_cve_guild_enabled (guild_id : Z) (enabled : bool)
| Call_update_cve_guild_verbose_mode (guild_id : Z) (verbose_mode : bool)
| Call_update_cve_guild_severity_threshold (guild_id : Z) (level : string)
| Call_add_or_update_cve_channel (guild_id channel_id : Z) (enabled : bool)
    (verbose_mode : option bool) (severity_threshold alert_format : option string)
| Call_remove_cve_channel (guild_id channel_id : Z)
| Call_set_channel_verbosity (guild_id channel_id : Z) (verbosity : option bool)
| Call_set_all_channel_verbosity (guild_id : Z) (verbosity : bool).

(** What a command answers through [interaction.response.send_message]. *)
Inductive Reply : Type :=
| ReplyNoDatabaseOrGuild   (* "Bot error: Cannot access database or Guild ID." *)
| ReplyEnsureFailed        (* "Bot error: Could not ensure guild configuration." *)
| ReplyDone                (* the command's confirmation *)
| ReplyErrorOccurred.      (* "An error occurred while ..." *)

Record Interaction : Type := {
  (** [interaction.guild_id] *)
  interaction_guild_id : option Z
}.

(** The cog as a command sees it: the store, the calls made on it so far
    and the replies sent so far. *)
Record CogState (DB : Type) : Type := {
  self_db : option DB;
  db_calls : list DbCall;
  replies : list Reply
}.
Arguments self_db {DB} _.
Arguments db_calls {DB} _.
Arguments replies {DB} _.

(** A command body: it may raise, and it changes the cog's state. *)
Definition Cmd (DB A : Type) : Type := CogState DB -> Outcome A * CogState DB.

Definition cmd_ret {DB A} (a : A) : Cmd DB A := fun s => (Ret a, s).

Definition cmd_bind {DB A B} (m : Cmd DB A) (k : A -> Cmd DB B) : Cmd DB B :=
  fun s =>
    match m s with
    | (Ret a, s') => k a s'
    | (Raise, s') => (Raise, s')
    end.

(** [try: body / except Exception: handler] *)
Definition try_except {DB A} (body handler : Cmd DB A) : Cmd DB A :=
  fun s =>
    match body s with
    | (Ret a, s') => (Ret a, s')
    | (Raise, s') => handler s'
    end.

Notation "x <- m ;; k" := (cmd_bind m (fun x => k))
  (at level 100, m at next level, right associativity).
Notation "m ;;; k" := (cmd_bind m (fun _ => k))
  (at level 100, right associativity).

Definition send_message {DB} (r : Reply) : Cmd DB unit :=
  fun s => (Ret tt, {| self_db := self_db s; db_calls := db_calls s;
                       replies := replies s ++ [r] |}).

(** A reading call [self.db.m(...)].  With [self.db] set to [None] the
    attribute access raises. *)
Definition db_read {DB A} (call : DbCall) (m : DB -> Outcome A) : Cmd DB A :=
  fun s =>
    match self_db s with
    | None => (Raise, s)
    | Some db =>
        (m db, {| self_db := Some db; db_calls := db_calls s ++ [call];
                  replies := replies s |})
    end.

(** A writing call; a call that raises leaves the store as it was. *)
Definition db_write {DB} (call : DbCall) (m : DB -> Outcome DB) : Cmd DB unit :=
  fun s =>
    match self_db s with
    | None => (Raise, s)
    | Some db =>
        match m db with
        | Ret db' =>
            (Ret tt, {| self_db := Some db'; db_calls := db_calls s ++ [call];
                        replies := replies s |})
        | Raise =>
            (Raise, {| self_db := Some db; db_calls := db_calls s ++ [call];
                       replies := replies s |})
        end
    end.

(** [if not self.db or not interaction.guild_id]: the guild id when both
    are there ([0] is falsy as well). *)
Definition db_and_guild {DB} (s : CogState DB) (interaction : Interaction) : option Z :=
  match self_db s, interaction_guild_id interaction with
  | Some _, Some g => if g =? 0 then None else Some g
  | _, _ => None
  end.

(** The opening check shared by the commands. *)
Definition with_db_and_guild {DB} (interaction : Interaction)
    (body : Z -> Cmd DB unit) : Cmd DB unit :=
  fun s =>
    match db_and_guild s interaction with
    | None => send_message ReplyNoDatabaseOrGuild s
    | Some guild_id => body guild_id s
    end.

(** ** Configuration commands *)

Section Commands.
Context {DB : Type} `{KEVConfigDB DB}.

Definition db_get_cve_guild_config (guild_id : Z) : Cmd DB (option GuildConfig) :=
  db_read (Call_get_cve_guild_config guild_id)
    (fun db => get_cve_guild_config db guild_id).

Definition db_set_cve_guild_config (guild_id : Z) (enabled verbose_mode : bool)
    (severity_threshold : string) : Cmd DB unit :=
  db_write (Call_set_cve_guild_config guild_id enabled verbose_mode severity_threshold)
    (fun db => set_cve_guild_config db guild_id enabled verbose_mode severity_threshold).

Definition db_update_cve_guild_enabled (guild_id : Z) (enabled : bool) : Cmd DB unit :=
  db_write (Call_update_cve_guild_enabled guild_id enabled)
    (fun db => update_cve_guild_enabled db guild_id enabled).

Definition db_update_cve_guild_verbose_mode (guild_id : Z) (verbose_mode : bool)
    : Cmd DB unit :=
  db_write (Call_update_cve_guild_verbose_mode guild_id verbose_mode)
    (fun db => update_cve_guild_verbose_mode db guild_id verbose_mode).

Definition db_update_cve_guild_severity_threshold (guild_id : Z) (level : string)
    : Cmd DB unit :=
  db_write (Call_update_cve_guild_severity_threshold guild_id level)
    (fun db => update_cve_guild_severity_threshold db guild_id level).

Definition db_add_or_update_cve_channel (guild_id channel_id : Z) (enabled : bool)
    (verbose_mode : option bool) (severity_threshold alert_format : option string)
    : Cmd DB unit :=
  db_write
    (Call_add_or_update_cve_channel guild_id channel_id enabled verbose_mode
       severity_threshold alert_format)
    (fun db => add_or_update_cve_channel db guild_id channel_id enabled verbose_mode
                 severity_threshold alert_format).

Definition db_remove_cve_channel (guild_id channel_id : Z) : Cmd DB unit :=
  db_write (Call_remove_cve_channel guild_id channel_id)
    (fun db => remove_cve_channel db guild_id channel_id).

Definition db_set_channel_verbosity (guild_id channel_id : Z)
    (verbosity : option bool) : Cmd DB unit :=
  db_write (Call_set_channel_verbosity guild_id channel_id verbosity)
    (fun db => set_channel_verbosity db guild_id channel_id verbosity).

Definition db_set_all_channel_verbosity (guild_id : Z) (verbosity : bool)
    : Cmd DB unit :=
  db_write (Call_set_all_channel_verbosity guild_id verbosity)
    (fun db => set_all_channel_verbosity db guild_id verbosity).

(** [_ensure_guild_config]: creates the default row when the guild has
    none; [False] when the store is missing or a call raised. *)
Definition _ensure_guild_config (guild_id : Z) : Cmd DB bool :=
  fun s =>
    match self_db s with
    | None => (Ret false, s)
    | Some _ =>
        try_except
          (guild_config <- db_get_cve_guild_config guild_id ;;
           match guild_config with
           | None =>
               db_set_cve_guild_config guild_id true false "all" ;;;
               cmd_ret true
           | Some _ => cmd_ret true
           end)
          (cmd_ret false) s
    end.

(** The commands that start with [_ensure_guild_config] share this
    frame: reply and return when it fails, else run [body] under
    [try]/[except Exception]. *)
Definition ensured (guild_id : Z) (body : Cmd DB unit) : Cmd DB unit :=
  ok <- _ensure_guild_config guild_id ;;
  if negb ok then send_message ReplyEnsureFailed
  else try_except body (send_message ReplyErrorOccurred).

(** [/cve channels add] *)
Definition channels_add_command (interaction : Interaction) (channel : Z)
    : Cmd DB unit :=
  with_db_and_guild interaction (fun guild_id =>
    ensured guild_id
      (guild_config <- db_get_cve_guild_config guild_id ;;
       match guild_config with
       | Some cfg =>
           if negb (cve_monitoring_enabled cfg)
           then db_update_cve_guild_enabled guild_id true
           else cmd_ret tt
       | None => cmd_ret tt
       end ;;;
       db_add_or_update_cve_channel guild_id channel true None None None ;;;
       send_message ReplyDone)).

(** [/cve channels remove] *)
Definition channels_remove_command (interaction : Interaction) (channel : Z)
    : Cmd DB unit :=
  with_db_and_guild interaction (fun guild_id =>
    try_except
      (db_remove_cve_channel guild_id channel ;;; send_message ReplyDone)
      (send_message ReplyErrorOccurred)).

(** [/cve channels disable_global] *)
Definition channels_disable_global_command (interaction : Interaction)
    : Cmd DB unit :=
  with_db_and_guild interaction (fun guild_id =>
    ensured guild_id
      (db_update_cve_guild_enabled guild_id false ;;; send_message ReplyDone)).

(** [/cve channels enable_global] *)
Definition channels_enable_global_command (interaction : Interaction)
    : Cmd DB unit :=
  with_db_and_guild interaction (fun guild_id =>
    ensured guild_id
      (db_update_cve_guild_enabled guild_id true ;;; send_message ReplyDone)).

(** [/verbose enable_global] *)
Definition verbose_enable_global_command (interaction : Interaction)
    : Cmd DB unit :=
  with_db_and_guild interaction (fun guild_id =>
    try_except
      (db_update_cve_guild_verbose_mode guild_id true ;;; send_message ReplyDone)
      (send_message ReplyErrorOccurred)).

(** [/verbose disable_global] *)
Definition verbose_disable_global_command (interaction : Interaction)
    : Cmd DB unit :=
  with_db_and_guild interaction (fun guild_id =>
    try_except
      (db_update_cve_guild_verbose_mode guild_id false ;;; send_message ReplyDone)
      (send_message ReplyErrorOccurred)).

(** [/verbose set] *)
Definition verbose_channel_set_command (interaction : Interaction) (channel : Z)
    (verbosity : bool) : Cmd DB unit :=
  with_db_and_guild interaction (fun guild_id =>
    try_except
      (guild_config <- db_get_cve_guild_config guild_id ;;
       match guild_config with
       | None => db_set_cve_guild_config guild_id true false "all"
       | Some _ => cmd_ret tt
       end ;;;
       db_set_channel_verbosity guild_id channel (Some verbosity) ;;;
       send_message ReplyDone)
      (send_message ReplyErrorOccurred)).

(** [/verbose unset] *)
Definition verbose_channel_unset_command (interaction : Interaction) (channel : Z)
    : Cmd DB unit :=
  with_db_and_guild interaction (fun guild_id =>
    try_except
      (db_set_channel_verbosity guild_id channel None ;;; send_message ReplyDone)
      (send_message ReplyErrorOccurred)).

(** [/verbose setall] *)
Definition verbose_channel_setall_command (interaction : Interaction)
    (verbosity : bool) : Cmd DB unit :=
  with_db_and_guild interaction (fun guild_id =>
    try_except
      (db_set_all_channel_verbosity guild_id verbosity ;;; send_message ReplyDone)
      (send_message ReplyErrorOccurred)).

(** [/cve threshold set] *)
Definition threshold_set_command (interaction : Interaction)
    (level : SeverityLevelChoices) : Cmd DB unit :=
  with_db_and_guild interaction (fun guild_id =>
    ensured guild_id
      (db_update_cve_guild_severity_threshold guild_id (level_name level) ;;;
       send_message ReplyDone)).

(** [/cve threshold reset] *)
Definition threshold_reset_command (interaction : Interaction) : Cmd DB unit :=
  with_db_and_guild interaction (fun guild_id =>
    ensured guild_id
      (db_update_cve_guild_severity_threshold guild_id "all" ;;;
       send_message ReplyDone)).

End Commands.

(** A command run from a cog that has made no call and sent no reply. *)
Definition fresh_cog {DB} (db : option DB) : CogState DB :=
  {| self_db := db; db_calls := []; replies := [] |}.

Definition run {DB A} (c : Cmd DB A) (s : CogState DB) : CogState DB := snd (c s).

(** ** Message pipeline *)

(** How a record holds its ["published"] entry. *)
Inductive Published : Type :=
| PubAbsent                (* no such key *)
| PubNotStr                (* [None], or another value that is not a [str] *)
| PubStr (s : text).

(** A record as [NVDClient] returns it ([cve_details], and the entries of
    [recent_cves]); only the entries the modelled code reads. *)
Record CveData : Type := {
  cve_id : text;
  (** [.get("cvss")] when it is a number *)
  cvss : option Q;
  published : Published
}.

(** An entry of the exploitation catalog. *)
Record KevEntry : Type := {
  kev_cveID : text;
  kev_vulnerabilityName : text
}.

(** What is handed to [message.channel.send]. *)
Inductive Payload : Type :=
| CveEmbed (cve_data : CveData) (verbose : bool)       (* [create_cve_embed] *)
| KevEmbed (cve_id : text) (kev_entry : KevEntry) (verbose : bool)
                                                       (* [create_kev_embed] *)
| TruncationNotice (found shown : nat) (delete_after : Z).

Definition is_embed (p : Payload) : bool :=
  match p with
  | CveEmbed _ _ | KevEmbed _ _ _ => true
  | TruncationNotice _ _ _ => false
  end.

Inductive SendResult : Type :=
| Sent
| HTTPException            (* [discord.HTTPException] *)
| OtherException.          (* any other [Exception] *)

(** What the handler does towards Discord and the clock, in order. *)
Inductive Event : Type :=
| ESend (p : Payload) (r : SendResult)     (* [await message.channel.send(...)] *)
| ESleep (seconds : Q).                    (* [await asyncio.sleep(...)] *)

(** The delay after each embed: [asyncio.sleep(1.5)]. *)
Definition SEND_DELAY : Q := (3 # 2)%Q.

(** The counters of the bot, each guarded by [stats_lock]. *)
Record BotStats : Type := {
  stats_cve_lookups : Z;
  stats_nvd_fallback_success : Z;
  stats_api_errors_nvd : Z
}.

Definition incr_cve_lookups (b : BotStats) : BotStats :=
  {| stats_cve_lookups := stats_cve_lookups b + 1;
     stats_nvd_fallback_success := stats_nvd_fallback_success b;
     stats_api_errors_nvd := stats_api_errors_nvd b |}.

Definition incr_nvd_fallback_success (b : BotStats) : BotStats :=
  {| stats_cve_lookups := stats_cve_lookups b;
     stats_nvd_fallback_success := stats_nvd_fallback_success b + 1;
     stats_api_errors_nvd := stats_api_errors_nvd b |}.

Definition incr_api_errors_nvd (b : BotStats) : BotStats :=
  {| stats_cve_lookups := stats_cve_lookups b;
     stats_nvd_fallback_success := stats_nvd_fallback_success b;
     stats_api_errors_nvd := stats_api_errors_nvd b + 1 |}.

(** The cog as [on_message] sees it. *)
Record Cog (DB : Type) : Type := {
  (** [self.db] *)
  cog_db : option DB;
  (** [self.nvd_client.get_cve_details]; a falsy answer is [None] *)
  nvd_client : option (text -> Outcome (option CveData));
  (** [self.bot.cisa_kev_client.get_kev_entry]; a falsy answer is [None] *)
  cisa_kev_client : option (text -> Outcome (option KevEntry))
}.
Arguments cog_db {DB} _.
Arguments nvd_client {DB} _.
Arguments cisa_kev_client {DB} _.

Record Message : Type := {
  (** [message.author.bot] *)
  author_bot : bool;
  (** [message.guild.id], when the message has a guild *)
  guild : option Z;
  (** [message.channel.id] *)
  channel : Z;
  (** [message.content] *)
  content : text;
  (** the result of [await message.channel.send(...)] *)
  channel_send : Payload -> SendResult
}.

(** What the interpreter decides: the Unicode tables and the order in
    which [list(found_cves_set)] lists a set. *)
Record Interpreter : Type := {
  tables : UnicodeTables;
  set_order : list text -> list text
}.

(** The order [list(s)] gives is some arrangement of the set. *)
Definition set_order_ok (py : Interpreter) : Prop :=
  forall l, Permutation (set_order py l) l.

(** How a call of the handler ends. *)
Record Handled : Type := {
  bot : BotStats;
  events : list Event;
  (** an exception left the handler *)
  propagated : bool
}.

Definition returned (b : BotStats) (evs : list Event) : Handled :=
  {| bot := b; events := evs; propagated := false |}.

(** Step 3 of [on_message]: with rows configured for the guild, the
    channel must be among them and enabled. *)
Definition channel_allowed (channel_configs : list ChannelConfig) (channel : Z) : bool :=
  match channel_configs with
  | [] => true
  | _ :: _ =>
      existsb (fun conf => (channel_id conf =? channel) && enabled conf) channel_configs
  end.

(** Step 4: [{match.upper() for match in CVE_SCAN_REGEX.findall(content)}],
    as the list of its elements. *)
Definition found_cves_set (U : UnicodeTables) (content : text) : list text :=
  remove_dups (map (str_upper U) (CVE_SCAN_REGEX_findall U content)).

Definition cves_to_process (py : Interpreter) (content : text) : list text :=
  take MAX_CVES_PER_MESSAGE (set_order py (found_cves_set (tables py) content)).

Section Pipeline.
Context {DB : Type} `{KEVConfigDB DB}.

(** [kev_entry_data] after the inner [try]: a failing catalog lookup
    is logged and leaves [None]. *)
Definition kev_lookup (kev : option (text -> Outcome (option KevEntry)))
    (cve_id : text) : option KevEntry :=
  match kev with
  | None => None
  | Some get_kev_entry =>
      match get_kev_entry cve_id with
      | Ret kev_entry_data => kev_entry_data
      | Raise => None
      end
  end.

(** One turn of the loop of step 5: the counters after it and what it
    sent. *)
Definition process_cve (U : UnicodeTables) (db : DB)
    (get_cve_details : text -> Outcome (option CveData))
    (kev : option (text -> Outcome (option KevEntry)))
    (message : Message) (guild_id : Z) (global_threshold_str : string)
    (cve_id : text) (b : BotStats) : BotStats * list Event :=
  if negb (CVE_VALIDATE_REGEX_match U cve_id) then (b, [])
  else
    let b := incr_cve_lookups b in
    match get_cve_details cve_id with
    | Raise => (incr_api_errors_nvd b, [])
    | Ret None => (b, [])
    | Ret (Some cve_details) =>
        let b := incr_nvd_fallback_success b in
        if negb (passes_threshold global_threshold_str (cvss cve_details))
        then (b, [])
        else
          let kev_entry_data := kev_lookup kev cve_id in
          match get_effective_verbosity db guild_id (channel message) with
          | Raise => (incr_api_errors_nvd b, [])
          | Ret verbose =>
              let embed := CveEmbed cve_details verbose in
              match channel_send message embed with
              | Sent =>
                  match kev_entry_data with
                  | Some kev_entry =>
                      let kev_embed := KevEmbed cve_id kev_entry verbose in
                      match channel_send message kev_embed with
                      | Sent =>
                          (b, [ESend embed Sent; ESleep SEND_DELAY;
                               ESend kev_embed Sent; ESleep SEND_DELAY])
                      | r =>
                          (incr_api_errors_nvd b,
                           [ESend embed Sent; ESleep SEND_DELAY; ESend kev_embed r])
                      end
                  | None => (b, [ESend embed Sent; ESleep SEND_DELAY])
                  end
              | r => (incr_api_errors_nvd b, [ESend embed r])
              end
          end
    end.

(** [for cve_id in cves_to_process: ...] *)
Fixpoint process_cves (U : UnicodeTables) (db : DB)
    (get_cve_details : text -> Outcome (option CveData))
    (kev : option (text -> Outcome (option KevEntry)))
    (message : Message) (guild_id : Z) (global_threshold_str : string)
    (cves : list text) (b : BotStats) : BotStats * list Event :=
  match cves with
  | [] => (b, [])
  | cve_id :: rest =>
      let '(b1, evs1) :=
        process_cve U db get_cve_details kev message guild_id
          global_threshold_str cve_id b in
      let '(b2, evs2) :=
        process_cves U db get_cve_details kev message guild_id
          global_threshold_str rest b1 in
      (b2, evs1 ++ evs2)
  end.

(** The closing notice, sent when more identifiers were found than
    processed. *)
Definition truncation_notice (found : nat) : Payload :=
  TruncationNotice found MAX_CVES_PER_MESSAGE 30.

(** Steps 4 and 5 of [on_message] and the closing notice: what the
    handler does once the guards of steps 1 to 3 have let the message
    through. *)
Definition find_and_process (py : Interpreter) (db : DB)
    (get_cve_details : text -> Outcome (option CveData))
    (kev : option (text -> Outcome (option KevEntry)))
    (message : Message) (guild_id : Z) (guild_config : GuildConfig)
    (b : BotStats) : Handled :=
  let found := found_cves_set (tables py) (content message) in
  let cves := take MAX_CVES_PER_MESSAGE (set_order py found) in
  match cves with
  | [] => returned b []
  | _ :: _ =>
      let global_threshold_str := cve_severity_threshold guild_config in
      let '(b', evs) :=
        process_cves (tables py) db get_cve_details kev message guild_id
          global_threshold_str cves b in
      if (MAX_CVES_PER_MESSAGE <? length found)%nat then
        let notice := truncation_notice (length found) in
        match channel_send message notice with
        | OtherException =>
            {| bot := b'; events := evs ++ [ESend notice OtherException];
               propagated := true |}
        | r => returned b' (evs ++ [ESend notice r])
        end
      else returned b' evs
  end.

(** [on_message]: steps 1 to 3 are guards that return without a
    trace; a failing read of the store is outside every [try] and
    leaves the handler. *)
Definition on_message (py : Interpreter) (cog : Cog DB) (message : Message)
    (b : BotStats) : Handled :=
  if author_bot message then returned b []
  else
    match guild message with
    | None => returned b []
    | Some guild_id =>
        match cog_db cog, nvd_client cog with
        | Some db, Some get_cve_details =>
            match content message with
            | [] => returned b []
            | _ :: _ =>
                match get_cve_guild_config db guild_id with
                | Raise => {| bot := b; events := []; propagated := true |}
                | Ret None => returned b []
                | Ret (Some guild_config) =>
                    if negb (cve_monitoring_enabled guild_config) then returned b []
                    else
                      match get_all_cve_channel_configs_for_guild db guild_id with
                      | Raise => {| bot := b; events := []; propagated := true |}
                      | Ret channel_configs =>
                          if negb (channel_allowed channel_configs (channel message))
                          then returned b []
                          else
                            find_and_process py db get_cve_details
                              (cisa_kev_client cog) message guild_id guild_config b
                      end
                end
            end
        | _, _ => returned b []
        end
    end.

End Pipeline.

(** ** An in-memory policy store

    Modelled from the spec: [kevvy/db_utils.py] ([KEVConfigDB]) is not
    among the sources at hand.  This instance follows the PolicyStore
    interface and the resolution rules of the specification: one
    [GuildConfig] per guild, rows of [ChannelConfig] per guild, verbosity
    resolved as the channel's override when it has one and the guild's
    default otherwise.  Where the specification is silent the instance
    makes a choice: updating a guild without a row changes nothing, and
    a verbosity override for a channel without a row creates an enabled
    row.  It is used to run the commands and the handler on examples;
    the theorems about the cog hold for every implementation of the
    interface. *)

Record MemDB : Type := {
  guild_rows : gmap Z GuildConfig;
  channel_rows : list (Z * ChannelConfig)
}.

Definition with_enabled (b : bool) (g : GuildConfig) : GuildConfig :=
  {| cve_monitoring_enabled := b; verbose_mode := verbose_mode g;
     cve_severity_threshold := cve_severity_threshold g |}.

Definition with_verbose (b : bool) (g : GuildConfig) : GuildConfig :=
  {| cve_monitoring_enabled := cve_monitoring_enabled g; verbose_mode := b;
     cve_severity_threshold := cve_severity_threshold g |}.

Definition with_threshold (t : string) (g : GuildConfig) : GuildConfig :=
  {| cve_monitoring_enabled := cve_monitoring_enabled g;
     verbose_mode := verbose_mode g; cve_severity_threshold := t |}.

Definition is_row (guild_id channel : Z) (row : Z * ChannelConfig) : bool :=
  (fst row =? guild_id) && (channel_id (snd row) =? channel).

Definition mem_alter_guild (f : GuildConfig -> GuildConfig) (db : MemDB) (guild_id : Z)
    : MemDB :=
  {| guild_rows := alter f guild_id (guild_rows db); channel_rows := channel_rows db |}.

Definition mem_channels (db : MemDB) (guild_id : Z) : list ChannelConfig :=
  map snd (List.filter (fun row => fst row =? guild_id) (channel_rows db)).

Definition mem_upsert_channel (db : MemDB) (guild_id channel : Z)
    (new_row : ChannelConfig) (change : ChannelConfig -> ChannelConfig) : MemDB :=
  {| guild_rows := guild_rows db;
     channel_rows :=
       if existsb (is_row guild_id channel) (channel_rows db)
       then map (fun row => if is_row guild_id channel row
                            then (fst row, change (snd row)) else row)
                (channel_rows db)
       else channel_rows db ++ [(guild_id, new_row)] |}.

Definition mem_effective_verbosity (db : MemDB) (guild_id channel : Z) : bool :=
  let inherited :=
    match guild_rows db !! guild_id with
    | Some g => verbose_mode g
    | None => false
    end in
  match List.find (is_row guild_id channel) (channel_rows db) with
  | Some (_, {| channel_verbose_mode := Some v |}) => v
  | _ => inherited
  end.

#[export] Instance MemDB_store : KEVConfigDB MemDB := {|
  get_cve_guild_config db guild_id := Ret (guild_rows db !! guild_id);
  set_cve_guild_config db guild_id e v t :=
    Ret {| guild_rows :=
             <[guild_id := {| cve_monitoring_enabled := e; verbose_mode := v;
                              cve_severity_threshold := t |}]> (guild_rows db);
           channel_rows := channel_rows db |};
  update_cve_guild_enabled db guild_id e :=
    Ret (mem_alter_guild (with_enabled e) db guild_id);
  update_cve_guild_verbose_mode db guild_id v :=
    Ret (mem_alter_guild (with_verbose v) db guild_id);
  update_cve_guild_severity_threshold db guild_id t :=
    Ret (mem_alter_guild (with_threshold t) db guild_id);
  get_all_cve_channel_configs_for_guild db guild_id := Ret (mem_channels db guild_id);
  add_or_update_cve_channel db guild_id channel e v _ _ :=
    Ret (mem_upsert_channel db guild_id channel
           {| channel_id := channel; enabled := e; channel_verbose_mode := v |}
           (fun row =>
              {| channel_id := channel_id row; enabled := e;
                 channel_verbose_mode :=
                   match v with
                   | Some _ => v
                   | None => channel_verbose_mode row
                   end |}));
  remove_cve_channel db guild_id channel :=
    Ret {| guild_rows := guild_rows db;
           channel_rows :=
             List.filter (fun row => negb (is_row guild_id channel row))
               (channel_rows db) |};
  set_channel_verbosity db guild_id channel v :=
    Ret (mem_upsert_channel db guild_id channel
           {| channel_id := channel; enabled := true; channel_verbose_mode := v |}
           (fun row =>
              {| channel_id := channel_id row; enabled := enabled row;
                 channel_verbose_mode := v |}));
  set_all_channel_verbosity db guild_id v :=
    Ret {| guild_rows := guild_rows db;
           channel_rows :=
             map (fun row =>
                    if fst row =? guild_id
                    then (fst row,
                          {| channel_id := channel_id (snd row);
                             enabled := enabled (snd row);
                             channel_verbose_mode := Some v |})
                    else row)
                 (channel_rows db) |};
  get_effective_verbosity db guild_id channel :=
    Ret (mem_effective_verbosity db guild_id channel)
|}.

Definition empty_db : MemDB := {| guild_rows := ∅; channel_rows := [] |}.

(** ** Sorting step of [/cve latest] *)

(** A [datetime.datetime]: without [tzinfo] (naive) it is a wall-clock
    instant, with [tzinfo] (aware) an instant in UTC; both in
    microseconds since 1970-01-01T00:00:00. *)
Inductive datetime : Type :=
| Naive (wall_us : Z)
| Aware (utc_us : Z).

(** [a < b] on [datetime]: comparing a naive with an aware value raises
    [TypeError]. *)
Definition datetime_lt (a b : datetime) : Outcome bool :=
  match a, b with
  | Naive x, Naive y => Ret (x <? y)
  | Aware x, Aware y => Ret (x <? y)
  | _, _ => Raise
  end.

(** [pub_date_str.replace("Z", "+00:00")] *)
Definition replace_Z (s : text) : text :=
  flat_map (fun c => if (c =? 90)%N then cps "+00:00" else [c]) s.

(** The default of [cve_entry.get("published", ...)]. *)
Definition DEFAULT_PUBLISHED : text := cps "1970-01-01T00:00:00.000".

(** The fallback of the key function:
    [datetime.datetime(1970, 1, 1, tzinfo=datetime.timezone.utc)]. *)
Definition EPOCH_UTC : datetime := Aware 0.

(** [get_sort_key].  [fromisoformat] is the interpreter's
    [datetime.datetime.fromisoformat], [None] standing for [ValueError].
    A value without [.replace] raises [AttributeError], which the
    [except (ValueError, TypeError)] of the key function lets through. *)
Definition get_sort_key (fromisoformat : text -> option datetime)
    (cve_entry : CveData) : Outcome datetime :=
  let parse pub_date_str :=
    match fromisoformat (replace_Z pub_date_str) with
    | Some d => Ret d
    | None => Ret EPOCH_UTC
    end in
  match published cve_entry with
  | PubAbsent => parse DEFAULT_PUBLISHED
  | PubStr s => parse s
  | PubNotStr => Raise
  end.

(** [list.sort] first computes the key of every element. *)
Fixpoint decorate {A} (key : A -> Outcome datetime) (l : list A)
    : Outcome (list (datetime * A)) :=
  match l with
  | [] => Ret []
  | x :: tl =>
      match key x with
      | Raise => Raise
      | Ret k =>
          match decorate key tl with
          | Raise => Raise
          | Ret r => Ret ((k, x) :: r)
          end
      end
  end.

(** A stable sort by decreasing key ([reverse=True] keeps the order of
    elements with equal keys): [x] goes behind the elements with a
    greater key and in front of the others. *)
Fixpoint insert_desc {A} (x : datetime * A) (l : list (datetime * A))
    : Outcome (list (datetime * A)) :=
  match l with
  | [] => Ret [x]
  | y :: tl =>
      match datetime_lt (fst x) (fst y) with
      | Raise => Raise
      | Ret true =>
          match insert_desc x tl with
          | Raise => Raise
          | Ret r => Ret (y :: r)
          end
      | Ret false => Ret (x :: y :: tl)
      end
  end.

Fixpoint sort_desc {A} (l : list (datetime * A)) : Outcome (list (datetime * A)) :=
  match l with
  | [] => Ret []
  | x :: tl =>
      match sort_desc tl with
      | Raise => Raise
      | Ret s => insert_desc x s
      end
  end.

(** What the [except Exception as sort_e] branch caught. *)
Inductive SortError : Type :=
| KeyRaised          (* [AttributeError] out of [get_sort_key] *)
| CompareRaised.     (* [TypeError] out of a comparison of two keys *)

Record SortOutcome : Type := {
  filtered_cves : list CveData;
  sort_e : option SortError
}.

(** [filtered_cves.sort(key=get_sort_key, reverse=True)] under
    [try]/[except Exception].  When a key cannot be computed the list
    has not been touched; when a comparison raises, [list.sort] leaves
    the elements in an order of its own, [leftover]. *)
Definition sort_by_published (fromisoformat : text -> option datetime)
    (leftover : list CveData -> list CveData) (cves : list CveData) : SortOutcome :=
  match decorate (get_sort_key fromisoformat) cves with
  | Raise => {| filtered_cves := cves; sort_e := Some KeyRaised |}
  | Ret keyed =>
      match sort_desc keyed with
      | Ret s => {| filtered_cves := map snd s; sort_e := None |}
      | Raise => {| filtered_cves := leftover cves; sort_e := Some CompareRaised |}
      end
  end.

(** [results_to_show = filtered_cves[:count]] *)
Definition results_to_show (fromisoformat : text -> option datetime)
    (leftover : list CveData -> list CveData) (cves : list CveData) (count : nat)
    : list CveData :=
  take count (filtered_cves (sort_by_published fromisoformat leftover cves)).

(** *** A parser for the timestamps of the examples

    [YYYY-MM-DD], optionally followed by one separator, [HH:MM:SS], a
    fraction of three or six digits and an offset [+HH:MM] or [-HH:MM]:
    the forms [fromisoformat] has accepted since it exists.  The result
    is aware exactly when an offset is given. *)

Definition digit_value (c : codepoint) : option Z :=
  if (48 <=? c)%N && (c <=? 57)%N then Some (Z.of_N c - 48) else None.

Fixpoint parse_digits (n : nat) (acc : Z) (s : text) : option (Z * text) :=
  match n with
  | O => Some (acc, s)
  | S k =>
      match s with
      | c :: tl =>
          match digit_value c with
          | Some d => parse_digits k (10 * acc + d) tl
          | None => None
          end
      | [] => None
      end
  end.

Definition expect (c : codepoint) (s : text) : option text :=
  match s with
  | x :: tl => if (x =? c)%N then Some tl else None
  | [] => None
  end.

Definition is_leap (y : Z) : bool :=
  ((y mod 4 =? 0) && negb (y mod 100 =? 0)) || (y mod 400 =? 0).

Definition days_in_month (y m : Z) : Z :=
  if m =? 2 then (if is_leap y then 29 else 28)
  else if (m =? 4) || (m =? 6) || (m =? 9) || (m =? 11) then 30
  else 31.

(** Days from 1970-01-01 to the given date of the proleptic Gregorian
    calendar. *)
Definition days_from_civil (y m d : Z) : Z :=
  let y' := if m <=? 2 then y - 1 else y in
  let era := y' / 400 in
  let yoe := y' - era * 400 in
  let doy := (153 * (if 2 <? m then m - 3 else m + 9) + 2) / 5 + d - 1 in
  let doe := yoe * 365 + yoe / 4 - yoe / 100 + doy in
  era * 146097 + doe - 719468.

Definition parse_date (s : text) : option (Z * text) :=
  match parse_digits 4 0 s with
  | Some (y, s1) =>
      match expect 45%N s1 with
      | Some s2 =>
          match parse_digits 2 0 s2 with
          | Some (m, s3) =>
              match expect 45%N s3 with
              | Some s4 =>
                  match parse_digits 2 0 s4 with
                  | Some (d, s5) =>
                      if (1 <=? y) && (1 <=? m) && (m <=? 12) && (1 <=? d)
                         && (d <=? days_in_month y m)
                      then Some (days_from_civil y m d * 86400000000, s5)
                      else None
                  | None => None
                  end
              | None => None
              end
          | None => None
          end
      | None => None
      end
  | None => None
  end.

Definition parse_hms (s : text) : option (Z * text) :=
  match parse_digits 2 0 s with
  | Some (h, s1) =>
      match expect 58%N s1 with
      | Some s2 =>
          match parse_digits 2 0 s2 with
          | Some (mi, s3) =>
              match expect 58%N s3 with
              | Some s4 =>
                  match parse_digits 2 0 s4 with
                  | Some (sec, s5) =>
                      if (h <? 24) && (mi <? 60) && (sec <? 60)
                      then Some (((h * 60 + mi) * 60 + sec) * 1000000, s5)
                      else None
                  | None => None
                  end
              | None => None
              end
          | None => None
          end
      | None => None
      end
  | None => None
  end.

Definition parse_fraction (s : text) : option (Z * text) :=
  match s with
  | 46%N :: tl =>
      match parse_digits 6 0 tl with
      | Some r => Some r
      | None =>
          match parse_digits 3 0 tl with
          | Some (ms, rest) => Some (ms * 1000, rest)
          | None => None
          end
      end
  | _ => Some (0, s)
  end.

Definition parse_offset (s : text) : option (option Z) :=
  match s with
  | [] => Some None
  | sign :: tl =>
      if (sign =? 43)%N || (sign =? 45)%N then
        match parse_digits 2 0 tl with
        | Some (h, s1) =>
            match expect 58%N s1 with
            | Some s2 =>
                match parse_digits 2 0 s2 with
                | Some (mi, []) =>
                    if (h <? 24) && (mi <? 60) then
                      let off := (h * 60 + mi) * 60000000 in
                      Some (Some (if (sign =? 45)%N then - off else off))
                    else None
                | _ => None
                end
            | None => None
            end
        | None => None
        end
      else None
  end.

Definition fromisoformat_basic (s : text) : option datetime :=
  match parse_date s with
  | Some (day_us, []) => Some (Naive day_us)
  | Some (day_us, _ :: s1) =>
      match parse_hms s1 with
      | Some (hms_us, s2) =>
          match parse_fraction s2 with
          | Some (frac_us, s3) =>
              match parse_offset s3 with
              | Some None => Some (Naive (day_us + hms_us + frac_us))
              | Some (Some off) => Some (Aware (day_us + hms_us + frac_us - off))
              | None => None
              end
          | None => None
          end
      | None => None
      end
  | None => None
  end.

(** An interaction in the given guild. *)
Definition in_guild (guild_id : Z) : Interaction :=
  {| interaction_guild_id := Some guild_id |}.

(** ** The guards of [on_message]

    Steps 1 and 2 let the message through: it comes from a user, in a
    guild, with text, the cog has its store and its NVD client, and the
    guild's row says that monitoring is enabled.  [channel_configs] are
    the rows step 3 reads. *)
Definition reaches_channel_check {DB} `{KEVConfigDB DB} (cog : Cog DB)
    (message : Message) (db : DB)
    (get_cve_details : text -> Outcome (option CveData)) (guild_id : Z)
    (guild_config : GuildConfig) (channel_configs : list ChannelConfig) : Prop :=
  author_bot message = false
  /\ guild message = Some guild_id
  /\ cog_db cog = Some db
  /\ nvd_client cog = Some get_cve_details
  /\ content message <> []
  /\ get_cve_guild_config db guild_id = Ret (Some guild_config)
  /\ cve_monitoring_enabled guild_config = true
  /\ get_all_cve_channel_configs_for_guild db guild_id = Ret channel_configs.

(** ** Reading a trace *)

(** The [(found, shown)] pairs of the truncation notices handed to
    [message.channel.send], in order. *)
Fixpoint notice_sends (evs : list Event) : list (nat * nat) :=
  match evs with
  | [] => []
  | ESend (TruncationNotice found shown _) _ :: tl => (found, shown) :: notice_sends tl
  | _ :: tl => notice_sends tl
  end.

(** The shape of what the handler does towards Discord: per identifier
    a vulnerability embed, a delay when it went out, then possibly the
    exploitation embed of the same identifier and again a delay; at the
    very end possibly the truncation notice. *)
Inductive well_paced (get_cve_details : text -> Outcome (option CveData))
    : list Event -> Prop :=
| wp_nil : well_paced get_cve_details []
| wp_notice found shown delete_after r :
    well_paced get_cve_details [ESend (TruncationNotice found shown delete_after) r]
| wp_cve_failed d v r tl :
    r <> Sent ->
    well_paced get_cve_details tl ->
    well_paced get_cve_details (ESend (CveEmbed d v) r :: tl)
| wp_cve d v tl :
    well_paced get_cve_details tl ->
    well_paced get_cve_details
      (ESend (CveEmbed d v) Sent :: ESleep SEND_DELAY :: tl)
| wp_cve_kev c d k v r tl :
    get_cve_details c = Ret (Some d) ->
    well_paced get_cve_details tl ->
    well_paced get_cve_details
      (ESend (CveEmbed d v) Sent :: ESleep SEND_DELAY :: ESend (KevEmbed c k v) r
         :: (if r is Sent then ESleep SEND_DELAY :: tl else tl)).

(** ** Reading keys *)

Definition is_aware (d : datetime) : bool :=
  match d with
  | Aware _ => true
  | Naive _ => false
  end.

Definition instant (d : datetime) : Z :=
  match d with
  | Naive us | Aware us => us
  end.

(** [a] may stand in front of [b] in a list sorted by decreasing key. *)
Definition key_ge {A} (a b : datetime * A) : Prop :=
  instant (fst b) <= instant (fst a).

(** All keys are naive, or all are aware. *)
Definition same_kind {A} (l : list (datetime * A)) : Prop :=
  exists z, Forall (fun x => is_aware (fst x) = z) l.

Definition dated (published : Published) : CveData :=
  {| cve_id := cps "CVE-2024-0001"; cvss := None; published := published |}.

(** ** Example data *)

Definition default_config : GuildConfig :=
  {| cve_monitoring_enabled := true; verbose_mode := false;
     cve_severity_threshold := "all" |}.

(** Guild 1 with monitoring disabled and no channel rows. *)
Definition disabled_guild_db : MemDB :=
  {| guild_rows := {[ 1 := with_enabled false default_config ]};
     channel_rows := [] |}.


(** An interpreter that lists a set in the order of first occurrence. *)
Definition py_ascii : Interpreter :=
  {| tables := ascii_tables; set_order := fun l => l |}.

Definition zero_stats : BotStats :=
  {| stats_cve_lookups := 0; stats_nvd_fallback_success := 0;
     stats_api_errors_nvd := 0 |}.

(** Guild 1 with the given threshold, monitoring enabled, no channel
    rows. *)
Definition guild_db (threshold : string) : MemDB :=
  {| guild_rows := {[ 1 := with_threshold threshold default_config ]};
     channel_rows := [] |}.

(** Guild 1 with one row, for channel 10, which is disabled. *)
Definition one_disabled_row_db : MemDB :=
  {| guild_rows := {[ 1 := default_config ]};
     channel_rows := [(1, {| channel_id := 10; enabled := false;
                             channel_verbose_mode := None |})] |}.

Fixpoint text_eqb (a b : text) : bool :=
  match a, b with
  | [], [] => true
  | x :: a', y :: b' => (x =? y)%N && text_eqb a' b'
  | _, _ => false
  end.

Definition scored (id : string) (score : Q) : CveData :=
  {| cve_id := cps id; cvss := Some score; published := PubAbsent |}.

(** An NVD client that knows CVE-2024-0001 (8.0) and CVE-2024-0002
    (3.0), fails on CVE-2024-0666 and finds nothing else. *)
Definition example_nvd (c : text) : Outcome (option CveData) :=
  if text_eqb c (cps "CVE-2024-0001") then Ret (Some (scored "CVE-2024-0001" 8))
  else if text_eqb c (cps "CVE-2024-0002") then Ret (Some (scored "CVE-2024-0002" 3))
  else if text_eqb c (cps "CVE-2024-0666") then Raise
  else Ret None.

(** A catalog client whose lookups all fail. *)
Definition failing_kev (c : text) : Outcome (option KevEntry) := Raise.

(** A catalog client that lists CVE-2024-0001. *)
Definition example_kev (c : text) : Outcome (option KevEntry) :=
  if text_eqb c (cps "CVE-2024-0001")
  then Ret (Some {| kev_cveID := c; kev_vulnerabilityName := cps "Example" |})
  else Ret None.

Definition example_cog (db : MemDB)
    (kev : option (text -> Outcome (option KevEntry))) : Cog MemDB :=
  {| cog_db := Some db; nvd_client := Some example_nvd; cisa_kev_client := kev |}.

(** A user's message in guild 1 whose sends all go through. *)
Definition user_message (channel : Z) (content : string) : Message :=
  {| author_bot := false; guild := Some 1; channel := channel;
     content := cps content; channel_send := fun _ => Sent |}.

Definition seven_cves : string :=
  "CVE-2024-1001 CVE-2024-1002 CVE-2024-1003 CVE-2024-1004 CVE-2024-1005 CVE-2024-1006 CVE-2024-1007".

(** ** [/cve lookup] *)

(** What [/cve lookup] answers through [interaction.followup.send]. *)
Inductive Followup : Type :=
| FollowupInvalidFormat                    (* "Invalid CVE ID format. ..." *)
| FollowupNoClient                         (* "The NVD client is not configured ..." *)
| FollowupEmbed (p : Payload)              (* [create_cve_embed(cve_details)] *)
| FollowupNotFound (cve_id_upper : text)   (* "Could not find details for ..." *)
| FollowupUnexpectedError (cve_id_upper : text).

Record Looked : Type := {
  looked_bot : BotStats;
  followups : list Followup
}.

(** [_perform_cve_lookup].  The embed is built with the default
    [verbose=True].  The followups themselves are taken to go through. *)
Definition _perform_cve_lookup
    (nvd : option (text -> Outcome (option CveData))) (cve_id_upper : text)
    (b : BotStats) : Looked :=
  match nvd with
  | None => {| looked_bot := b; followups := [FollowupNoClient] |}
  | Some get_cve_details =>
      let b := incr_cve_lookups b in
      match get_cve_details cve_id_upper with
      | Ret (Some cve_details) =>
          {| looked_bot := incr_nvd_fallback_success b;
             followups := [FollowupEmbed (CveEmbed cve_details true)] |}
      | Ret None =>
          {| looked_bot := b; followups := [FollowupNotFound cve_id_upper] |}
      | Raise =>
          {| looked_bot := incr_api_errors_nvd b;
             followups := [FollowupUnexpectedError cve_id_upper] |}
      end
  end.

(** [lookup_subcommand] *)
Definition lookup_subcommand (U : UnicodeTables)
    (nvd : option (text -> Outcome (option CveData))) (cve_id : text)
    (b : BotStats) : Looked :=
  if negb (CVE_VALIDATE_REGEX_match U cve_id)
  then {| looked_bot := b; followups := [FollowupInvalidFormat] |}
  else _perform_cve_lookup nvd (str_upper U cve_id) b.

(** ** The commands that write the store, as the command tree calls them *)

Inductive SlashCommand : Type :=
| CveChannelsAdd (channel : Z)
| CveChannelsRemove (channel : Z)
| CveChannelsDisableGlobal
| CveChannelsEnableGlobal
| VerboseEnableGlobal
| VerboseDisableGlobal
| VerboseSet (channel : Z) (verbosity : bool)
| VerboseUnset (channel : Z)
| VerboseSetall (verbosity : bool)
| CveThresholdSet (level : SeverityLevelChoices)
| CveThresholdReset.

Definition invoke {DB} `{KEVConfigDB DB} (command : SlashCommand)
    (interaction : Interaction) : Cmd DB unit :=
  match command with
  | CveChannelsAdd channel => channels_add_command interaction channel
  | CveChannelsRemove channel => channels_remove_command interaction channel
  | CveChannelsDisableGlobal => channels_disable_global_command interaction
  | CveChannelsEnableGlobal => channels_enable_global_command interaction
  | VerboseEnableGlobal => verbose_enable_global_command interaction
  | VerboseDisableGlobal => verbose_disable_global_command interaction
  | VerboseSet channel verbosity =>
      verbose_channel_set_command interaction channel verbosity
  | VerboseUnset channel => verbose_channel_unset_command interaction channel
  | VerboseSetall verbosity => verbose_channel_setall_command interaction verbosity
  | CveThresholdSet level => threshold_set_command interaction level
  | CveThresholdReset => threshold_reset_command interaction
  end.

(** The guild a call on the store is about. *)
Definition call_guild (call : DbCall) : Z :=
  match call with
  | Call_get_cve_guild_config g
  | Call_set_cve_guild_config g _ _ _
  | Call_update_cve_guild_enabled g _
  | Call_update_cve_guild_verbose_mode g _
  | Call_update_cve_guild_severity_threshold g _
  | Call_add_or_update_cve_channel g _ _ _ _ _
  | Call_remove_cve_channel g _
  | Call_set_channel_verbosity g _ _
  | Call_set_all_channel_verbosity g _ => g
  end.

(** The call writes the guild's row, or a channel's. *)
Definition is_write (call : DbCall) : bool :=
  match call with
  | Call_get_cve_guild_config _ => false
  | _ => true
  end.

(** ** Reading a scan *)

(** A text cut into a leading gap and matches, each followed by a gap. *)
Definition weave (gap : text) (pieces : list (text * text)) : text :=
  gap ++ flat_map (fun piece => fst piece ++ snd piece) pieces.

(** ** Counting in a trace *)

Fixpoint sleeps (evs : list Event) : nat :=
  match evs with
  | [] => 0
  | ESleep _ :: tl => S (sleeps tl)
  | ESend _ _ :: tl => sleeps tl
  end.

Fixpoint embed_sends (evs : list Event) : nat :=
  match evs with
  | [] => 0
  | ESend p _ :: tl => if is_embed p then S (embed_sends tl) else embed_sends tl
  | ESleep _ :: tl => embed_sends tl
  end.

(** ** Steps of [/cve latest] around the sort *)

(** Filter 4, "In KEV".  [catalog] is what
    [self.bot.cisa_kev_client.get_full_kev_catalog()] gives, [None] when
    there is no client; a falsy answer counts as the empty catalog
    ([... or []]).  The call is outside every inner [try]: when it
    raises, the filter raises. *)
Definition in_kev_filter (in_kev : option bool)
    (catalog : option (Outcome (option (list KevEntry)))) (cves : list CveData)
    : Outcome (list CveData) :=
  match in_kev, catalog with
  | Some wanted, Some answer =>
      match answer with
      | Raise => Raise
      | Ret entries =>
          let kev_catalog_cves :=
            map kev_cveID (match entries with Some l => l | None => [] end) in
          let listed cve := existsb (text_eqb (cve_id cve)) kev_catalog_cves in
          if wanted then Ret (List.filter listed cves)
          else Ret (List.filter (fun cve => negb (listed cve)) cves)
      end
  | _, _ => Ret cves
  end.

(** A line of the embed's description. *)
Inductive ListingLine : Type :=
| EntryLine (i : nat) (cve : CveData)     (* "**i. [id](link)** - Score: ..." *)
| MoreLine (more : nat).                  (* "... and N more" *)

(** [for i, cve in enumerate(results_to_show, 1): ...], with its
    [break] behind the fifth entry of a longer list. *)
Fixpoint description_lines_from (i total : nat) (results : list CveData)
    : list ListingLine :=
  match results with
  | [] => []
  | cve :: rest =>
      EntryLine i cve ::
        (if (5 <=? i)%nat && (5 <? total)%nat then [MoreLine (total - 5)]
         else description_lines_from (S i) total rest)
  end.

Definition description_lines (results : list CveData) : list ListingLine :=
  description_lines_from 1 (length results) results.

Fixpoint entry_lines (lines : list ListingLine) : list CveData :=
  match lines with
  | [] => []
  | EntryLine _ cve :: tl => cve :: entry_lines tl
  | MoreLine _ :: tl => entry_lines tl
  end.

(** What [/cve latest] answers once the filters have run. *)
Inductive LatestReply : Type :=
| LatestNoMatch       (* "No CVEs found matching your criteria ..." *)
| LatestListing (lines : list ListingLine) (found shown : nat).
                      (* footer: "Found {found} CVEs matching criteria.
                         Showing top {shown}." *)

(** The end of [cve_latest_command]: sort, cut to [count], list. *)
Definition latest_reply (fromisoformat : text -> option datetime)
    (leftover : list CveData -> list CveData) (cves : list CveData) (count : nat)
    : LatestReply :=
  let sorted := filtered_cves (sort_by_published fromisoformat leftover cves) in
  let shown := take count sorted in
  match shown with
  | [] => LatestNoMatch
  | _ :: _ => LatestListing (description_lines shown) (length sorted) (length shown)
  end.

(** ** [create_cve_embed] *)

(** An entry of ["references"]. *)
Record Reference : Type := {
  (** [ref.get("source", "Link")]: [None] when the key is missing *)
  ref_source : option text;
  (** [ref.get("url")]: [None] when the key is missing *)
  ref_url : option text;
  (** [ref.get("tags")], the empty list when missing *)
  ref_tags : list text
}.

(** The record as [create_cve_embed] reads it: for each key the text it
    holds, [None] when the key is missing. *)
Record CveDict : Type := {
  dict_id : option text;
  dict_link : option text;
  (** ["cvss"] when it holds a number *)
  dict_cvss : option Q;
  dict_cvss_version : option text;
  dict_description : option text;
  dict_cvss_vector : option text;
  dict_cwe_ids : list text;
  dict_published : option text;
  dict_modified : option text;
  dict_references : list Reference;
  dict_source : option text
}.

Record EmbedField : Type := {
  field_name : string;
  field_value : text;
  field_inline : bool
}.

(** A [discord.Embed], without its colour and its timestamp. *)
Record Embed : Type := {
  embed_title : text;
  embed_url : option text;
  embed_description : text;
  embed_fields : list EmbedField;
  embed_footer : text
}.

(** [if x:] on a text that may be missing. *)
Definition text_truthy (o : option text) : bool :=
  match o with
  | Some (_ :: _) => true
  | _ => false
  end.

(** [if cve_data.get("cvss"):] on a number that may be missing: zero is
    falsy. *)
Definition number_truthy (o : option Q) : bool :=
  match o with
  | Some q => negb (Qeq_bool q 0)
  | None => false
  end.

Definition or_default (o : option text) (default : string) : text :=
  match o with
  | Some s => s
  | None => cps default
  end.

(** [sep.join(parts)] *)
Fixpoint join (sep : text) (parts : list text) : text :=
  match parts with
  | [] => []
  | [p] => p
  | p :: rest => p ++ sep ++ join sep rest
  end.

(** One turn of the loop over [references[:ref_limit]]. *)
Definition reference_line (ref : Reference) : text :=
  cps "- [" ++ or_default (ref_source ref) "Link" ++ cps "]("
  ++ or_default (ref_url ref) "None" ++ cps ")"
  ++ (match ref_tags ref with
      | [] => []
      | _ :: _ => cps " (" ++ join (cps ", ") (ref_tags ref) ++ cps ")"
      end)
  ++ [10%N].

(** [create_cve_embed].  [str_number] and [str_int] are how an f-string
    renders a number, [strip] is [str.strip]; the three belong to the
    interpreter. *)
Definition create_cve_embed (str_number : Q -> text) (str_int : nat -> text)
    (strip : text -> text) (cve_data : CveDict) (verbose : bool) : Embed :=
  let score_field :=
    if number_truthy (dict_cvss cve_data) then
      let cvss_info :=
        cps "**Score:** "
        ++ match dict_cvss cve_data with Some q => str_number q | None => [] end
        ++ (if verbose && text_truthy (dict_cvss_version cve_data)
            then cps " (" ++ or_default (dict_cvss_version cve_data) "" ++ cps ")"
            else []) in
      [{| field_name := "CVSS Score"; field_value := cvss_info;
          field_inline := negb verbose |}]
    else [] in
  let footer := cps "Source: " ++ or_default (dict_source cve_data) "N/A" in
  let title := or_default (dict_id cve_data) "Unknown CVE" in
  if verbose then
    let description :=
      if text_truthy (dict_description cve_data)
      then or_default (dict_description cve_data) ""
      else cps "No description provided." in
    let vector_field :=
      if text_truthy (dict_cvss_vector cve_data)
      then [{| field_name := "CVSS Vector";
               field_value := cps "`" ++ or_default (dict_cvss_vector cve_data) ""
                              ++ cps "`";
               field_inline := false |}]
      else [] in
    let cwe_field :=
      match dict_cwe_ids cve_data with
      | [] => []
      | _ :: _ =>
          [{| field_name := "Weakness (CWE)";
              field_value := join (cps ", ") (dict_cwe_ids cve_data);
              field_inline := true |}]
      end in
    let published_field :=
      if text_truthy (dict_published cve_data)
      then [{| field_name := "Published";
               field_value := or_default (dict_published cve_data) "";
               field_inline := true |}]
      else [] in
    let modified_field :=
      if text_truthy (dict_modified cve_data)
      then [{| field_name := "Last Modified";
               field_value := or_default (dict_modified cve_data) "";
               field_inline := true |}]
      else [] in
    let references_field :=
      match dict_references cve_data with
      | [] => []
      | _ :: _ =>
          let references := dict_references cve_data in
          let ref_limit := 5%nat in
          let ref_text :=
            flat_map reference_line (take ref_limit references)
            ++ (if (ref_limit <? length references)%nat
                then cps "*...and " ++ str_int (length references - ref_limit)%nat
                     ++ cps " more.*"
                else []) in
          [{| field_name := "References"; field_value := strip ref_text;
              field_inline := false |}]
      end in
    {| embed_title := title; embed_url := dict_link cve_data;
       embed_description := description;
       embed_fields := score_field ++ vector_field ++ cwe_field ++ published_field
                       ++ modified_field ++ references_field;
       embed_footer := footer |}
  else
    let desc_snippet :=
      take 100 (or_default (dict_description cve_data) "No description provided.") in
    let desc_snippet :=
      if (100 <? length (or_default (dict_description cve_data) ""))%nat
      then desc_snippet ++ cps "..."
      else desc_snippet in
    {| embed_title := title; embed_url := dict_link cve_data;
       embed_description := desc_snippet;
       embed_fields := score_field;
       embed_footer := footer |}.

(** * Properties *)

(** ** Severity gate *)

Lemma Qltb_false (x y : Q) : Qltb x y = false <-> (y <= x)%Q.
Proof.
  unfold Qltb. rewrite negb_false_iff. apply Qle_bool_iff.
Qed.

Lemma passes_threshold_numeric (thr : string) (q : Q) :
  passes_threshold thr (Some q) = true <-> (min_score_threshold thr <= q)%Q.
Proof.
  unfold passes_threshold.
  destruct (Qltb q (min_score_threshold thr)) eqn:E.
  - split; [discriminate |].
    intros Hle. apply Qltb_false in Hle. congruence.
  - split; [intros _; now apply Qltb_false | reflexivity].
Qed.

Lemma passes_threshold_missing (thr : string) :
  passes_threshold thr None = true <-> thr = "all".
Proof.
  unfold passes_threshold.
  destruct (String.eqb thr "all") eqn:E; simpl.
  - apply String.eqb_eq in E. tauto.
  - apply String.eqb_neq in E. split; [discriminate | contradiction].
Qed.

(** C1.  For each of the five levels [L] and each score [s] of the data
    model (absent, or a number that is not negative), a record passes the
    gate exactly when [L] is [all] or [s] is a number with
    [table[L] <= s]; the table is 9.0, 7.0, 4.0, 0.1, 0.0; a record
    without a score never passes under a level other than [all]. *)
Theorem severity_gate_iff (L : SeverityLevelChoices) (s : option Q) :
  (forall q, s = Some q -> (0 <= q)%Q) ->
  (passes_threshold (level_name L) s = true <->
     L = all \/ exists q, s = Some q /\ (min_score_threshold (level_name L) <= q)%Q)
  /\ map (fun l => min_score_threshold (level_name l))
         [critical; high; medium; low; all]
     = [9%Q; 7%Q; 4%Q; (1 # 10)%Q; 0%Q]
  /\ (L <> all -> passes_threshold (level_name L) None = false).
Proof.
  intros Hrange. split; [| split].
  - destruct s as [q |].
    + rewrite passes_threshold_numeric. split.
      * intros Hle. right. exists q. split; [reflexivity | exact Hle].
      * intros [-> | (q' & Hq & Hle)].
        -- simpl. apply Hrange. reflexivity.
        -- injection Hq as <-. exact Hle.
    + rewrite passes_threshold_missing. split.
      * intros Hall. left. destruct L; simpl in Hall; congruence.
      * intros [-> | (q' & Hq & _)]; [reflexivity | discriminate].
  - reflexivity.
  - intros Hne. destruct L; try reflexivity. contradiction.
Qed.

Lemma severity_gate_iff_witness :
  (forall q, Some (85 # 10)%Q = Some q -> (0 <= q)%Q)
  /\ ((passes_threshold (level_name high) (Some (85 # 10)%Q) = true <->
         high = all \/
         exists q, Some (85 # 10)%Q = Some q
                   /\ (min_score_threshold (level_name high) <= q)%Q)
      /\ map (fun l => min_score_threshold (level_name l))
             [critical; high; medium; low; all]
         = [9%Q; 7%Q; 4%Q; (1 # 10)%Q; 0%Q]
      /\ (high <> all -> passes_threshold (level_name high) None = false)).
Proof.
  assert (Hrange : forall q, Some (85 # 10)%Q = Some q -> (0 <= q)%Q).
  { intros q Hq. injection Hq as <-. unfold Qle. simpl. lia. }
  split; [exact Hrange | exact (severity_gate_iff high (Some (85 # 10)%Q) Hrange)].
Defined.

(** Outside the data model: under [all] the table gives 0.0, and a
    negative number is below it. *)
Example negative_score_under_all :
  passes_threshold (level_name all) (Some (-1)%Q) = false.
Proof. reflexivity. Qed.

(** The threshold example of the specification: 8.5 passes [high] and
    [medium] and fails [critical]. *)
Example threshold_example :
  passes_threshold "high" (Some (85 # 10)%Q) = true
  /\ passes_threshold "medium" (Some (85 # 10)%Q) = true
  /\ passes_threshold "critical" (Some (85 # 10)%Q) = false.
Proof. repeat split. Qed.

(** ** Scanner and validation *)

Lemma span_digits_app (U : UnicodeTables) (s ds rest : text) :
  span_digits U s = (ds, rest) ->
  s = ds ++ rest /\ Forall (fun d => isdecimal U d = true) ds.
Proof.
  revert ds rest. induction s as [| c tl IH]; intros ds rest Hs; simpl in Hs.
  - injection Hs as <- <-. split; [reflexivity | constructor].
  - destruct (isdecimal U c) eqn:Hc.
    + destruct (span_digits U tl) as [ds' rest'] eqn:Htl.
      injection Hs as <- <-.
      destruct (IH ds' rest' eq_refl) as [-> Hall].
      split; [reflexivity | constructor; assumption].
    + injection Hs as <- <-. split; [reflexivity | constructor].
Qed.

Lemma span_digits_all (U : UnicodeTables) (ds : text) :
  Forall (fun d => isdecimal U d = true) ds -> span_digits U ds = (ds, []).
Proof.
  induction 1 as [| d ds Hd _ IH]; simpl; [reflexivity |].
  rewrite Hd, IH. reflexivity.
Qed.

Lemma match_cve_at_scanned (U : UnicodeTables) (s m rest : text) :
  match_cve_at U s = Some (m, rest) -> scanned U m /\ s = m ++ rest.
Proof.
  unfold match_cve_at.
  destruct s as [| c [| v [| e [| h1 [| d1 [| d2 [| d3 [| d4 [| h2 tl]]]]]]]]];
    try discriminate.
  destruct (lit_ci 67%N 99%N c && lit_ci 86%N 118%N v && lit_ci 69%N 101%N e
            && is_hyphen h1
            && isdecimal U d1 && isdecimal U d2 && isdecimal U d3
            && isdecimal U d4 && is_hyphen h2) eqn:Hhead; [| discriminate].
  destruct (span_digits U tl) as [ds rest'] eqn:Hspan.
  destruct (4 <=? length ds)%nat eqn:Hlen; [| discriminate].
  intros [= <- <-].
  repeat (apply andb_prop in Hhead as [Hhead ?]).
  unfold is_hyphen in *.
  repeat match goal with
         | Hh : (_ =? 45)%N = true |- _ => apply N.eqb_eq in Hh; subst
         end.
  destruct (span_digits_app U tl ds rest' Hspan) as [-> Hds].
  split; [| reflexivity].
  constructor; try assumption.
  - repeat constructor; assumption.
  - apply Nat.leb_le. exact Hlen.
Qed.

Lemma findall_from_scanned (U : UnicodeTables) (s : text) :
  forall skip, Forall (scanned U) (findall_from U skip s).
Proof.
  induction s as [| c tl IH]; intros skip; simpl; [constructor |].
  destruct skip as [| k]; [| apply IH].
  destruct (match_cve_at U (c :: tl)) as [[m rest] |] eqn:Hm; [| apply IH].
  constructor; [| apply IH].
  apply (match_cve_at_scanned U (c :: tl) m rest Hm).
Qed.

Lemma lit_ci_cases (up lo c : codepoint) :
  lit_ci up lo c = true -> c = up \/ c = lo.
Proof.
  unfold lit_ci. intros Hc. apply orb_prop in Hc as [Hc | Hc];
    apply N.eqb_eq in Hc; auto.
Qed.

Lemma str_upper_digits (U : UnicodeTables) (ds : text) :
  unicode_tables_ok U ->
  Forall (fun d => isdecimal U d = true) ds -> str_upper U ds = ds.
Proof.
  intros HU. induction 1 as [| d ds Hd _ IH]; [reflexivity |].
  unfold str_upper in *. simpl. rewrite IH, (upper_decimal U HU d Hd). reflexivity.
Qed.

(** Upper-casing a scanned text gives the canonical prefix followed by
    the same digits. *)
Lemma str_upper_scanned (U : UnicodeTables) (m : text) :
  unicode_tables_ok U -> scanned U m ->
  exists d1 d2 d3 d4 ds,
    str_upper U m = 67%N :: 86%N :: 69%N :: 45%N :: d1 :: d2 :: d3 :: d4 :: 45%N :: ds
    /\ Forall (fun d => isdecimal U d = true) (d1 :: d2 :: d3 :: d4 :: ds)
    /\ (4 <= length ds)%nat.
Proof.
  intros HU [c v e d1 d2 d3 d4 ds Hc Hv He Hds Hlen].
  exists d1, d2, d3, d4, ds. split; [| split; assumption].
  pose proof Hds as Hds'.
  apply Forall_cons in Hds' as [H1 Hds']. apply Forall_cons in Hds' as [H2 Hds'].
  apply Forall_cons in Hds' as [H3 Hds']. apply Forall_cons in Hds' as [H4 Hds'].
  unfold str_upper. simpl.
  change (flat_map (upper_cp U) ds) with (str_upper U ds).
  rewrite (str_upper_digits U ds HU Hds').
  rewrite (upper_decimal U HU d1 H1), (upper_decimal U HU d2 H2),
    (upper_decimal U HU d3 H3), (upper_decimal U HU d4 H4), (upper_hyphen U HU).
  destruct (lit_ci_cases _ _ _ Hc) as [-> | ->];
    destruct (lit_ci_cases _ _ _ Hv) as [-> | ->];
    destruct (lit_ci_cases _ _ _ He) as [-> | ->];
    rewrite ?(upper_C U HU), ?(upper_c U HU), ?(upper_V U HU), ?(upper_v U HU),
      ?(upper_E U HU), ?(upper_e U HU); reflexivity.
Qed.

Lemma validate_scanned_upper (U : UnicodeTables) (m : text) :
  unicode_tables_ok U -> scanned U m ->
  CVE_VALIDATE_REGEX_match U (str_upper U m) = true.
Proof.
  intros HU Hm.
  destruct (str_upper_scanned U m HU Hm) as (d1 & d2 & d3 & d4 & ds & -> & Hds & Hlen).
  apply Forall_cons in Hds as [H1 Hds]. apply Forall_cons in Hds as [H2 Hds].
  apply Forall_cons in Hds as [H3 Hds]. apply Forall_cons in Hds as [H4 Hds].
  unfold CVE_VALIDATE_REGEX_match, match_cve_at. cbv beta iota.
  rewrite H1, H2, H3, H4, (span_digits_all U ds Hds). cbv beta iota.
  apply Nat.leb_le in Hlen. rewrite Hlen. reflexivity.
Qed.

Lemma ascii_tables_ok : unicode_tables_ok ascii_tables.
Proof.
  constructor; try reflexivity.
  intros d Hd. simpl in *.
  apply andb_prop in Hd as [Hlo Hhi].
  apply N.leb_le in Hlo. apply N.leb_le in Hhi.
  destruct (97 <=? d)%N eqn:Hd97; [| reflexivity].
  apply N.leb_le in Hd97. lia.
Qed.

(** Every identifier the handler takes from a message passes the
    validation of the loop. *)
Lemma found_cves_valid (U : UnicodeTables) (content : text) :
  unicode_tables_ok U ->
  Forall (fun c => CVE_VALIDATE_REGEX_match U c = true) (found_cves_set U content).
Proof.
  intros HU. unfold found_cves_set, CVE_SCAN_REGEX_findall.
  apply List.Forall_forall. intros c Hc.
  rewrite <- list_elem_of_In, elem_of_remove_dups, list_elem_of_In, in_map_iff in Hc.
  destruct Hc as (m & <- & Hm).
  apply validate_scanned_upper; [assumption |].
  pose proof (findall_from_scanned U content 0%nat) as Hall.
  rewrite List.Forall_forall in Hall. apply Hall. exact Hm.
Qed.

(** C9.  Whatever the message text, each candidate of the scanner (a
    match of the scan pattern, upper-cased) matches the anchored
    validation pattern; so does each identifier of the batch the loop
    runs over, and the branch that skips a malformed candidate is never
    taken. *)
Theorem scanned_candidates_validate (py : Interpreter) (content : text) :
  unicode_tables_ok (tables py) ->
  Forall (fun cve_id => CVE_VALIDATE_REGEX_match (tables py) cve_id = true)
    (map (str_upper (tables py)) (CVE_SCAN_REGEX_findall (tables py) content))
  /\ (set_order_ok py ->
      Forall (fun cve_id => CVE_VALIDATE_REGEX_match (tables py) cve_id = true)
        (cves_to_process py content)).
Proof.
  intros HU. split.
  - apply List.Forall_forall. intros c Hc.
    apply in_map_iff in Hc as (m & <- & Hm).
    apply validate_scanned_upper; [assumption |].
    pose proof (findall_from_scanned (tables py) content 0%nat) as Hall.
    rewrite List.Forall_forall in Hall. apply Hall. exact Hm.
  - intros Horder. unfold cves_to_process.
    apply Forall_take.
    apply (Permutation_Forall (Permutation_sym (Horder _))).
    apply found_cves_valid. exact HU.
Qed.

Lemma scanned_candidates_validate_witness :
  let content := cps "see cve-2024-0001 and Cve-2023-123456x" in
  unicode_tables_ok (tables py_ascii)
  /\ set_order_ok py_ascii
  /\ Forall (fun cve_id => CVE_VALIDATE_REGEX_match (tables py_ascii) cve_id = true)
       (map (str_upper (tables py_ascii))
          (CVE_SCAN_REGEX_findall (tables py_ascii) content))
  /\ Forall (fun cve_id => CVE_VALIDATE_REGEX_match (tables py_ascii) cve_id = true)
       (cves_to_process py_ascii content).
Proof.
  intros content.
  assert (Horder : set_order_ok py_ascii) by (intros l; reflexivity).
  split; [exact ascii_tables_ok |]. split; [exact Horder |].
  destruct (scanned_candidates_validate py_ascii content ascii_tables_ok)
    as [Hscan Hbatch].
  split; [exact Hscan | exact (Hbatch Horder)].
Defined.

(** The scanner on that text: two candidates, in canonical form. *)
Example scanner_example :
  found_cves_set ascii_tables (cps "see cve-2024-0001 and Cve-2023-123456x")
  = [cps "CVE-2024-0001"; cps "CVE-2023-123456"].
Proof. vm_compute. reflexivity. Qed.

(** ** Configuration commands *)

(** Unfolds a command down to the calls on the store. *)
Ltac unfold_cmd :=
  unfold run, with_db_and_guild, db_and_guild, ensured, _ensure_guild_config,
    try_except, cmd_bind, cmd_ret, send_message, fresh_cog,
    db_get_cve_guild_config, db_set_cve_guild_config, db_update_cve_guild_enabled,
    db_update_cve_guild_verbose_mode, db_update_cve_guild_severity_threshold,
    db_add_or_update_cve_channel, db_remove_cve_channel, db_set_channel_verbosity,
    db_set_all_channel_verbosity, db_read, db_write;
  cbn [self_db db_calls replies interaction_guild_id fst snd app].

(** Runs the unfolded command with the answers of the store at hand. *)
Ltac step_cmd :=
  repeat first
    [ progress cbn [self_db db_calls replies interaction_guild_id fst snd app negb]
    | match goal with
      | Hr : ?call = Ret _ |- context [?call] => rewrite Hr
      | Hz : (?g =? 0) = false |- context [?g =? 0] => rewrite Hz
      | Hb : ?b = false |- context [negb ?b] => rewrite Hb
      | Hb : ?b = true |- context [negb ?b] => rewrite Hb
      end ].

Section CommandProperties.
Context {DB : Type} `{KEVConfigDB DB}.

(** The commands that go through [_ensure_guild_config] create the
    default row of a guild that has none before they write. *)
Lemma threshold_set_creates_defaults (db db1 db2 : DB) (guild_id : Z)
    (level : SeverityLevelChoices) :
  guild_id <> 0 ->
  get_cve_guild_config db guild_id = Ret None ->
  set_cve_guild_config db guild_id true false "all" = Ret db1 ->
  update_cve_guild_severity_threshold db1 guild_id (level_name level) = Ret db2 ->
  run (threshold_set_command (in_guild guild_id) level) (fresh_cog (Some db))
  = {| self_db := Some db2;
       db_calls := [Call_get_cve_guild_config guild_id;
                    Call_set_cve_guild_config guild_id true false "all";
                    Call_update_cve_guild_severity_threshold guild_id
                      (level_name level)];
       replies := [ReplyDone] |}.
Proof.
  intros Hg Hget Hset Hupd. apply Z.eqb_neq in Hg.
  unfold threshold_set_command, in_guild. unfold_cmd. step_cmd. reflexivity.
Qed.

Lemma channels_enable_global_creates_defaults (db db1 db2 : DB) (guild_id : Z) :
  guild_id <> 0 ->
  get_cve_guild_config db guild_id = Ret None ->
  set_cve_guild_config db guild_id true false "all" = Ret db1 ->
  update_cve_guild_enabled db1 guild_id true = Ret db2 ->
  run (channels_enable_global_command (in_guild guild_id)) (fresh_cog (Some db))
  = {| self_db := Some db2;
       db_calls := [Call_get_cve_guild_config guild_id;
                    Call_set_cve_guild_config guild_id true false "all";
                    Call_update_cve_guild_enabled guild_id true];
       replies := [ReplyDone] |}.
Proof.
  intros Hg Hget Hset Hupd. apply Z.eqb_neq in Hg.
  unfold channels_enable_global_command, in_guild. unfold_cmd. step_cmd.
  reflexivity.
Qed.

Lemma channels_disable_global_creates_defaults (db db1 db2 : DB) (guild_id : Z) :
  guild_id <> 0 ->
  get_cve_guild_config db guild_id = Ret None ->
  set_cve_guild_config db guild_id true false "all" = Ret db1 ->
  update_cve_guild_enabled db1 guild_id false = Ret db2 ->
  run (channels_disable_global_command (in_guild guild_id)) (fresh_cog (Some db))
  = {| self_db := Some db2;
       db_calls := [Call_get_cve_guild_config guild_id;
                    Call_set_cve_guild_config guild_id true false "all";
                    Call_update_cve_guild_enabled guild_id false];
       replies := [ReplyDone] |}.
Proof.
  intros Hg Hget Hset Hupd. apply Z.eqb_neq in Hg.
  unfold channels_disable_global_command, in_guild. unfold_cmd. step_cmd.
  reflexivity.
Qed.

Lemma verbose_channel_set_creates_defaults (db db1 db2 : DB)
    (guild_id channel : Z) (verbosity : bool) :
  guild_id <> 0 ->
  get_cve_guild_config db guild_id = Ret None ->
  set_cve_guild_config db guild_id true false "all" = Ret db1 ->
  set_channel_verbosity db1 guild_id channel (Some verbosity) = Ret db2 ->
  run (verbose_channel_set_command (in_guild guild_id) channel verbosity)
    (fresh_cog (Some db))
  = {| self_db := Some db2;
       db_calls := [Call_get_cve_guild_config guild_id;
                    Call_set_cve_guild_config guild_id true false "all";
                    Call_set_channel_verbosity guild_id channel (Some verbosity)];
       replies := [ReplyDone] |}.
Proof.
  intros Hg Hget Hset Hupd. apply Z.eqb_neq in Hg.
  unfold verbose_channel_set_command, in_guild. unfold_cmd. step_cmd.
  reflexivity.
Qed.

(** C6, at the input where the code departs from it.  For a guild
    without a [GuildConfig], [/verbose enable_global] makes one call on
    the store, [update_cve_guild_verbose_mode(guild_id, True)]: it
    neither reads the guild's row nor creates the default one, and
    confirms. *)
Theorem verbose_enable_global_skips_defaults (db db1 : DB) (guild_id : Z) :
  guild_id <> 0 ->
  get_cve_guild_config db guild_id = Ret None ->
  update_cve_guild_verbose_mode db guild_id true = Ret db1 ->
  run (verbose_enable_global_command (in_guild guild_id)) (fresh_cog (Some db))
  = {| self_db := Some db1;
       db_calls := [Call_update_cve_guild_verbose_mode guild_id true];
       replies := [ReplyDone] |}.
Proof.
  intros Hg _ Hupd. apply Z.eqb_neq in Hg.
  unfold verbose_enable_global_command, in_guild. unfold_cmd. step_cmd.
  reflexivity.
Qed.

(** C10.  When the guild's row says that monitoring is disabled,
    [/cve channels add] calls [update_cve_guild_enabled(guild_id, True)]
    and then upserts the channel's row as enabled, leaving verbosity,
    threshold and format alone. *)
Theorem channels_add_enables_guild (db db1 db2 : DB) (guild_id channel : Z)
    (cfg : GuildConfig) :
  guild_id <> 0 ->
  get_cve_guild_config db guild_id = Ret (Some cfg) ->
  cve_monitoring_enabled cfg = false ->
  update_cve_guild_enabled db guild_id true = Ret db1 ->
  add_or_update_cve_channel db1 guild_id channel true None None None = Ret db2 ->
  run (channels_add_command (in_guild guild_id) channel) (fresh_cog (Some db))
  = {| self_db := Some db2;
       db_calls := [Call_get_cve_guild_config guild_id;
                    Call_get_cve_guild_config guild_id;
                    Call_update_cve_guild_enabled guild_id true;
                    Call_add_or_update_cve_channel guild_id channel true
                      None None None];
       replies := [ReplyDone] |}.
Proof.
  intros Hg Hget Hoff Hupd Hadd. apply Z.eqb_neq in Hg.
  unfold channels_add_command, in_guild. unfold_cmd. step_cmd. reflexivity.
Qed.

(** With monitoring already enabled the guild's row is not written. *)
Lemma channels_add_keeps_enabled_guild (db db1 : DB) (guild_id channel : Z)
    (cfg : GuildConfig) :
  guild_id <> 0 ->
  get_cve_guild_config db guild_id = Ret (Some cfg) ->
  cve_monitoring_enabled cfg = true ->
  add_or_update_cve_channel db guild_id channel true None None None = Ret db1 ->
  run (channels_add_command (in_guild guild_id) channel) (fresh_cog (Some db))
  = {| self_db := Some db1;
       db_calls := [Call_get_cve_guild_config guild_id;
                    Call_get_cve_guild_config guild_id;
                    Call_add_or_update_cve_channel guild_id channel true
                      None None None];
       replies := [ReplyDone] |}.
Proof.
  intros Hg Hget Hon Hadd. apply Z.eqb_neq in Hg.
  unfold channels_add_command, in_guild. unfold_cmd. step_cmd. reflexivity.
Qed.

End CommandProperties.

(** The two commands on the in-memory store. *)

Lemma verbose_enable_global_skips_defaults_witness :
  1 <> 0
  /\ get_cve_guild_config empty_db 1 = Ret None
  /\ update_cve_guild_verbose_mode empty_db 1 true
     = Ret (mem_alter_guild (with_verbose true) empty_db 1)
  /\ run (verbose_enable_global_command (in_guild 1)) (fresh_cog (Some empty_db))
     = {| self_db := Some (mem_alter_guild (with_verbose true) empty_db 1);
          db_calls := [Call_update_cve_guild_verbose_mode 1 true];
          replies := [ReplyDone] |}.
Proof.
  assert (H1 : 1 <> 0) by discriminate.
  assert (H2 : get_cve_guild_config empty_db 1 = Ret None) by reflexivity.
  assert (H3 : update_cve_guild_verbose_mode empty_db 1 true
               = Ret (mem_alter_guild (with_verbose true) empty_db 1))
    by reflexivity.
  split; [exact H1 |]. split; [exact H2 |]. split; [exact H3 |].
  exact (verbose_enable_global_skips_defaults empty_db _ 1 H1 H2 H3).
Defined.

(** On this store the guild still has no row after the command has
    confirmed. *)
Example verbose_enable_global_leaves_no_row :
  get_cve_guild_config (mem_alter_guild (with_verbose true) empty_db 1) 1 = Ret None.
Proof. reflexivity. Qed.

Lemma channels_add_enables_guild_witness :
  1 <> 0
  /\ get_cve_guild_config disabled_guild_db 1
     = Ret (Some (with_enabled false default_config))
  /\ cve_monitoring_enabled (with_enabled false default_config) = false
  /\ update_cve_guild_enabled disabled_guild_db 1 true
     = Ret (mem_alter_guild (with_enabled true) disabled_guild_db 1)
  /\ add_or_update_cve_channel
       (mem_alter_guild (with_enabled true) disabled_guild_db 1) 1 10 true
       None None None
     = Ret {| guild_rows := {[ 1 := default_config ]};
              channel_rows := [(1, {| channel_id := 10; enabled := true;
                                      channel_verbose_mode := None |})] |}
  /\ run (channels_add_command (in_guild 1) 10) (fresh_cog (Some disabled_guild_db))
     = {| self_db :=
            Some {| guild_rows := {[ 1 := default_config ]};
                    channel_rows := [(1, {| channel_id := 10; enabled := true;
                                            channel_verbose_mode := None |})] |};
          db_calls := [Call_get_cve_guild_config 1;
                       Call_get_cve_guild_config 1;
                       Call_update_cve_guild_enabled 1 true;
                       Call_add_or_update_cve_channel 1 10 true None None None];
          replies := [ReplyDone] |}.
Proof.
  assert (H1 : 1 <> 0) by discriminate.
  assert (H2 : get_cve_guild_config disabled_guild_db 1
               = Ret (Some (with_enabled false default_config))) by reflexivity.
  assert (H3 : cve_monitoring_enabled (with_enabled false default_config) = false)
    by reflexivity.
  assert (H4 : update_cve_guild_enabled disabled_guild_db 1 true
               = Ret (mem_alter_guild (with_enabled true) disabled_guild_db 1))
    by reflexivity.
  assert (H5 : add_or_update_cve_channel
                 (mem_alter_guild (with_enabled true) disabled_guild_db 1) 1 10 true
                 None None None
               = Ret {| guild_rows := {[ 1 := default_config ]};
                        channel_rows := [(1, {| channel_id := 10; enabled := true;
                                                channel_verbose_mode := None |})] |})
    by reflexivity.
  split; [exact H1 |]. split; [exact H2 |]. split; [exact H3 |].
  split; [exact H4 |]. split; [exact H5 |].
  exact (channels_add_enables_guild disabled_guild_db _ _ 1 10 _ H1 H2 H3 H4 H5).
Defined.

(** ** Reading a well-paced trace *)

Lemma notice_sends_app (evs1 evs2 : list Event) :
  notice_sends (evs1 ++ evs2) = notice_sends evs1 ++ notice_sends evs2.
Proof.
  induction evs1 as [| e tl IH]; [reflexivity |].
  destruct e as [[d v | c k v | found shown da] r | q]; simpl; rewrite IH; reflexivity.
Qed.

Lemma well_paced_no_notice_inside get_cve_details (evs : list Event) :
  well_paced get_cve_details evs -> (length (notice_sends evs) <= 1)%nat.
Proof.
  induction 1 as [| | d v r tl _ _ IH | d v tl _ IH | c d k v r tl _ _ IH];
    simpl; try lia.
  destruct r; simpl; lia.
Qed.

(** A sent embed is followed at once by the delay. *)
Lemma well_paced_delay get_cve_details (evs : list Event) :
  well_paced get_cve_details evs ->
  forall (i : nat) (p : Payload),
    evs !! i = Some (ESend p Sent) -> is_embed p = true ->
    evs !! S i = Some (ESleep SEND_DELAY).
Proof.
  induction 1 as [| found shown da r | d v r tl Hr _ IH | d v tl _ IH
                 | c d k v r tl _ _ IH]; intros i p Hi Hp.
  - destruct i; discriminate.
  - destruct i as [| i]; simpl in Hi; [| destruct i; discriminate].
    injection Hi as <- _. discriminate.
  - destruct i as [| i]; simpl in *.
    + injection Hi as _ ->. contradiction.
    + eapply IH; eassumption.
  - destruct i as [| [| i]]; simpl in *; try discriminate; [reflexivity |].
    eapply IH; eassumption.
  - destruct i as [| [| [| i]]]; simpl in *; try discriminate; [reflexivity | |].
    + injection Hi as _ ->. reflexivity.
    + destruct r; simpl in *; try (eapply IH; eassumption).
      destruct i as [| i]; simpl in *; [discriminate |].
      eapply IH; eassumption.
Qed.

(** An exploitation embed comes right behind the vulnerability embed of
    the same identifier and its delay. *)
Lemma well_paced_kev_after_cve get_cve_details (evs : list Event) :
  well_paced get_cve_details evs ->
  forall (i : nat) c k v r,
    evs !! i = Some (ESend (KevEmbed c k v) r) ->
    exists (j : nat) (d : CveData),
      i = S (S j)
      /\ evs !! j = Some (ESend (CveEmbed d v) Sent)
      /\ evs !! S j = Some (ESleep SEND_DELAY)
      /\ get_cve_details c = Ret (Some d).
Proof.
  induction 1 as [| found shown da r0 | d0 v0 r0 tl Hr _ IH | d0 v0 tl _ IH
                 | c0 d0 k0 v0 r0 tl Hd _ IH]; intros i c k v r Hi.
  - destruct i; discriminate.
  - destruct i as [| i]; simpl in Hi; [discriminate | destruct i; discriminate].
  - destruct i as [| i]; simpl in *; [discriminate |].
    destruct (IH i c k v r Hi) as (j & d & -> & Hj & Hsj & Hd).
    exists (S j), d. auto.
  - destruct i as [| [| i]]; simpl in *; try discriminate.
    destruct (IH i c k v r Hi) as (j & d & -> & Hj & Hsj & Hd).
    exists (S (S j)), d. auto.
  - destruct i as [| [| [| i]]]; simpl in *; try discriminate.
    + injection Hi as <- <- <- <-. exists 0%nat, d0. auto.
    + destruct r0; simpl in *.
      * destruct i as [| i]; simpl in *; [discriminate |].
        destruct (IH i c k v r Hi) as (j & d & -> & Hj & Hsj & Hdd).
        exists (S (S (S (S j)))), d. auto.
      * destruct (IH i c k v r Hi) as (j & d & -> & Hj & Hsj & Hdd).
        exists (S (S (S j))), d. auto.
      * destruct (IH i c k v r Hi) as (j & d & -> & Hj & Hsj & Hdd).
        exists (S (S (S j))), d. auto.
Qed.

(** ** The loop over the identifiers of a message *)

(** Splits on every call and test of one turn of the loop. *)
Ltac case_step :=
  repeat match goal with
         | |- context [match ?x with _ => _ end] => destruct x eqn:?
         end.

Section LoopProperties.
Context {DB : Type} `{KEVConfigDB DB}.
Variables (U : UnicodeTables) (db : DB)
          (get_cve_details : text -> Outcome (option CveData))
          (kev : option (text -> Outcome (option KevEntry)))
          (message : Message) (guild_id : Z) (thr : string).

Local Abbreviation step :=
  (process_cve U db get_cve_details kev message guild_id thr).
Local Abbreviation loop :=
  (process_cves U db get_cve_details kev message guild_id thr).

Lemma process_cves_app (pre post : list text) (b : BotStats) :
  loop (pre ++ post) b
  = let '(b1, evs1) := loop pre b in
    let '(b2, evs2) := loop post b1 in
    (b2, evs1 ++ evs2).
Proof.
  revert b. induction pre as [| c pre IH]; intros b; simpl.
  - destruct (loop post b). reflexivity.
  - destruct (step c b) as [b1 evs1]. rewrite IH.
    destruct (loop pre b1) as [b2 evs2], (loop post b2) as [b3 evs3].
    rewrite app_assoc. reflexivity.
Qed.

(** A valid identifier is looked up: the lookup counter goes up by one
    whatever happens next. *)
Lemma process_cve_lookups (c : text) (b : BotStats) :
  CVE_VALIDATE_REGEX_match U c = true ->
  stats_cve_lookups (fst (step c b)) = stats_cve_lookups b + 1.
Proof.
  intros Hvalid. unfold process_cve. rewrite Hvalid. simpl.
  case_step; reflexivity.
Qed.

Lemma process_cves_lookups (cves : list text) (b : BotStats) :
  Forall (fun c => CVE_VALIDATE_REGEX_match U c = true) cves ->
  stats_cve_lookups (fst (loop cves b))
  = stats_cve_lookups b + Z.of_nat (length cves).
Proof.
  intros Hvalid. revert b.
  induction Hvalid as [| c cves Hc _ IH]; intros b; simpl; [lia |].
  pose proof (process_cve_lookups c b Hc) as Hstep.
  destruct (step c b) as [b1 evs1]. specialize (IH b1).
  destruct (loop cves b1) as [b2 evs2]. simpl in *. lia.
Qed.

Lemma process_cve_well_paced (c : text) (b : BotStats) (tl : list Event) :
  well_paced get_cve_details tl ->
  well_paced get_cve_details (snd (step c b) ++ tl).
Proof.
  intros Htl. unfold process_cve.
  case_step; simpl; try assumption;
    try (apply wp_cve_failed; [discriminate | assumption]);
    try (apply wp_cve; assumption);
    try (apply (wp_cve_kev get_cve_details c _ _ _ Sent tl); assumption);
    try (apply (wp_cve_kev get_cve_details c _ _ _ HTTPException tl); assumption);
    try (apply (wp_cve_kev get_cve_details c _ _ _ OtherException tl); assumption).
Qed.

Lemma process_cves_well_paced (cves : list text) (b : BotStats) (tl : list Event) :
  well_paced get_cve_details tl ->
  well_paced get_cve_details (snd (loop cves b) ++ tl).
Proof.
  intros Htl. revert b. induction cves as [| c cves IH]; intros b; simpl.
  - exact Htl.
  - pose proof (process_cve_well_paced c b) as Hstep.
    destruct (step c b) as [b1 evs1]. specialize (IH b1).
    destruct (loop cves b1) as [b2 evs2]. simpl in *.
    rewrite <- app_assoc. apply Hstep. exact IH.
Qed.

Lemma process_cve_no_notice (c : text) (b : BotStats) :
  notice_sends (snd (step c b)) = [].
Proof. unfold process_cve. case_step; reflexivity. Qed.

Lemma process_cves_no_notice (cves : list text) (b : BotStats) :
  notice_sends (snd (loop cves b)) = [].
Proof.
  revert b. induction cves as [| c cves IH]; intros b; simpl; [reflexivity |].
  pose proof (process_cve_no_notice c b) as Hstep.
  destruct (step c b) as [b1 evs1]. specialize (IH b1).
  destruct (loop cves b1) as [b2 evs2]. simpl in *.
  rewrite notice_sends_app, Hstep, IH. reflexivity.
Qed.

(** A failing fetch is caught: one lookup and one error are counted
    and nothing is sent. *)
Lemma process_cve_fetch_error (c : text) (b : BotStats) :
  CVE_VALIDATE_REGEX_match U c = true ->
  get_cve_details c = Raise ->
  step c b = (incr_api_errors_nvd (incr_cve_lookups b), []).
Proof.
  intros Hvalid Hfetch. unfold process_cve. rewrite Hvalid, Hfetch. reflexivity.
Qed.

(** A record below the threshold, or without a score under a level
    other than [all], counts as a lookup and a success and sends
    nothing. *)
Lemma process_cve_gated_out (c : text) (d : CveData) (b : BotStats) :
  CVE_VALIDATE_REGEX_match U c = true ->
  get_cve_details c = Ret (Some d) ->
  passes_threshold thr (cvss d) = false ->
  step c b = (incr_nvd_fallback_success (incr_cve_lookups b), []).
Proof.
  intros Hvalid Hfetch Hgate. unfold process_cve.
  rewrite Hvalid, Hfetch. simpl. rewrite Hgate. reflexivity.
Qed.

End LoopProperties.

(** A failing catalog lookup is caught on its own: the turn goes on as
    for an identifier that is not in the catalog. *)
Lemma kev_lookup_error (get_kev_entry : text -> Outcome (option KevEntry)) (c : text) :
  get_kev_entry c = Raise -> kev_lookup (Some get_kev_entry) c = None.
Proof. intros Hk. unfold kev_lookup. rewrite Hk. reflexivity. Qed.

(** ** The handler *)

Section HandlerProperties.
Context {DB : Type} `{KEVConfigDB DB}.

Lemma on_message_past_guards (py : Interpreter) (cog : Cog DB) (message : Message)
    (db : DB) (get_cve_details : text -> Outcome (option CveData)) (guild_id : Z)
    (guild_config : GuildConfig) (channel_configs : list ChannelConfig)
    (b : BotStats) :
  reaches_channel_check cog message db get_cve_details guild_id guild_config
    channel_configs ->
  on_message py cog message b
  = if channel_allowed channel_configs (channel message)
    then find_and_process py db get_cve_details (cisa_kev_client cog) message
           guild_id guild_config b
    else returned b [].
Proof.
  intros (Hauthor & Hguild & Hdb & Hnvd & Hcontent & Hcfg & Hen & Hchan).
  unfold on_message. rewrite Hauthor, Hguild, Hdb, Hnvd.
  destruct (content message) as [| x tl]; [contradiction |].
  rewrite Hcfg, Hen, Hchan. simpl.
  destruct (channel_allowed channel_configs (channel message)); reflexivity.
Qed.

(** What the handler sends is well paced, whatever the message. *)
Lemma find_and_process_well_paced (py : Interpreter) (db : DB)
    (get_cve_details : text -> Outcome (option CveData))
    (kev : option (text -> Outcome (option KevEntry)))
    (message : Message) (guild_id : Z) (guild_config : GuildConfig) (b : BotStats) :
  well_paced get_cve_details
    (events (find_and_process py db get_cve_details kev message guild_id
               guild_config b)).
Proof.
  unfold find_and_process.
  destruct (take MAX_CVES_PER_MESSAGE _) as [| c cves] eqn:Hcves; [constructor |].
  pose proof (process_cves_well_paced (tables py) db get_cve_details kev message
                guild_id (cve_severity_threshold guild_config) (c :: cves) b)
    as Hloop.
  destruct (process_cves _ _ _ _ _ _ _ (c :: cves) b) as [b' evs].
  simpl in Hloop.
  destruct (MAX_CVES_PER_MESSAGE <? length _)%nat.
  - destruct (channel_send message _); simpl; apply Hloop; constructor.
  - simpl. rewrite <- (app_nil_r evs). apply Hloop. constructor.
Qed.

Lemma on_message_well_paced (py : Interpreter) (cog : Cog DB) (message : Message)
    (b : BotStats) :
  match nvd_client cog with
  | Some get_cve_details =>
      well_paced get_cve_details (events (on_message py cog message b))
  | None => events (on_message py cog message b) = []
  end.
Proof.
  unfold on_message.
  destruct (nvd_client cog) as [get_cve_details |].
  - destruct (author_bot message); [constructor |].
    destruct (guild message) as [guild_id |]; [| constructor].
    destruct (cog_db cog) as [db |]; [| constructor].
    destruct (content message); [constructor |].
    destruct (get_cve_guild_config db guild_id) as [[guild_config |] |];
      try constructor.
    destruct (negb (cve_monitoring_enabled guild_config)); [constructor |].
    destruct (get_all_cve_channel_configs_for_guild db guild_id)
      as [channel_configs |]; [| constructor].
    destruct (negb (channel_allowed channel_configs (channel message)));
      [constructor |].
    apply find_and_process_well_paced.
  - case_step; reflexivity.
Qed.

End HandlerProperties.

(** ** Allow list, cap and counters *)

Lemma channel_allowed_rows (channel_configs : list ChannelConfig) (channel : Z) :
  channel_configs <> [] ->
  channel_allowed channel_configs channel = true <->
  exists conf, In conf channel_configs
               /\ channel_id conf = channel /\ enabled conf = true.
Proof.
  intros Hne. destruct channel_configs as [| conf0 tl]; [contradiction |].
  unfold channel_allowed. rewrite existsb_exists. split.
  - intros (conf & Hin & Hconf). apply andb_prop in Hconf as [Hid Hen].
    apply Z.eqb_eq in Hid. exists conf. auto.
  - intros (conf & Hin & Hid & Hen). exists conf. split; [exact Hin |].
    rewrite Hen, andb_true_r. apply Z.eqb_eq. exact Hid.
Qed.

Lemma existsb_own_rows (channel_configs : list ChannelConfig) (channel : Z) :
  existsb (fun conf => (channel_id conf =? channel) && enabled conf) channel_configs
  = existsb enabled
      (List.filter (fun conf => channel_id conf =? channel) channel_configs).
Proof.
  induction channel_configs as [| conf tl IH]; [reflexivity |].
  simpl. destruct (channel_id conf =? channel); simpl; rewrite IH; reflexivity.
Qed.

(** Once a guild has rows, whether a channel is monitored depends on
    the rows of that channel alone. *)
Lemma channel_allowed_own_rows (confs1 confs2 : list ChannelConfig) (channel : Z) :
  confs1 <> [] -> confs2 <> [] ->
  List.filter (fun conf => channel_id conf =? channel) confs1
  = List.filter (fun conf => channel_id conf =? channel) confs2 ->
  channel_allowed confs1 channel = channel_allowed confs2 channel.
Proof.
  intros H1 H2 Hrows.
  destruct confs1 as [| a1 t1]; [contradiction |].
  destruct confs2 as [| a2 t2]; [contradiction |].
  unfold channel_allowed. rewrite !existsb_own_rows, Hrows. reflexivity.
Qed.

(** Once a guild has rows, a channel that no enabled row names is not
    monitored: a channel without a row of its own as little as one
    whose rows are disabled. *)
Lemma channel_allowed_unlisted (channel_configs : list ChannelConfig) (channel : Z) :
  channel_configs <> [] ->
  (forall conf, In conf channel_configs -> channel_id conf = channel ->
                enabled conf = false) ->
  channel_allowed channel_configs channel = false.
Proof.
  intros Hne Hoff.
  destruct (channel_allowed channel_configs channel) eqn:Hallowed; [| reflexivity].
  apply (channel_allowed_rows channel_configs channel Hne) in Hallowed
    as (conf & Hin & Hid & Hen).
  rewrite (Hoff conf Hin Hid) in Hen. discriminate Hen.
Qed.

Lemma batch_valid (py : Interpreter) (content : text) :
  set_order_ok py -> unicode_tables_ok (tables py) ->
  Forall (fun c => CVE_VALIDATE_REGEX_match (tables py) c = true)
    (cves_to_process py content).
Proof.
  intros Horder Htables. unfold cves_to_process.
  apply Forall_take.
  apply (Permutation_Forall (Permutation_sym (Horder _))).
  apply found_cves_valid. exact Htables.
Qed.

Lemma batch_length (py : Interpreter) (content : text) :
  set_order_ok py ->
  length (cves_to_process py content)
  = Nat.min MAX_CVES_PER_MESSAGE (length (found_cves_set (tables py) content)).
Proof.
  intros Horder. unfold cves_to_process.
  rewrite length_take, (Permutation_length (Horder _)). reflexivity.
Qed.

Section HandlerCounters.
Context {DB : Type} `{KEVConfigDB DB}.
Variables (py : Interpreter) (db : DB)
          (get_cve_details : text -> Outcome (option CveData))
          (kev : option (text -> Outcome (option KevEntry)))
          (message : Message) (guild_id : Z) (guild_config : GuildConfig).

Local Abbreviation handle :=
  (find_and_process py db get_cve_details kev message guild_id guild_config).

(** Every identifier of the batch is looked up. *)
Lemma find_and_process_lookups (b : BotStats) :
  set_order_ok py -> unicode_tables_ok (tables py) ->
  stats_cve_lookups (bot (handle b))
  = stats_cve_lookups b + Z.of_nat (length (cves_to_process py (content message))).
Proof.
  intros Horder Htables.
  pose proof (batch_valid py (content message) Horder Htables) as Hvalid.
  unfold find_and_process. fold (cves_to_process py (content message)).
  destruct (cves_to_process py (content message)) as [| c cves] eqn:Hbatch;
    [simpl; lia |].
  pose proof (process_cves_lookups (tables py) db get_cve_details kev message
                guild_id (cve_severity_threshold guild_config) (c :: cves) b Hvalid)
    as Hloop.
  destruct (process_cves _ _ _ _ _ _ _ (c :: cves) b) as [b' evs].
  simpl fst in Hloop.
  destruct (MAX_CVES_PER_MESSAGE <? length _)%nat;
    [destruct (channel_send message _) |]; exact Hloop.
Qed.

(** With more identifiers found than the cap, the handler ends with
    the one notice it sends. *)
Lemma find_and_process_notice (b : BotStats) :
  (MAX_CVES_PER_MESSAGE < length (found_cves_set (tables py) (content message)))%nat ->
  set_order_ok py ->
  let found := length (found_cves_set (tables py) (content message)) in
  notice_sends (events (handle b)) = [(found, MAX_CVES_PER_MESSAGE)]
  /\ exists evs r,
       events (handle b)
       = evs ++ [ESend (TruncationNotice found MAX_CVES_PER_MESSAGE 30) r].
Proof.
  intros Hmore Horder found.
  pose proof (batch_length py (content message) Horder) as Hlen.
  unfold find_and_process. fold (cves_to_process py (content message)).
  destruct (cves_to_process py (content message)) as [| c cves] eqn:Hbatch.
  { cbn [length] in Hlen. unfold MAX_CVES_PER_MESSAGE in *. lia. }
  pose proof (process_cves_no_notice (tables py) db get_cve_details kev message
                guild_id (cve_severity_threshold guild_config) (c :: cves) b)
    as Hnone.
  destruct (process_cves _ _ _ _ _ _ _ (c :: cves) b) as [b' evs].
  simpl snd in Hnone.
  apply Nat.ltb_lt in Hmore. rewrite Hmore.
  destruct (channel_send message _) eqn:Hsend; simpl;
    (split; [rewrite notice_sends_app, Hnone; reflexivity
            | eexists _, _; reflexivity]).
Qed.

End HandlerCounters.

Lemma Qltb_true (x y : Q) : (x < y)%Q -> Qltb x y = true.
Proof.
  intros Hlt. unfold Qltb. apply negb_true_iff.
  destruct (Qle_bool y x) eqn:Hle; [| reflexivity].
  apply Qle_bool_iff in Hle. exfalso. exact (Qlt_not_le _ _ Hlt Hle).
Qed.

Lemma set_order_single (py : Interpreter) (c : text) :
  set_order_ok py -> set_order py [c] = [c].
Proof.
  intros Horder. apply Permutation_length_1_inv, Permutation_sym, Horder.
Qed.

Section HandlerClaims.
Context {DB : Type} `{KEVConfigDB DB}.
Variables (py : Interpreter) (cog : Cog DB) (message : Message) (db : DB)
          (get_cve_details : text -> Outcome (option CveData)) (guild_id : Z)
          (guild_config : GuildConfig) (channel_configs : list ChannelConfig).

(** C4.  In a guild whose monitoring is enabled: without rows every
    channel is monitored; a channel is monitored exactly when the guild
    has no row at all or one of its rows names the channel and is
    enabled.  So once the guild has any row, a channel that no enabled
    row names is not monitored, a channel without a row of its own
    included: one disabled row for a channel D stops the monitoring of
    every channel of the guild, not of D alone.  A message to a
    monitored channel is scanned (each identifier of its batch is
    looked up) and a message to another channel is dropped without a
    trace: nothing is sent, no counter moves, no exception leaves the
    handler. *)
Theorem allow_list_semantics (b : BotStats) :
  reaches_channel_check cog message db get_cve_details guild_id guild_config
    channel_configs ->
  set_order_ok py -> unicode_tables_ok (tables py) ->
  (forall channel, channel_allowed [] channel = true)
  /\ (forall channel,
        channel_allowed channel_configs channel = true <->
        channel_configs = []
        \/ exists conf, In conf channel_configs
                        /\ channel_id conf = channel /\ enabled conf = true)
  /\ (channel_configs <> [] ->
      forall channel,
        (forall conf, In conf channel_configs -> channel_id conf = channel ->
                      enabled conf = false) ->
        channel_allowed channel_configs channel = false)
  /\ (forall D v channel,
        channel_allowed
          [{| channel_id := D; enabled := false; channel_verbose_mode := v |}]
          channel = false)
  /\ (channel_allowed channel_configs (channel message) = true ->
      stats_cve_lookups (bot (on_message py cog message b))
      = stats_cve_lookups b
        + Z.of_nat (length (cves_to_process py (content message))))
  /\ (channel_allowed channel_configs (channel message) = false ->
      on_message py cog message b = returned b []).
Proof.
  intros Hguards Horder Htables.
  split; [reflexivity |].
  split.
  { intros channel. destruct channel_configs as [| conf0 tl] eqn:Hrows.
    - split; [intros _; left; reflexivity | reflexivity].
    - rewrite channel_allowed_rows by discriminate.
      split; [intros Hex; right; exact Hex | intros [Hnil | Hex]];
        [discriminate Hnil | exact Hex]. }
  split; [intros Hne channel; apply channel_allowed_unlisted; exact Hne |].
  split.
  { intros D v channel. unfold channel_allowed. simpl.
    rewrite andb_false_r. reflexivity. }
  rewrite (on_message_past_guards py cog message db get_cve_details guild_id
             guild_config channel_configs b Hguards).
  split; intros ->; [| reflexivity].
  apply find_and_process_lookups; assumption.
Qed.

(** C3.  When a message that reaches the scan holds more than five
    distinct identifiers, five are processed (each is looked up), and
    the handler sends one notice, after everything else, that gives
    the number found and the cap. *)
Theorem cap_and_truncation_notice (b : BotStats) :
  reaches_channel_check cog message db get_cve_details guild_id guild_config
    channel_configs ->
  channel_allowed channel_configs (channel message) = true ->
  set_order_ok py -> unicode_tables_ok (tables py) ->
  (5 < length (found_cves_set (tables py) (content message)))%nat ->
  let found := length (found_cves_set (tables py) (content message)) in
  let r := on_message py cog message b in
  length (cves_to_process py (content message)) = 5%nat
  /\ stats_cve_lookups (bot r) = stats_cve_lookups b + 5
  /\ notice_sends (events r) = [(found, 5%nat)]
  /\ exists evs res,
       events r = evs ++ [ESend (TruncationNotice found 5 30) res].
Proof.
  intros Hguards Hallowed Horder Htables Hmore found r. subst r.
  rewrite (on_message_past_guards py cog message db get_cve_details guild_id
             guild_config channel_configs b Hguards), Hallowed.
  assert (Hfive : length (cves_to_process py (content message)) = 5%nat).
  { rewrite batch_length by assumption. unfold MAX_CVES_PER_MESSAGE. lia. }
  split; [exact Hfive |].
  split.
  - rewrite find_and_process_lookups by assumption. rewrite Hfive. reflexivity.
  - apply (find_and_process_notice py db get_cve_details (cisa_kev_client cog)
             message guild_id guild_config b Hmore Horder).
Qed.

(** C7.  A message with one identifier whose record is fetched and
    whose score is below the guild's threshold: nothing is sent, one
    lookup and one success are counted, the error counter stays. *)
Theorem gated_out_counters (b : BotStats) (c : text) (d : CveData) (score : Q) :
  reaches_channel_check cog message db get_cve_details guild_id guild_config
    channel_configs ->
  channel_allowed channel_configs (channel message) = true ->
  set_order_ok py -> unicode_tables_ok (tables py) ->
  found_cves_set (tables py) (content message) = [c] ->
  get_cve_details c = Ret (Some d) ->
  cvss d = Some score ->
  (score < min_score_threshold (cve_severity_threshold guild_config))%Q ->
  let r := on_message py cog message b in
  events r = []
  /\ stats_cve_lookups (bot r) = stats_cve_lookups b + 1
  /\ stats_nvd_fallback_success (bot r) = stats_nvd_fallback_success b + 1
  /\ stats_api_errors_nvd (bot r) = stats_api_errors_nvd b
  /\ propagated r = false.
Proof.
  intros Hguards Hallowed Horder Htables Hfound Hfetch Hscore Hbelow r. subst r.
  rewrite (on_message_past_guards py cog message db get_cve_details guild_id
             guild_config channel_configs b Hguards), Hallowed.
  pose proof (found_cves_valid (tables py) (content message) Htables) as Hvalid.
  rewrite Hfound in Hvalid. apply Forall_cons in Hvalid as [Hvalid _].
  assert (Hgate : passes_threshold (cve_severity_threshold guild_config) (cvss d)
                  = false).
  { rewrite Hscore. unfold passes_threshold. rewrite (Qltb_true _ _ Hbelow).
    reflexivity. }
  unfold find_and_process.
  rewrite Hfound, (set_order_single py c Horder).
  cbn [take MAX_CVES_PER_MESSAGE process_cves].
  rewrite (process_cve_gated_out (tables py) db get_cve_details
             (cisa_kev_client cog) message guild_id
             (cve_severity_threshold guild_config) c d b Hvalid Hfetch Hgate).
  repeat split.
Qed.

End HandlerClaims.

(** ** Emission order and delay *)

Section Emission.
Context {DB : Type} `{KEVConfigDB DB}.

(** An identifier that passes the gate and is in the catalog, with
    both sends going through: the vulnerability embed, the delay, the
    exploitation embed, the delay. *)
Lemma process_cve_both_sent (U : UnicodeTables) (db : DB)
    (get_cve_details : text -> Outcome (option CveData))
    (get_kev_entry : text -> Outcome (option KevEntry))
    (message : Message) (guild_id : Z) (thr : string) (c : text) (d : CveData)
    (k : KevEntry) (verbose : bool) (b : BotStats) :
  CVE_VALIDATE_REGEX_match U c = true ->
  get_cve_details c = Ret (Some d) ->
  passes_threshold thr (cvss d) = true ->
  get_kev_entry c = Ret (Some k) ->
  get_effective_verbosity db guild_id (channel message) = Ret verbose ->
  channel_send message (CveEmbed d verbose) = Sent ->
  channel_send message (KevEmbed c k verbose) = Sent ->
  process_cve U db get_cve_details (Some get_kev_entry) message guild_id thr c b
  = (incr_nvd_fallback_success (incr_cve_lookups b),
     [ESend (CveEmbed d verbose) Sent; ESleep SEND_DELAY;
      ESend (KevEmbed c k verbose) Sent; ESleep SEND_DELAY]).
Proof.
  intros Hvalid Hfetch Hgate Hkev Hverb Hsend1 Hsend2.
  unfold process_cve, kev_lookup.
  rewrite Hvalid, Hfetch. simpl. rewrite Hgate, Hkev, Hverb. simpl.
  rewrite Hsend1, Hsend2. reflexivity.
Qed.

(** C5.  In what the handler does for one message: an embed that went
    out is followed at once by the delay of 1.5; an exploitation embed
    comes right behind the vulnerability embed of the same identifier
    and that delay; hence the delay lies between an embed that went
    out and whatever is sent later, for the same identifier or a later
    one.  Time itself is not modelled, only the order of the sends and
    of the sleeps. *)
Theorem emission_order_and_delay (py : Interpreter) (cog : Cog DB)
    (message : Message) (b : BotStats) :
  let evs := events (on_message py cog message b) in
  SEND_DELAY = (3 # 2)%Q
  /\ (forall (i : nat) p,
        evs !! i = Some (ESend p Sent) -> is_embed p = true ->
        evs !! S i = Some (ESleep SEND_DELAY))
  /\ (forall (i : nat) c k v r,
        evs !! i = Some (ESend (KevEmbed c k v) r) ->
        exists (j : nat) d get_cve_details,
          i = S (S j)
          /\ evs !! j = Some (ESend (CveEmbed d v) Sent)
          /\ evs !! S j = Some (ESleep SEND_DELAY)
          /\ nvd_client cog = Some get_cve_details
          /\ get_cve_details c = Ret (Some d))
  /\ (forall (i j : nat) p q r,
        (i < j)%nat ->
        evs !! i = Some (ESend p Sent) -> is_embed p = true ->
        evs !! j = Some (ESend q r) ->
        evs !! S i = Some (ESleep SEND_DELAY) /\ (S i < j)%nat).
Proof.
  intros evs. subst evs.
  pose proof (on_message_well_paced py cog message b) as Hwp.
  destruct (nvd_client cog) as [get_cve_details |] eqn:Hnvd.
  - assert (Hdelay : forall (i : nat) p,
               events (on_message py cog message b) !! i = Some (ESend p Sent) ->
               is_embed p = true ->
               events (on_message py cog message b) !! S i
               = Some (ESleep SEND_DELAY)).
    { intros i p. apply (well_paced_delay get_cve_details _ Hwp). }
    split; [reflexivity |]. split; [exact Hdelay |]. split.
    + intros i c k v r Hi.
      destruct (well_paced_kev_after_cve get_cve_details _ Hwp i c k v r Hi)
        as (j & d & -> & Hj & Hsj & Hd).
      exists j, d, get_cve_details. auto.
    + intros i j p q r Hlt Hi Hp Hj.
      pose proof (Hdelay i p Hi Hp) as Hsleep. split; [exact Hsleep |].
      destruct (decide (S i = j)) as [<- |]; [| lia].
      rewrite Hsleep in Hj. discriminate.
  - rewrite Hwp. split; [reflexivity |].
    split; [intros i p Hi; destruct i; discriminate |].
    split; [intros i c k v r Hi; destruct i; discriminate |].
    intros i j p q r _ Hi. destruct i; discriminate.
Qed.

End Emission.

(** ** Partial failure *)

Section PartialFailure.
Context {DB : Type} `{KEVConfigDB DB}.
Variables (U : UnicodeTables) (db : DB)
          (get_cve_details : text -> Outcome (option CveData))
          (kev : option (text -> Outcome (option KevEntry)))
          (message : Message) (guild_id : Z) (thr : string).

Local Abbreviation loop :=
  (process_cves U db get_cve_details kev message guild_id thr).

(** C2, as the code has it.  For an identifier [c] anywhere in the
    batch ([pre] before it, [post] behind it):
    - when the fetch raises, this is caught, the lookup and the error
      are counted, nothing is sent for [c], and the identifiers of
      [post] are processed from there;
    - when the fetch gives a record that passes the gate and the
      catalog lookup raises, this is caught on its own and the error
      counter is not touched: [c] counts as a lookup and a success,
      its vulnerability embed is sent (verbosity resolved, send going
      through) with no exploitation embed, and the identifiers of
      [post] are processed from there. *)
Theorem partial_failure_contract (pre post : list text) (c : text) (b : BotStats) :
  CVE_VALIDATE_REGEX_match U c = true ->
  (get_cve_details c = Raise ->
   let b1 := incr_api_errors_nvd (incr_cve_lookups (fst (loop pre b))) in
   loop (pre ++ c :: post) b
   = (fst (loop post b1), snd (loop pre b) ++ snd (loop post b1)))
  /\ (forall get_kev_entry d verbose,
        kev = Some get_kev_entry ->
        get_kev_entry c = Raise ->
        get_cve_details c = Ret (Some d) ->
        passes_threshold thr (cvss d) = true ->
        get_effective_verbosity db guild_id (channel message) = Ret verbose ->
        channel_send message (CveEmbed d verbose) = Sent ->
        let b1 := incr_nvd_fallback_success (incr_cve_lookups (fst (loop pre b))) in
        stats_api_errors_nvd b1 = stats_api_errors_nvd (fst (loop pre b))
        /\ loop (pre ++ c :: post) b
           = (fst (loop post b1),
              snd (loop pre b)
              ++ [ESend (CveEmbed d verbose) Sent; ESleep SEND_DELAY]
              ++ snd (loop post b1))).
Proof.
  intros Hvalid. split.
  - intros Hfetch b1. subst b1. rewrite process_cves_app.
    destruct (loop pre b) as [b0 evs0]. cbn [process_cves fst snd].
    rewrite (process_cve_fetch_error U db get_cve_details kev message guild_id thr
               c b0 Hvalid Hfetch).
    destruct (loop post _) as [b2 evs2]. reflexivity.
  - intros get_kev_entry d verbose -> Hkev Hfetch Hgate Hverb Hsend b1. subst b1.
    split; [reflexivity |].
    rewrite process_cves_app.
    destruct (process_cves U db get_cve_details (Some get_kev_entry) message
                guild_id thr pre b) as [b0 evs0].
    cbn [process_cves fst snd].
    unfold process_cve at 1.
    rewrite Hvalid, Hfetch. cbn [negb]. rewrite Hgate. cbn [negb].
    rewrite (kev_lookup_error get_kev_entry c Hkev), Hverb, Hsend.
    destruct (process_cves U db get_cve_details (Some get_kev_entry) message
                guild_id thr post _) as [b2 evs2].
    reflexivity.
Qed.

End PartialFailure.

(** ** The handler on examples *)

Lemma py_ascii_order_ok : set_order_ok py_ascii.
Proof. intros l. reflexivity. Qed.

(** C2 as stated fails: the catalog lookup raises for the one identifier
    of the message, and the error counter is where it was; the
    vulnerability embed goes out. *)
Lemma enrichment_error_not_counted :
  let cog := example_cog (guild_db "all") (Some failing_kev) in
  let r := on_message py_ascii cog (user_message 10 "CVE-2024-0001") zero_stats in
  cves_to_process py_ascii (cps "CVE-2024-0001") = [cps "CVE-2024-0001"]
  /\ failing_kev (cps "CVE-2024-0001") = Raise
  /\ stats_api_errors_nvd (bot r) = stats_api_errors_nvd zero_stats
  /\ stats_api_errors_nvd (bot r) <> stats_api_errors_nvd zero_stats + 1
  /\ events r = [ESend (CveEmbed (scored "CVE-2024-0001" 8) false) Sent;
                 ESleep SEND_DELAY].
Proof.
  vm_compute. repeat split. discriminate.
Qed.

Lemma partial_failure_contract_witness :
  let U := ascii_tables in
  let db := guild_db "all" in
  let message := user_message 10 "" in
  let bad := cps "CVE-2024-0666" in
  let loop := process_cves U db example_nvd (Some failing_kev) message 1 "all" in
  let b1 := incr_api_errors_nvd
              (incr_cve_lookups (fst (loop [cps "CVE-2024-0002"] zero_stats))) in
  CVE_VALIDATE_REGEX_match U bad = true
  /\ example_nvd bad = Raise
  /\ loop ([cps "CVE-2024-0002"] ++ bad :: [cps "CVE-2024-0001"]) zero_stats
     = (fst (loop [cps "CVE-2024-0001"] b1),
        snd (loop [cps "CVE-2024-0002"] zero_stats)
        ++ snd (loop [cps "CVE-2024-0001"] b1)).
Proof.
  intros U db message bad loop b1.
  assert (Hvalid : CVE_VALIDATE_REGEX_match U bad = true) by reflexivity.
  assert (Hfetch : example_nvd bad = Raise) by reflexivity.
  split; [exact Hvalid |]. split; [exact Hfetch |].
  exact (proj1 (partial_failure_contract U db example_nvd (Some failing_kev) message
                  1 "all" [cps "CVE-2024-0002"] [cps "CVE-2024-0001"] bad zero_stats
                  Hvalid) Hfetch).
Defined.

(** The batch of that example: three lookups, two successes, the one
    failing fetch counted, and the embeds of the two records that were
    fetched. *)
Example batch_goes_on_after_fetch_error :
  let r := process_cves ascii_tables (guild_db "all") example_nvd (Some failing_kev)
             (user_message 10 "") 1 "all"
             [cps "CVE-2024-0002"; cps "CVE-2024-0666"; cps "CVE-2024-0001"]
             zero_stats in
  fst r = {| stats_cve_lookups := 3; stats_nvd_fallback_success := 2;
             stats_api_errors_nvd := 1 |}
  /\ snd r = [ESend (CveEmbed (scored "CVE-2024-0002" 3) false) Sent;
              ESleep SEND_DELAY;
              ESend (CveEmbed (scored "CVE-2024-0001" 8) false) Sent;
              ESleep SEND_DELAY].
Proof. vm_compute. split; reflexivity. Qed.

Lemma allow_list_semantics_witness :
  let cog := example_cog one_disabled_row_db None in
  let message := user_message 11 "CVE-2024-0001" in
  let rows := [{| channel_id := 10; enabled := false; channel_verbose_mode := None |}] in
  reaches_channel_check cog message one_disabled_row_db example_nvd 1 default_config rows
  /\ set_order_ok py_ascii
  /\ unicode_tables_ok (tables py_ascii)
  /\ channel_allowed rows (channel message) = false
  /\ on_message py_ascii cog message zero_stats = returned zero_stats [].
Proof.
  intros cog message rows.
  assert (Hguards : reaches_channel_check cog message one_disabled_row_db example_nvd
                      1 default_config rows).
  { unfold reaches_channel_check. repeat split. discriminate. }
  assert (Hrejected : channel_allowed rows (channel message) = false) by reflexivity.
  split; [exact Hguards |]. split; [exact py_ascii_order_ok |].
  split; [exact ascii_tables_ok |]. split; [exact Hrejected |].
  exact (proj2 (proj2 (proj2 (proj2 (proj2
           (allow_list_semantics py_ascii cog message one_disabled_row_db example_nvd
              1 default_config rows zero_stats Hguards py_ascii_order_ok
              ascii_tables_ok))))) Hrejected).
Defined.

(** C4 as stated fails: the other channels do not stay monitored.  With
    rows configured, a channel without a row of its own is not
    monitored, whatever the rows of the other channels say: one disabled
    row for channel 10 leaves channel 11 without alerts (a message there
    that names a known identifier is dropped, nothing is looked up),
    while without any row channel 11 is monitored and the same message
    gets its embed. *)
Example one_disabled_row_rejects_other_channels :
  let message := user_message 11 "CVE-2024-0001" in
  channel_allowed
    [{| channel_id := 10; enabled := false; channel_verbose_mode := None |}] 11 = false
  /\ channel_allowed [] 11 = true
  /\ get_all_cve_channel_configs_for_guild one_disabled_row_db 1
     = Ret [{| channel_id := 10; enabled := false; channel_verbose_mode := None |}]
  /\ on_message py_ascii (example_cog one_disabled_row_db None) message zero_stats
     = returned zero_stats []
  /\ events (on_message py_ascii (example_cog (guild_db "all") None) message zero_stats)
     = [ESend (CveEmbed (scored "CVE-2024-0001" 8) false) Sent; ESleep SEND_DELAY].
Proof. vm_compute. repeat split. Qed.

Lemma cap_and_truncation_notice_witness :
  let cog := example_cog (guild_db "all") None in
  let message := user_message 10 seven_cves in
  let r := on_message py_ascii cog message zero_stats in
  reaches_channel_check cog message (guild_db "all") example_nvd 1
    (with_threshold "all" default_config) []
  /\ channel_allowed [] (channel message) = true
  /\ set_order_ok py_ascii
  /\ unicode_tables_ok (tables py_ascii)
  /\ (5 < length (found_cves_set (tables py_ascii) (content message)))%nat
  /\ length (cves_to_process py_ascii (content message)) = 5%nat
  /\ stats_cve_lookups (bot r) = stats_cve_lookups zero_stats + 5
  /\ notice_sends (events r)
     = [(length (found_cves_set (tables py_ascii) (content message)), 5%nat)]
  /\ exists evs res,
       events r
       = evs ++ [ESend (TruncationNotice
                          (length (found_cves_set (tables py_ascii) (content message)))
                          5 30) res].
Proof.
  intros cog message r.
  assert (Hguards : reaches_channel_check cog message (guild_db "all") example_nvd 1
                      (with_threshold "all" default_config) []).
  { unfold reaches_channel_check. repeat split. discriminate. }
  assert (Hallowed : channel_allowed [] (channel message) = true) by reflexivity.
  assert (Hmore : (5 < length (found_cves_set (tables py_ascii) (content message)))%nat).
  { vm_compute. lia. }
  split; [exact Hguards |]. split; [exact Hallowed |].
  split; [exact py_ascii_order_ok |]. split; [exact ascii_tables_ok |].
  split; [exact Hmore |].
  exact (cap_and_truncation_notice py_ascii cog message (guild_db "all") example_nvd 1
           (with_threshold "all" default_config) [] zero_stats Hguards Hallowed
           py_ascii_order_ok ascii_tables_ok Hmore).
Defined.

(** The cap example of the specification: seven identifiers, five
    lookups, one notice "7 found, 5 shown". *)
Example seven_found_five_shown :
  let r := on_message py_ascii (example_cog (guild_db "all") None)
             (user_message 10 seven_cves) zero_stats in
  stats_cve_lookups (bot r) = 5 /\ notice_sends (events r) = [(7%nat, 5%nat)].
Proof. vm_compute. split; reflexivity. Qed.

Lemma gated_out_counters_witness :
  let cog := example_cog (guild_db "high") None in
  let message := user_message 10 "CVE-2024-0002" in
  let r := on_message py_ascii cog message zero_stats in
  reaches_channel_check cog message (guild_db "high") example_nvd 1
    (with_threshold "high" default_config) []
  /\ channel_allowed [] (channel message) = true
  /\ set_order_ok py_ascii
  /\ unicode_tables_ok (tables py_ascii)
  /\ found_cves_set (tables py_ascii) (content message) = [cps "CVE-2024-0002"]
  /\ example_nvd (cps "CVE-2024-0002") = Ret (Some (scored "CVE-2024-0002" 3))
  /\ cvss (scored "CVE-2024-0002" 3) = Some 3%Q
  /\ (3 < min_score_threshold
            (cve_severity_threshold (with_threshold "high" default_config)))%Q
  /\ events r = []
  /\ stats_cve_lookups (bot r) = stats_cve_lookups zero_stats + 1
  /\ stats_nvd_fallback_success (bot r) = stats_nvd_fallback_success zero_stats + 1
  /\ stats_api_errors_nvd (bot r) = stats_api_errors_nvd zero_stats
  /\ propagated r = false.
Proof.
  intros cog message r.
  assert (Hguards : reaches_channel_check cog message (guild_db "high") example_nvd 1
                      (with_threshold "high" default_config) []).
  { unfold reaches_channel_check. repeat split. discriminate. }
  assert (Hallowed : channel_allowed [] (channel message) = true) by reflexivity.
  assert (Hfound : found_cves_set (tables py_ascii) (content message)
                   = [cps "CVE-2024-0002"]) by (vm_compute; reflexivity).
  assert (Hfetch : example_nvd (cps "CVE-2024-0002")
                   = Ret (Some (scored "CVE-2024-0002" 3))) by reflexivity.
  assert (Hscore : cvss (scored "CVE-2024-0002" 3) = Some 3%Q) by reflexivity.
  assert (Hbelow : (3 < min_score_threshold
                          (cve_severity_threshold
                             (with_threshold "high" default_config)))%Q)
    by reflexivity.
  split; [exact Hguards |]. split; [exact Hallowed |].
  split; [exact py_ascii_order_ok |]. split; [exact ascii_tables_ok |].
  split; [exact Hfound |]. split; [exact Hfetch |]. split; [exact Hscore |].
  split; [exact Hbelow |].
  exact (gated_out_counters py_ascii cog message (guild_db "high") example_nvd 1
           (with_threshold "high" default_config) [] zero_stats
           (cps "CVE-2024-0002") (scored "CVE-2024-0002" 3) 3%Q
           Hguards Hallowed py_ascii_order_ok ascii_tables_ok Hfound Hfetch Hscore
           Hbelow).
Defined.

Lemma emission_order_and_delay_witness :
  let cog := example_cog (guild_db "all") (Some example_kev) in
  let evs := events (on_message py_ascii cog (user_message 10 "CVE-2024-0001")
                       zero_stats) in
  evs !! 2%nat = Some (ESend (KevEmbed (cps "CVE-2024-0001")
                                {| kev_cveID := cps "CVE-2024-0001";
                                   kev_vulnerabilityName := cps "Example" |} false)
                         Sent)
  /\ evs !! 3%nat = Some (ESleep SEND_DELAY).
Proof.
  intros cog evs.
  assert (Hkev : evs !! 2%nat
                 = Some (ESend (KevEmbed (cps "CVE-2024-0001")
                                  {| kev_cveID := cps "CVE-2024-0001";
                                     kev_vulnerabilityName := cps "Example" |} false)
                           Sent)) by (vm_compute; reflexivity).
  split; [exact Hkev |].
  exact (proj1 (proj2 (emission_order_and_delay py_ascii cog
                         (user_message 10 "CVE-2024-0001") zero_stats))
           2%nat _ Hkev eq_refl).
Defined.

(** ** Sorting by publication date *)

Lemma datetime_lt_same_kind (a b : datetime) :
  is_aware a = is_aware b -> datetime_lt a b = Ret (instant a <? instant b).
Proof. destruct a, b; simpl; intros Hk; solve [reflexivity | discriminate]. Qed.

Lemma datetime_lt_mixed (a b : datetime) :
  is_aware a <> is_aware b -> datetime_lt a b = Raise.
Proof. destruct a, b; simpl; intros Hk; solve [reflexivity | contradiction]. Qed.

Section SortProperties.
Context {A : Type}.
Implicit Types (x y : datetime * A) (l s : list (datetime * A)).

Lemma insert_desc_same_kind x l (z : bool) :
  is_aware (fst x) = z ->
  Forall (fun y => is_aware (fst y) = z) l ->
  exists s,
    insert_desc x l = Ret s
    /\ Permutation s (x :: l)
    /\ (forall a, key_ge a x -> HdRel key_ge a l -> HdRel key_ge a s)
    /\ (Sorted key_ge l -> Sorted key_ge s).
Proof.
  intros Hx Hl. induction Hl as [| y tl Hy Htl IH].
  - exists [x]. repeat split; auto.
  - simpl. rewrite datetime_lt_same_kind by congruence.
    destruct (instant (fst x) <? instant (fst y)) eqn:Hlt.
    + apply Z.ltb_lt in Hlt.
      destruct IH as (s' & -> & Hperm & Hhd & Hsorted).
      exists (y :: s'). split; [reflexivity |]. split; [| split].
      * rewrite Hperm. apply perm_swap.
      * intros a _ Ha. inversion Ha; subst. constructor. assumption.
      * intros Hs. inversion Hs as [| ? ? Hs' Hhd']; subst.
        constructor; [apply Hsorted; exact Hs' |].
        apply Hhd; [unfold key_ge; lia | exact Hhd'].
    + apply Z.ltb_ge in Hlt.
      exists (x :: y :: tl). split; [reflexivity |]. split; [reflexivity |].
      split; [intros a Ha _; constructor; exact Ha |].
      intros Hs. constructor; [exact Hs |]. constructor. exact Hlt.
Qed.

(** With keys of one kind the sort goes through: it rearranges the
    list by decreasing key. *)
Lemma sort_desc_same_kind l :
  same_kind l ->
  exists s, sort_desc l = Ret s /\ Permutation s l /\ Sorted key_ge s.
Proof.
  intros [z Hl]. induction Hl as [| x tl Hx Htl IH].
  - exists []. repeat split; constructor.
  - destruct IH as (s' & Hs' & Hperm & Hsorted). simpl. rewrite Hs'.
    assert (Hkind : Forall (fun y => is_aware (fst y) = z) s').
    { apply (Permutation_Forall (Permutation_sym Hperm)). exact Htl. }
    destruct (insert_desc_same_kind x s' z Hx Hkind) as (s & -> & Hp & _ & Hs).
    exists s. split; [reflexivity |]. split; [| auto].
    rewrite Hp. constructor. exact Hperm.
Qed.

(** And only with keys of one kind. *)
Lemma sort_desc_ret_same_kind l s : sort_desc l = Ret s -> same_kind l.
Proof.
  revert s. induction l as [| x tl IH]; intros s Hs.
  - exists true. constructor.
  - simpl in Hs. destruct (sort_desc tl) as [s' |] eqn:Hs'; [| discriminate].
    destruct (IH s' eq_refl) as [z Htl].
    destruct (sort_desc_same_kind tl (ex_intro _ z Htl)) as (s2 & Hs2 & Hperm & _).
    rewrite Hs' in Hs2. injection Hs2 as <-.
    destruct s' as [| y s''].
    + apply Permutation_nil in Hperm. subst tl.
      exists (is_aware (fst x)). repeat constructor.
    + exists z. constructor; [| exact Htl].
      assert (Hy : is_aware (fst y) = z).
      { apply (Permutation_Forall (Permutation_sym Hperm)) in Htl.
        inversion Htl; assumption. }
      simpl in Hs.
      destruct (bool_decide (is_aware (fst x) = is_aware (fst y))) eqn:Hk.
      * apply bool_decide_eq_true in Hk. congruence.
      * apply bool_decide_eq_false in Hk.
        rewrite (datetime_lt_mixed _ _ Hk) in Hs. discriminate.
Qed.

(** The comparison of a naive with an aware key is reached, and
    raises, exactly when the keys are of both kinds. *)
Lemma sort_desc_raises_iff l : sort_desc l = Raise <-> ~ same_kind l.
Proof.
  split.
  - intros Hr Hk. destruct (sort_desc_same_kind l Hk) as (s & Hs & _).
    congruence.
  - intros Hk. destruct (sort_desc l) as [s |] eqn:Hs; [| reflexivity].
    exfalso. apply Hk. exact (sort_desc_ret_same_kind l s Hs).
Qed.

End SortProperties.

Lemma decorate_ret {A} (key : A -> Outcome datetime) (l : list A)
    (keyed : list (datetime * A)) :
  decorate key l = Ret keyed ->
  map snd keyed = l /\ Forall (fun kx => key (snd kx) = Ret (fst kx)) keyed.
Proof.
  revert keyed. induction l as [| x tl IH]; intros keyed Hd; simpl in Hd.
  - injection Hd as <-. split; constructor.
  - destruct (key x) as [k |] eqn:Hk; [| discriminate].
    destruct (decorate key tl) as [r |]; [| discriminate].
    injection Hd as <-. destruct (IH r eq_refl) as [Hmap Hall].
    split; [simpl; congruence | constructor; assumption].
Qed.

(** When the keys are of one kind, the sorting step rearranges the
    records by decreasing key and reports no error. *)
Lemma sort_by_published_same_kind (fromisoformat : text -> option datetime)
    (leftover : list CveData -> list CveData) (cves : list CveData)
    (keyed : list (datetime * CveData)) :
  decorate (get_sort_key fromisoformat) cves = Ret keyed ->
  same_kind keyed ->
  exists s,
    sort_by_published fromisoformat leftover cves
    = {| filtered_cves := map snd s; sort_e := None |}
    /\ Permutation (map snd s) cves
    /\ Sorted key_ge s
    /\ Forall (fun kx => get_sort_key fromisoformat (snd kx) = Ret (fst kx)) s.
Proof.
  intros Hd Hk. unfold sort_by_published. rewrite Hd.
  destruct (sort_desc_same_kind keyed Hk) as (s & -> & Hperm & Hsorted).
  destruct (decorate_ret _ _ _ Hd) as [Hmap Hkeys].
  exists s. split; [reflexivity |]. split; [| split; [exact Hsorted |]].
  - rewrite <- Hmap. apply Permutation_map. exact Hperm.
  - apply (Permutation_Forall (Permutation_sym Hperm)). exact Hkeys.
Qed.

(** C8, at the input where the code departs from it.  A record whose
    timestamp cannot be parsed gets the aware epoch as its key; next to
    a record whose timestamp parses to a naive value (the form NVD
    gives, without offset) the comparison of the two keys raises inside
    [list.sort], in either order of the two records.  The handler
    around the sort catches it, so the list is left as the failed sort
    left it instead of having the unparsable record last. *)
Theorem unparsable_timestamp_breaks_sort (fromisoformat : text -> option datetime)
    (leftover : list CveData -> list CveData) (bad good : CveData) (s t : text)
    (wall_us : Z) :
  published bad = PubStr s ->
  fromisoformat (replace_Z s) = None ->
  published good = PubStr t ->
  fromisoformat (replace_Z t) = Some (Naive wall_us) ->
  get_sort_key fromisoformat bad = Ret EPOCH_UTC
  /\ sort_by_published fromisoformat leftover [bad; good]
     = {| filtered_cves := leftover [bad; good]; sort_e := Some CompareRaised |}
  /\ sort_by_published fromisoformat leftover [good; bad]
     = {| filtered_cves := leftover [good; bad]; sort_e := Some CompareRaised |}.
Proof.
  intros Hbad Hbad_parse Hgood Hgood_parse.
  assert (Hkey_bad : get_sort_key fromisoformat bad = Ret EPOCH_UTC).
  { unfold get_sort_key. rewrite Hbad, Hbad_parse. reflexivity. }
  assert (Hkey_good : get_sort_key fromisoformat good = Ret (Naive wall_us)).
  { unfold get_sort_key. rewrite Hgood, Hgood_parse. reflexivity. }
  split; [exact Hkey_bad |].
  unfold sort_by_published. simpl. rewrite Hkey_bad, Hkey_good.
  split; reflexivity.
Qed.

Lemma unparsable_timestamp_breaks_sort_witness :
  let bad := dated (PubStr (cps "not a date")) in
  let good := dated (PubStr (cps "2024-01-01T00:00:00.000")) in
  published bad = PubStr (cps "not a date")
  /\ fromisoformat_basic (replace_Z (cps "not a date")) = None
  /\ published good = PubStr (cps "2024-01-01T00:00:00.000")
  /\ fromisoformat_basic (replace_Z (cps "2024-01-01T00:00:00.000"))
     = Some (Naive 1704067200000000)
  /\ get_sort_key fromisoformat_basic bad = Ret EPOCH_UTC
  /\ sort_by_published fromisoformat_basic (fun l => l) [bad; good]
     = {| filtered_cves := [bad; good]; sort_e := Some CompareRaised |}
  /\ sort_by_published fromisoformat_basic (fun l => l) [good; bad]
     = {| filtered_cves := [good; bad]; sort_e := Some CompareRaised |}.
Proof.
  intros bad good.
  assert (H1 : published bad = PubStr (cps "not a date")) by reflexivity.
  assert (H2 : fromisoformat_basic (replace_Z (cps "not a date")) = None)
    by reflexivity.
  assert (H3 : published good = PubStr (cps "2024-01-01T00:00:00.000"))
    by reflexivity.
  assert (H4 : fromisoformat_basic (replace_Z (cps "2024-01-01T00:00:00.000"))
               = Some (Naive 1704067200000000)) by (vm_compute; reflexivity).
  split; [exact H1 |]. split; [exact H2 |]. split; [exact H3 |]. split; [exact H4 |].
  exact (unparsable_timestamp_breaks_sort fromisoformat_basic (fun l => l) bad good
           _ _ _ H1 H2 H3 H4).
Defined.

(** A record without the key gets a naive epoch (the default string
    parses without offset); next to a record whose timestamp carries an
    offset the comparison raises as well. *)
Lemma missing_timestamp_among_aware_breaks_sort
    (fromisoformat : text -> option datetime)
    (leftover : list CveData -> list CveData) (missing good : CveData) (t : text)
    (utc_us : Z) :
  fromisoformat (replace_Z DEFAULT_PUBLISHED) = Some (Naive 0) ->
  published missing = PubAbsent ->
  published good = PubStr t ->
  fromisoformat (replace_Z t) = Some (Aware utc_us) ->
  sort_by_published fromisoformat leftover [good; missing]
  = {| filtered_cves := leftover [good; missing]; sort_e := Some CompareRaised |}.
Proof.
  intros Hdefault Hmissing Hgood Hparse.
  assert (Hkey_missing : get_sort_key fromisoformat missing = Ret (Naive 0)).
  { unfold get_sort_key. rewrite Hmissing, Hdefault. reflexivity. }
  assert (Hkey_good : get_sort_key fromisoformat good = Ret (Aware utc_us)).
  { unfold get_sort_key. rewrite Hgood, Hparse. reflexivity. }
  unfold sort_by_published. simpl. rewrite Hkey_missing, Hkey_good. reflexivity.
Qed.

(** A ["published"] entry that is not a string ([None], say) makes the
    key function raise; the sort has not started and the list stays as
    it was. *)
Lemma non_string_timestamp_stops_sort (fromisoformat : text -> option datetime)
    (leftover : list CveData -> list CveData) (pre post : list CveData)
    (odd : CveData) :
  published odd = PubNotStr ->
  sort_by_published fromisoformat leftover (pre ++ odd :: post)
  = {| filtered_cves := pre ++ odd :: post; sort_e := Some KeyRaised |}.
Proof.
  intros Hodd. unfold sort_by_published.
  assert (Hd : decorate (get_sort_key fromisoformat) (pre ++ odd :: post) = Raise).
  { induction pre as [| x pre IH]; simpl.
    - unfold get_sort_key at 1. rewrite Hodd. reflexivity.
    - destruct (get_sort_key fromisoformat x); [rewrite IH |]; reflexivity. }
  rewrite Hd. reflexivity.
Qed.

(** The sort example of the specification, where the timestamps that
    parse are naive: 2024-01-01, missing, 2023-06-01 come out as
    2024-01-01, 2023-06-01, missing. *)
Example sort_example :
  sort_by_published fromisoformat_basic (fun l => l)
    [dated (PubStr (cps "2024-01-01")); dated PubAbsent;
     dated (PubStr (cps "2023-06-01"))]
  = {| filtered_cves := [dated (PubStr (cps "2024-01-01"));
                         dated (PubStr (cps "2023-06-01")); dated PubAbsent];
       sort_e := None |}.
Proof. vm_compute. reflexivity. Qed.

(** * Further properties of the cog *)

(** ** The two patterns *)

Lemma span_digits_app_tail (U : UnicodeTables) (ds rest : text) :
  Forall (fun d => isdecimal U d = true) ds ->
  span_digits U (ds ++ rest)
  = (ds ++ fst (span_digits U rest), snd (span_digits U rest)).
Proof.
  induction 1 as [| d ds Hd _ IH]; simpl.
  - destruct (span_digits U rest). reflexivity.
  - rewrite Hd, IH. reflexivity.
Qed.

(** A text of the scanned shape, followed by anything, is matched at its
    head together with the digits that follow it. *)
Lemma match_cve_at_scanned_app (U : UnicodeTables) (m rest : text) :
  scanned U m ->
  match_cve_at U (m ++ rest)
  = Some (m ++ fst (span_digits U rest), snd (span_digits U rest)).
Proof.
  intros [c v e d1 d2 d3 d4 ds Hc Hv He Hds Hlen].
  apply Forall_cons in Hds as [H1 Hds]. apply Forall_cons in Hds as [H2 Hds].
  apply Forall_cons in Hds as [H3 Hds]. apply Forall_cons in Hds as [H4 Hds].
  unfold match_cve_at. cbn [app]. cbv beta iota.
  rewrite Hc, Hv, He, H1, H2, H3, H4, (span_digits_app_tail U ds rest Hds).
  cbn [is_hyphen N.eqb Pos.eqb andb]. cbv beta iota.
  assert (Hlong : (4 <=? length (ds ++ fst (span_digits U rest)))%nat = true).
  { apply Nat.leb_le. rewrite length_app. lia. }
  rewrite Hlong. reflexivity.
Qed.

Lemma validated_shape (U : UnicodeTables) (cve_id : text) :
  CVE_VALIDATE_REGEX_match U cve_id = true ->
  exists m, scanned U m /\ (cve_id = m \/ cve_id = m ++ [10%N]).
Proof.
  unfold CVE_VALIDATE_REGEX_match.
  destruct (match_cve_at U cve_id) as [[m rest] |] eqn:Hm; [| discriminate].
  destruct (match_cve_at_scanned U cve_id m rest Hm) as [Hshape ->].
  destruct rest as [| c [| c' rest]]; try discriminate.
  - intros _. exists m. split; [exact Hshape |]. left. apply app_nil_r.
  - intros Hc. apply N.eqb_eq in Hc. subst c.
    exists m. split; [exact Hshape |]. right. reflexivity.
Qed.

Lemma shape_validated (U : UnicodeTables) (m : text) :
  scanned U m ->
  CVE_VALIDATE_REGEX_match U m = true
  /\ CVE_VALIDATE_REGEX_match U (m ++ [10%N]) = true.
Proof.
  intros Hshape. unfold CVE_VALIDATE_REGEX_match. split.
  - rewrite <- (app_nil_r m) at 1.
    rewrite (match_cve_at_scanned_app U m [] Hshape). reflexivity.
  - rewrite (match_cve_at_scanned_app U m [10%N] Hshape). simpl.
    destruct (isdecimal U 10%N); reflexivity.
Qed.

(** X1.  The validation pattern accepts exactly the texts of the scanned
    shape (the letters of [CVE] in either case, a hyphen, four digits, a
    hyphen, four digits or more), alone or followed by one newline. *)
Theorem validation_accepts_iff (U : UnicodeTables) (cve_id : text) :
  CVE_VALIDATE_REGEX_match U cve_id = true <->
  exists m, scanned U m /\ (cve_id = m \/ cve_id = m ++ [10%N]).
Proof.
  split; [apply validated_shape |].
  intros (m & Hshape & [-> | ->]); apply (shape_validated U m Hshape).
Qed.

(** An identifier followed by a newline passes the validation of
    [/cve lookup]; followed by a space it does not. *)
Example validation_newline :
  CVE_VALIDATE_REGEX_match ascii_tables (cps "cve-2024-0001" ++ [10%N]) = true
  /\ CVE_VALIDATE_REGEX_match ascii_tables (cps "cve-2024-0001 ") = false.
Proof. split; reflexivity. Qed.

Lemma scanned_nonempty (U : UnicodeTables) (m : text) :
  scanned U m -> exists c m', m = c :: m'.
Proof. intros [c v e d1 d2 d3 d4 ds _ _ _ _ _]. eauto. Qed.

Lemma app_eq_app_short {A} (x1 x2 y1 y2 : list A) :
  x1 ++ x2 = y1 ++ y2 -> (length x1 <= length y1)%nat ->
  exists l, y1 = x1 ++ l /\ x2 = l ++ y2.
Proof.
  intros Heq Hlen.
  destruct (app_eq_app _ _ _ _ Heq) as [l [[-> ->] | [-> ->]]].
  - rewrite length_app in Hlen. destruct l; [| simpl in Hlen; lia].
    exists []. rewrite !app_nil_r. split; reflexivity.
  - exists l. split; reflexivity.
Qed.

Lemma findall_from_weave (U : UnicodeTables) (s : text) :
  forall skip,
    exists gap pieces,
      map fst pieces = findall_from U skip s
      /\ s = weave gap pieces
      /\ (Nat.min skip (length s) <= length gap)%nat.
Proof.
  induction s as [| c tl IH]; intros skip.
  - exists [], []. repeat split. simpl. lia.
  - destruct skip as [| k].
    + simpl.
      destruct (match_cve_at U (c :: tl)) as [[m rest] |] eqn:Hm.
      * destruct (match_cve_at_scanned U (c :: tl) m rest Hm) as [Hshape Hcut].
        destruct (scanned_nonempty U m Hshape) as (c' & m' & ->).
        simpl in Hcut. injection Hcut as <- Htl.
        destruct (IH (length (c :: m') - 1)%nat) as (gap & pieces & Hfst & Hw & Hgap).
        assert (Hshort : (length m' <= length gap)%nat).
        { rewrite Htl, length_app in Hgap. simpl in Hgap. lia. }
        unfold weave in Hw. rewrite Htl in Hw.
        destruct (app_eq_app_short _ _ _ _ Hw Hshort) as (g1 & -> & Hrest).
        exists [], ((c :: m', g1) :: pieces).
        split; [simpl; f_equal; exact Hfst |].
        split; [| simpl; lia].
        unfold weave. simpl. rewrite Htl, Hrest, <- app_assoc. reflexivity.
      * destruct (IH 0%nat) as (gap & pieces & Hfst & Hw & _).
        exists (c :: gap), pieces.
        split; [exact Hfst |]. split; [| simpl; lia].
        unfold weave in *. simpl. rewrite Hw at 1. reflexivity.
    + simpl. destruct (IH k) as (gap & pieces & Hfst & Hw & Hgap).
      exists (c :: gap), pieces.
      split; [exact Hfst |]. split; [| simpl; lia].
      unfold weave in *. simpl. rewrite Hw at 1. reflexivity.
Qed.

(** X2.  What [findall] returns are pieces of the text, in the order of
    the text and without overlap: the text is a gap followed by the
    matches, each with the gap behind it; and each match has the scanned
    shape. *)
Theorem findall_pieces_of_content (U : UnicodeTables) (content : text) :
  exists gap pieces,
    map fst pieces = CVE_SCAN_REGEX_findall U content
    /\ content = weave gap pieces
    /\ Forall (scanned U) (CVE_SCAN_REGEX_findall U content).
Proof.
  destruct (findall_from_weave U content 0%nat) as (gap & pieces & Hfst & Hw & _).
  exists gap, pieces. split; [exact Hfst |]. split; [exact Hw |].
  apply findall_from_scanned.
Qed.

Lemma findall_from_short (U : UnicodeTables) (s : text) :
  forall skip, (length s <= skip)%nat -> findall_from U skip s = [].
Proof.
  induction s as [| c tl IH]; intros skip Hlen; [reflexivity |].
  destruct skip as [| k]; simpl in *; [lia |]. apply IH. lia.
Qed.

Lemma str_upper_canonical (U : UnicodeTables) (c v e d1 d2 d3 d4 : N) (ds : text) :
  unicode_tables_ok U ->
  lit_ci 67%N 99%N c = true -> lit_ci 86%N 118%N v = true ->
  lit_ci 69%N 101%N e = true ->
  Forall (fun d => isdecimal U d = true) (d1 :: d2 :: d3 :: d4 :: ds) ->
  str_upper U (c :: v :: e :: 45%N :: d1 :: d2 :: d3 :: d4 :: 45%N :: ds)
  = 67%N :: 86%N :: 69%N :: 45%N :: d1 :: d2 :: d3 :: d4 :: 45%N :: ds.
Proof.
  intros HU Hc Hv He Hds.
  apply Forall_cons in Hds as [H1 Hds]. apply Forall_cons in Hds as [H2 Hds].
  apply Forall_cons in Hds as [H3 Hds]. apply Forall_cons in Hds as [H4 Hds].
  unfold str_upper. simpl.
  change (flat_map (upper_cp U) ds) with (str_upper U ds).
  rewrite (str_upper_digits U ds HU Hds).
  rewrite (upper_decimal U HU d1 H1), (upper_decimal U HU d2 H2),
    (upper_decimal U HU d3 H3), (upper_decimal U HU d4 H4), (upper_hyphen U HU).
  destruct (lit_ci_cases _ _ _ Hc) as [-> | ->];
    destruct (lit_ci_cases _ _ _ Hv) as [-> | ->];
    destruct (lit_ci_cases _ _ _ He) as [-> | ->];
    rewrite ?(upper_C U HU), ?(upper_c U HU), ?(upper_V U HU), ?(upper_v U HU),
      ?(upper_E U HU), ?(upper_e U HU); reflexivity.
Qed.

(** The upper-cased match has the scanned shape itself and is left alone
    by upper-casing. *)
Lemma str_upper_scanned_fixed (U : UnicodeTables) (m : text) :
  unicode_tables_ok U -> scanned U m ->
  scanned U (str_upper U m) /\ str_upper U (str_upper U m) = str_upper U m.
Proof.
  intros HU [c v e d1 d2 d3 d4 ds Hc Hv He Hds Hlen].
  rewrite (str_upper_canonical U c v e d1 d2 d3 d4 ds HU Hc Hv He Hds).
  split.
  - constructor; solve [reflexivity | assumption].
  - apply str_upper_canonical; solve [reflexivity | assumption].
Qed.

Lemma findall_single (U : UnicodeTables) (c : text) :
  scanned U c -> CVE_SCAN_REGEX_findall U c = [c].
Proof.
  intros Hshape. unfold CVE_SCAN_REGEX_findall.
  pose proof (match_cve_at_scanned_app U c [] Hshape) as Hm.
  rewrite !app_nil_r in Hm. simpl in Hm.
  destruct (scanned_nonempty U c Hshape) as (x & tl & ->).
  cbn [findall_from]. rewrite Hm.
  rewrite findall_from_short; [reflexivity | simpl; lia].
Qed.

Lemma In_found_cves_set (U : UnicodeTables) (content c : text) :
  In c (found_cves_set U content) <->
  exists m, In m (CVE_SCAN_REGEX_findall U content) /\ c = str_upper U m.
Proof.
  unfold found_cves_set.
  rewrite <- list_elem_of_In, elem_of_remove_dups, list_elem_of_In, in_map_iff.
  split; intros (m & H1 & H2); exists m; auto.
Qed.

(** X3.  An identifier taken from a message is in canonical form:
    upper-casing leaves it alone, and scanning it again gives the
    identifier itself and nothing else. *)
Theorem rescan_gives_same_identifier (U : UnicodeTables) (content c : text) :
  unicode_tables_ok U ->
  In c (found_cves_set U content) ->
  str_upper U c = c
  /\ CVE_SCAN_REGEX_findall U c = [c]
  /\ found_cves_set U c = [c].
Proof.
  intros HU Hc. apply In_found_cves_set in Hc as (m & Hm & ->).
  pose proof (findall_from_scanned U content 0%nat) as Hall.
  rewrite List.Forall_forall in Hall. specialize (Hall m Hm).
  destruct (str_upper_scanned_fixed U m HU Hall) as [Hshape Hfixed].
  split; [exact Hfixed |].
  split; [exact (findall_single U _ Hshape) |].
  unfold found_cves_set. rewrite (findall_single U _ Hshape). simpl.
  rewrite Hfixed. reflexivity.
Qed.

Lemma rescan_gives_same_identifier_witness :
  let c := cps "CVE-2023-1234" in
  unicode_tables_ok ascii_tables
  /\ In c (found_cves_set ascii_tables (cps "cve-2023-1234 and CVE-2023-1234"))
  /\ str_upper ascii_tables c = c
  /\ CVE_SCAN_REGEX_findall ascii_tables c = [c]
  /\ found_cves_set ascii_tables c = [c].
Proof.
  intros c.
  assert (Hin : In c (found_cves_set ascii_tables
                        (cps "cve-2023-1234 and CVE-2023-1234")))
    by (vm_compute; left; reflexivity).
  split; [exact ascii_tables_ok |]. split; [exact Hin |].
  exact (rescan_gives_same_identifier ascii_tables _ c ascii_tables_ok Hin).
Defined.

(** The two spellings of the specification collapse to one identifier. *)
Example case_insensitive_dedup :
  found_cves_set ascii_tables (cps "cve-2023-1234 and CVE-2023-1234")
  = [cps "CVE-2023-1234"].
Proof. vm_compute. reflexivity. Qed.

(** X4.  The batch of a message holds no identifier twice, holds at most
    five, and holds only identifiers found in the message. *)
Theorem batch_distinct_and_capped (py : Interpreter) (content : text) :
  set_order_ok py ->
  NoDup (cves_to_process py content)
  /\ (length (cves_to_process py content) <= 5)%nat
  /\ forall c, In c (cves_to_process py content) ->
               In c (found_cves_set (tables py) content).
Proof.
  intros Horder. unfold cves_to_process.
  assert (Hnodup : NoDup (set_order py (found_cves_set (tables py) content))).
  { rewrite (Horder _). apply NoDup_remove_dups. }
  split; [| split].
  - eapply sublist_NoDup; [exact Hnodup | apply sublist_take].
  - rewrite length_take. unfold MAX_CVES_PER_MESSAGE. lia.
  - intros c Hc. apply (Permutation_in c (Horder _)).
    apply list_elem_of_In. apply list_elem_of_In in Hc.
    exact (subseteq_take _ _ c Hc).
Qed.

Lemma batch_distinct_and_capped_witness :
  set_order_ok py_ascii
  /\ NoDup (cves_to_process py_ascii (cps seven_cves))
  /\ (length (cves_to_process py_ascii (cps seven_cves)) <= 5)%nat
  /\ forall c, In c (cves_to_process py_ascii (cps seven_cves)) ->
               In c (found_cves_set (tables py_ascii) (cps seven_cves)).
Proof.
  split; [exact py_ascii_order_ok |].
  exact (batch_distinct_and_capped py_ascii (cps seven_cves) py_ascii_order_ok).
Defined.

(** ** What the handler sends, and how much *)

Lemma sleeps_app (evs1 evs2 : list Event) :
  sleeps (evs1 ++ evs2) = (sleeps evs1 + sleeps evs2)%nat.
Proof.
  induction evs1 as [| [p r | q] tl IH]; simpl; [reflexivity | exact IH |].
  rewrite IH. reflexivity.
Qed.

Lemma embed_sends_app (evs1 evs2 : list Event) :
  embed_sends (evs1 ++ evs2) = (embed_sends evs1 + embed_sends evs2)%nat.
Proof.
  induction evs1 as [| [p r | q] tl IH]; simpl; [reflexivity | | exact IH].
  destruct (is_embed p); rewrite IH; reflexivity.
Qed.

Lemma kev_lookup_some (kev : option (text -> Outcome (option KevEntry)))
    (c : text) (k : KevEntry) :
  kev_lookup kev c = Some k ->
  exists get_kev_entry, kev = Some get_kev_entry /\ get_kev_entry c = Ret (Some k).
Proof.
  unfold kev_lookup. destruct kev as [get |]; [| discriminate].
  destruct (get c) as [[k' |] |] eqn:Hk; try discriminate.
  intros [= ->]. exists get. auto.
Qed.

Section LoopSends.
Context {DB : Type} `{KEVConfigDB DB}.
Variables (U : UnicodeTables) (db : DB)
          (get_cve_details : text -> Outcome (option CveData))
          (kev : option (text -> Outcome (option KevEntry)))
          (message : Message) (guild_id : Z) (thr : string).

Local Abbreviation step :=
  (process_cve U db get_cve_details kev message guild_id thr).
Local Abbreviation loop :=
  (process_cves U db get_cve_details kev message guild_id thr).

(** Why an event of one turn of the loop is there. *)
Lemma process_cve_event (c : text) (b : BotStats) (e : Event) :
  In e (snd (step c b)) ->
  match e with
  | ESend (CveEmbed d v) r =>
      get_cve_details c = Ret (Some d)
      /\ passes_threshold thr (cvss d) = true
      /\ get_effective_verbosity db guild_id (channel message) = Ret v
  | ESend (KevEmbed c' k v) r =>
      c' = c /\ kev_lookup kev c = Some k
  | ESend (TruncationNotice _ _ _) _ => False
  | ESleep seconds => seconds = SEND_DELAY
  end.
Proof.
  unfold process_cve.
  destruct (CVE_VALIDATE_REGEX_match U c); simpl; [| contradiction].
  destruct (get_cve_details c) as [[d |] |]; simpl; try contradiction.
  destruct (passes_threshold thr (cvss d)) eqn:Hgate; simpl; [| contradiction].
  destruct (get_effective_verbosity db guild_id (channel message)) as [verbose |];
    simpl; [| contradiction].
  destruct (channel_send message (CveEmbed d verbose));
    [destruct (kev_lookup kev c) as [k |] eqn:Hk;
       [destruct (channel_send message (KevEmbed c k verbose)) |] | |];
    simpl; intros Hin;
    repeat match goal with
           | Hor : _ \/ _ |- _ => destruct Hor as [<- | Hor]
           | Hf : False |- _ => contradiction
           end; auto.
Qed.

Lemma process_cves_event (cves : list text) (b : BotStats) (e : Event) :
  In e (snd (loop cves b)) ->
  exists c b0, In c cves /\ In e (snd (step c b0)).
Proof.
  revert b. induction cves as [| c cves IH]; intros b; simpl; [contradiction |].
  destruct (step c b) as [b1 evs1] eqn:Hstep.
  destruct (loop cves b1) as [b2 evs2] eqn:Hloop. simpl.
  intros Hin. apply in_app_or in Hin as [Hin | Hin].
  - exists c, b. rewrite Hstep. auto.
  - specialize (IH b1). rewrite Hloop in IH.
    destruct (IH Hin) as (c' & b0 & Hc' & He). exists c', b0. auto.
Qed.

(** The counters after one turn: at most one lookup more, and no more
    successes or errors than lookups. *)
Lemma process_cve_counters (c : text) (b : BotStats) :
  let b' := fst (step c b) in
  0 <= stats_cve_lookups b' - stats_cve_lookups b <= 1
  /\ 0 <= stats_nvd_fallback_success b' - stats_nvd_fallback_success b
       <= stats_cve_lookups b' - stats_cve_lookups b
  /\ 0 <= stats_api_errors_nvd b' - stats_api_errors_nvd b
       <= stats_cve_lookups b' - stats_cve_lookups b.
Proof.
  unfold process_cve. case_step; simpl; lia.
Qed.

Lemma process_cves_counters (cves : list text) (b : BotStats) :
  let b' := fst (loop cves b) in
  0 <= stats_cve_lookups b' - stats_cve_lookups b <= Z.of_nat (length cves)
  /\ 0 <= stats_nvd_fallback_success b' - stats_nvd_fallback_success b
       <= stats_cve_lookups b' - stats_cve_lookups b
  /\ 0 <= stats_api_errors_nvd b' - stats_api_errors_nvd b
       <= stats_cve_lookups b' - stats_cve_lookups b.
Proof.
  revert b. induction cves as [| c cves IH]; intros b; simpl; [lia |].
  pose proof (process_cve_counters c b) as Hstep.
  destruct (step c b) as [b1 evs1]. specialize (IH b1).
  destruct (loop cves b1) as [b2 evs2]. simpl in *. lia.
Qed.

(** One turn sends at most two embeds, and sleeps once per embed that
    went out. *)
Lemma process_cve_sends (c : text) (b : BotStats) :
  (sleeps (snd (step c b)) <= embed_sends (snd (step c b)) <= 2)%nat
  /\ (length (snd (step c b)) <= 4)%nat.
Proof.
  unfold process_cve. case_step; simpl; lia.
Qed.

Lemma process_cves_sends (cves : list text) (b : BotStats) :
  (sleeps (snd (loop cves b)) <= embed_sends (snd (loop cves b))
   <= 2 * length cves)%nat
  /\ (length (snd (loop cves b)) <= 4 * length cves)%nat.
Proof.
  revert b. induction cves as [| c cves IH]; intros b; simpl; [lia |].
  pose proof (process_cve_sends c b) as Hstep.
  destruct (step c b) as [b1 evs1]. specialize (IH b1).
  destruct (loop cves b1) as [b2 evs2]. simpl in *.
  rewrite sleeps_app, embed_sends_app, length_app. lia.
Qed.

End LoopSends.

Section HandlerShape.
Context {DB : Type} `{KEVConfigDB DB}.

(** Either the handler returns at a guard, with nothing sent and no
    counter moved, or it runs steps 4 and 5 for a user's message in a
    guild whose monitoring is enabled and on a channel that is allowed. *)
Lemma on_message_cases (py : Interpreter) (cog : Cog DB) (message : Message)
    (b : BotStats) :
  (bot (on_message py cog message b) = b
   /\ events (on_message py cog message b) = [])
  \/ exists db guild_id guild_config get_cve_details channel_configs,
       author_bot message = false
       /\ guild message = Some guild_id
       /\ cog_db cog = Some db
       /\ nvd_client cog = Some get_cve_details
       /\ get_cve_guild_config db guild_id = Ret (Some guild_config)
       /\ cve_monitoring_enabled guild_config = true
       /\ get_all_cve_channel_configs_for_guild db guild_id = Ret channel_configs
       /\ channel_allowed channel_configs (channel message) = true
       /\ on_message py cog message b
          = find_and_process py db get_cve_details (cisa_kev_client cog) message
              guild_id guild_config b.
Proof.
  unfold on_message.
  destruct (author_bot message) eqn:Hauthor; [left; auto |].
  destruct (guild message) as [guild_id |] eqn:Hguild; [| left; auto].
  destruct (cog_db cog) as [db |] eqn:Hdb; [| left; auto].
  destruct (nvd_client cog) as [get_cve_details |] eqn:Hnvd; [| left; auto].
  destruct (content message); [left; auto |].
  destruct (get_cve_guild_config db guild_id) as [[guild_config |] |] eqn:Hcfg;
    [| left; auto | left; auto].
  destruct (cve_monitoring_enabled guild_config) eqn:Hen; [| left; auto].
  destruct (get_all_cve_channel_configs_for_guild db guild_id)
    as [channel_configs |] eqn:Hrows; [| left; auto].
  destruct (channel_allowed channel_configs (channel message)) eqn:Hallowed;
    [| left; auto].
  right. exists db, guild_id, guild_config, get_cve_details, channel_configs.
  repeat split; solve [assumption | reflexivity].
Qed.

(** Steps 4 and 5: the loop over the batch, then possibly the notice. *)
Lemma find_and_process_shape (py : Interpreter) (db : DB)
    (get_cve_details : text -> Outcome (option CveData))
    (kev : option (text -> Outcome (option KevEntry)))
    (message : Message) (guild_id : Z) (guild_config : GuildConfig) (b : BotStats) :
  let found := found_cves_set (tables py) (content message) in
  let looped :=
    process_cves (tables py) db get_cve_details kev message guild_id
      (cve_severity_threshold guild_config)
      (cves_to_process py (content message)) b in
  let r := find_and_process py db get_cve_details kev message guild_id
             guild_config b in
  bot r = fst looped
  /\ exists tail,
       events r = snd looped ++ tail
       /\ (tail = []
           \/ (5 < length found)%nat
              /\ exists res, tail = [ESend (truncation_notice (length found)) res]).
Proof.
  intros found looped r. subst looped r.
  unfold find_and_process. fold (cves_to_process py (content message)). fold found.
  destruct (cves_to_process py (content message)) as [| c cves].
  - simpl. split; [reflexivity |]. exists []. auto.
  - destruct (process_cves _ _ _ _ _ _ _ (c :: cves) b) as [b' evs].
    destruct (MAX_CVES_PER_MESSAGE <? length found)%nat eqn:Hmore.
    + apply Nat.ltb_lt in Hmore. unfold MAX_CVES_PER_MESSAGE in Hmore.
      destruct (channel_send message (truncation_notice (length found))) eqn:Hsend;
        simpl; (split; [reflexivity |]); eexists; (split; [reflexivity |]);
        right; (split; [exact Hmore |]); eexists; reflexivity.
    + simpl. split; [reflexivity |]. exists []. rewrite app_nil_r. auto.
Qed.

(** X5.  Every vulnerability embed the handler hands to the channel
    carries the record that NVD gave for an identifier of the message's
    batch, a record that passes the guild's threshold, in the verbosity
    resolved for the channel; the message is a user's, in a guild whose
    monitoring is enabled, on an allowed channel. *)
Theorem cve_embeds_are_fetched_and_pass (py : Interpreter) (cog : Cog DB)
    (message : Message) (b : BotStats) (d : CveData) (v : bool) (r : SendResult) :
  In (ESend (CveEmbed d v) r) (events (on_message py cog message b)) ->
  exists db guild_id guild_config get_cve_details channel_configs c,
    author_bot message = false
    /\ guild message = Some guild_id
    /\ cog_db cog = Some db
    /\ nvd_client cog = Some get_cve_details
    /\ get_cve_guild_config db guild_id = Ret (Some guild_config)
    /\ cve_monitoring_enabled guild_config = true
    /\ get_all_cve_channel_configs_for_guild db guild_id = Ret channel_configs
    /\ channel_allowed channel_configs (channel message) = true
    /\ In c (cves_to_process py (content message))
    /\ get_cve_details c = Ret (Some d)
    /\ passes_threshold (cve_severity_threshold guild_config) (cvss d) = true
    /\ get_effective_verbosity db guild_id (channel message) = Ret v.
Proof.
  intros Hin.
  destruct (on_message_cases py cog message b)
    as [[_ Hnone] | (db & g & cfg & get & confs & H1 & H2 & H3 & H4 & H5 & H6
                      & H7 & H8 & Hrun)].
  { rewrite Hnone in Hin. contradiction. }
  rewrite Hrun in Hin.
  destruct (find_and_process_shape py db get (cisa_kev_client cog) message g cfg b)
    as [_ (tail & Hev & Htail)].
  rewrite Hev in Hin. apply in_app_or in Hin as [Hin | Hin].
  - apply process_cves_event in Hin as (c & b0 & Hc & He).
    apply process_cve_event in He as (Hd & Hgate & Hverb).
    exists db, g, cfg, get, confs, c. repeat split; assumption.
  - destruct Htail as [-> | (_ & res & ->)]; [contradiction |].
    destruct Hin as [Hin | []]. discriminate.
Qed.

(** X6.  Every exploitation embed the handler hands to the channel is
    for an identifier of the message's batch, and carries the entry the
    catalog client gave for that identifier. *)
Theorem kev_embeds_are_in_catalog (py : Interpreter) (cog : Cog DB)
    (message : Message) (b : BotStats) (c : text) (k : KevEntry) (v : bool)
    (r : SendResult) :
  In (ESend (KevEmbed c k v) r) (events (on_message py cog message b)) ->
  In c (cves_to_process py (content message))
  /\ exists get_kev_entry,
       cisa_kev_client cog = Some get_kev_entry
       /\ get_kev_entry c = Ret (Some k).
Proof.
  intros Hin.
  destruct (on_message_cases py cog message b)
    as [[_ Hnone] | (db & g & cfg & get & confs & _ & _ & _ & _ & _ & _ & _ & _
                      & Hrun)].
  { rewrite Hnone in Hin. contradiction. }
  rewrite Hrun in Hin.
  destruct (find_and_process_shape py db get (cisa_kev_client cog) message g cfg b)
    as [_ (tail & Hev & Htail)].
  rewrite Hev in Hin. apply in_app_or in Hin as [Hin | Hin].
  - apply process_cves_event in Hin as (c' & b0 & Hc & He).
    apply process_cve_event in He as (-> & Hk).
    split; [exact Hc |]. exact (kev_lookup_some _ _ _ Hk).
  - destruct Htail as [-> | (_ & res & ->)]; [contradiction |].
    destruct Hin as [Hin | []]. discriminate.
Qed.

(** X7.  Whatever the message and whatever the clients do, one call of
    the handler adds at most five lookups, never lowers a counter, and
    adds no more successes and no more errors than lookups. *)
Theorem on_message_counters (py : Interpreter) (cog : Cog DB) (message : Message)
    (b : BotStats) :
  let b' := bot (on_message py cog message b) in
  0 <= stats_cve_lookups b' - stats_cve_lookups b <= 5
  /\ 0 <= stats_nvd_fallback_success b' - stats_nvd_fallback_success b
       <= stats_cve_lookups b' - stats_cve_lookups b
  /\ 0 <= stats_api_errors_nvd b' - stats_api_errors_nvd b
       <= stats_cve_lookups b' - stats_cve_lookups b.
Proof.
  intros b'. subst b'.
  destruct (on_message_cases py cog message b)
    as [[-> _] | (db & g & cfg & get & confs & _ & _ & _ & _ & _ & _ & _ & _
                   & ->)]; [lia |].
  destruct (find_and_process_shape py db get (cisa_kev_client cog) message g cfg b)
    as [-> _].
  pose proof (process_cves_counters (tables py) db get (cisa_kev_client cog) message
                g (cve_severity_threshold cfg)
                (cves_to_process py (content message)) b) as Hloop.
  assert (Hcap : (length (cves_to_process py (content message)) <= 5)%nat).
  { unfold cves_to_process. rewrite length_take. unfold MAX_CVES_PER_MESSAGE. lia. }
  simpl in Hloop. lia.
Qed.

(** X8.  One call of the handler hands at most ten embeds to the
    channel, sleeps at most once per embed, sleeps 1.5 each time, and
    sends at most one notice. *)
Theorem on_message_sends_bounded (py : Interpreter) (cog : Cog DB)
    (message : Message) (b : BotStats) :
  let evs := events (on_message py cog message b) in
  (sleeps evs <= embed_sends evs <= 10)%nat
  /\ (length (notice_sends evs) <= 1)%nat
  /\ (length evs <= 21)%nat
  /\ forall seconds, In (ESleep seconds) evs -> seconds = SEND_DELAY.
Proof.
  intros evs. subst evs.
  destruct (on_message_cases py cog message b)
    as [[_ ->] | (db & g & cfg & get & confs & _ & _ & _ & _ & _ & _ & _ & _
                   & ->)].
  { simpl. repeat split; try lia; try (intros seconds []). }
  destruct (find_and_process_shape py db get (cisa_kev_client cog) message g cfg b)
    as [_ (tail & -> & Htail)].
  pose proof (process_cves_sends (tables py) db get (cisa_kev_client cog) message
                g (cve_severity_threshold cfg)
                (cves_to_process py (content message)) b) as [Hsends Hlen].
  pose proof (process_cves_no_notice (tables py) db get (cisa_kev_client cog) message
                g (cve_severity_threshold cfg)
                (cves_to_process py (content message)) b) as Hnone.
  assert (Hcap : (length (cves_to_process py (content message)) <= 5)%nat).
  { unfold cves_to_process. rewrite length_take. unfold MAX_CVES_PER_MESSAGE. lia. }
  rewrite sleeps_app, embed_sends_app, notice_sends_app, Hnone, !length_app.
  assert (Htl : sleeps tail = 0%nat /\ embed_sends tail = 0%nat
                /\ (length tail <= 1)%nat /\ (length (notice_sends tail) <= 1)%nat
                /\ forall seconds, ~ In (ESleep seconds) tail).
  { destruct Htail as [-> | (_ & res & ->)]; simpl; repeat split; try lia;
      try (intros seconds Hin; simpl in Hin; intuition discriminate). }
  destruct Htl as (Hs & He & Hl & Hn & Hnosleep).
  rewrite Hs, He. simpl. repeat split; try lia.
  intros seconds Hin. apply in_app_or in Hin as [Hin | Hin].
  - apply process_cves_event in Hin as (c & b0 & _ & Hstep).
    exact (process_cve_event _ _ _ _ _ _ _ _ _ _ Hstep).
  - exfalso. exact (Hnosleep seconds Hin).
Qed.

(** X10.  The notice about identifiers left out is sent only when the
    message holds more than five distinct identifiers. *)
Theorem no_notice_within_cap (py : Interpreter) (cog : Cog DB) (message : Message)
    (b : BotStats) :
  (length (found_cves_set (tables py) (content message)) <= 5)%nat ->
  notice_sends (events (on_message py cog message b)) = [].
Proof.
  intros Hfew.
  destruct (on_message_cases py cog message b)
    as [[_ ->] | (db & g & cfg & get & confs & _ & _ & _ & _ & _ & _ & _ & _
                   & ->)]; [reflexivity |].
  destruct (find_and_process_shape py db get (cisa_kev_client cog) message g cfg b)
    as [_ (tail & -> & Htail)].
  rewrite notice_sends_app, process_cves_no_notice.
  destruct Htail as [-> | (Hmore & _)]; [reflexivity | lia].
Qed.

End HandlerShape.



Lemma cve_embeds_are_fetched_and_pass_witness :
  let cog := example_cog (guild_db "high") None in
  let message := user_message 10 "CVE-2024-0001 and CVE-2024-0002" in
  let d := scored "CVE-2024-0001" 8 in
  In (ESend (CveEmbed d false) Sent) (events (on_message py_ascii cog message zero_stats))
  /\ exists db guild_id guild_config get_cve_details channel_configs c,
       author_bot message = false
       /\ guild message = Some guild_id
       /\ cog_db cog = Some db
       /\ nvd_client cog = Some get_cve_details
       /\ get_cve_guild_config db guild_id = Ret (Some guild_config)
       /\ cve_monitoring_enabled guild_config = true
       /\ get_all_cve_channel_configs_for_guild db guild_id = Ret channel_configs
       /\ channel_allowed channel_configs (channel message) = true
       /\ In c (cves_to_process py_ascii (content message))
       /\ get_cve_details c = Ret (Some d)
       /\ passes_threshold (cve_severity_threshold guild_config) (cvss d) = true
       /\ get_effective_verbosity db guild_id (channel message) = Ret false.
Proof.
  intros cog message d.
  assert (Hin : In (ESend (CveEmbed d false) Sent)
                  (events (on_message py_ascii cog message zero_stats)))
    by (vm_compute; left; reflexivity).
  split; [exact Hin |].
  exact (cve_embeds_are_fetched_and_pass py_ascii cog message zero_stats d false Sent
           Hin).
Defined.

Lemma kev_embeds_are_in_catalog_witness :
  let cog := example_cog (guild_db "all") (Some example_kev) in
  let message := user_message 10 "CVE-2024-0001" in
  let c := cps "CVE-2024-0001" in
  let k := {| kev_cveID := c; kev_vulnerabilityName := cps "Example" |} in
  In (ESend (KevEmbed c k false) Sent)
    (events (on_message py_ascii cog message zero_stats))
  /\ In c (cves_to_process py_ascii (content message))
  /\ exists get_kev_entry,
       cisa_kev_client cog = Some get_kev_entry
       /\ get_kev_entry c = Ret (Some k).
Proof.
  intros cog message c k.
  assert (Hin : In (ESend (KevEmbed c k false) Sent)
                  (events (on_message py_ascii cog message zero_stats)))
    by (vm_compute; right; right; left; reflexivity).
  split; [exact Hin |].
  exact (kev_embeds_are_in_catalog py_ascii cog message zero_stats c k false Sent Hin).
Defined.

Lemma no_notice_within_cap_witness :
  let cog := example_cog (guild_db "all") None in
  let message := user_message 10 "CVE-2024-0001 and CVE-2024-0002" in
  (length (found_cves_set (tables py_ascii) (content message)) <= 5)%nat
  /\ notice_sends (events (on_message py_ascii cog message zero_stats)) = [].
Proof.
  intros cog message.
  assert (Hfew : (length (found_cves_set (tables py_ascii) (content message)) <= 5)%nat)
    by (vm_compute; lia).
  split; [exact Hfew |].
  exact (no_notice_within_cap py_ascii cog message zero_stats Hfew).
Defined.

(** ** [/cve lookup] *)

Lemma str_upper_app (U : UnicodeTables) (s t : text) :
  str_upper U (s ++ t) = str_upper U s ++ str_upper U t.
Proof. unfold str_upper. apply flat_map_app. Qed.

(** After skipping a prefix the scan goes on with what follows it. *)
Lemma findall_from_skip_app (U : UnicodeTables) (s rest : text) :
  findall_from U (length s) (s ++ rest) = findall_from U 0 rest.
Proof.
  induction s as [| c tl IH]; [reflexivity |].
  destruct rest; simpl; exact IH.
Qed.

(** A text of the scanned shape ends with a decimal digit. *)
Lemma scanned_last_decimal (U : UnicodeTables) (m : text) (c : N) :
  scanned U (m ++ [c]) -> isdecimal U c = true.
Proof.
  intros Hshape. inversion Hshape as [c0 v e d1 d2 d3 d4 ds _ _ _ Hds Hlen Heq].
  destruct (exists_last (l := ds)) as (ds' & z & ->).
  { intros ->. simpl in Hlen. lia. }
  change (c0 :: v :: e :: 45%N :: d1 :: d2 :: d3 :: d4 :: 45%N :: ds' ++ [z])
    with ((c0 :: v :: e :: 45%N :: d1 :: d2 :: d3 :: d4 :: 45%N :: ds') ++ [z]) in Heq.
  apply app_inj_tail in Heq as [_ <-].
  rewrite List.Forall_forall in Hds. apply Hds.
  do 4 right. apply in_or_app. right. left. reflexivity.
Qed.

(** In a text that passes the validation the scanner finds the
    identifier without the newline, and nothing else. *)
Lemma validated_findall (U : UnicodeTables) (cve_id : text) :
  CVE_VALIDATE_REGEX_match U cve_id = true ->
  exists m, scanned U m
            /\ CVE_SCAN_REGEX_findall U cve_id = [m]
            /\ (cve_id = m \/ cve_id = m ++ [10%N]).
Proof.
  unfold CVE_VALIDATE_REGEX_match.
  destruct (match_cve_at U cve_id) as [[m rest] |] eqn:Hm; [| discriminate].
  destruct (match_cve_at_scanned U cve_id m rest Hm) as [Hshape Heq].
  destruct rest as [| c [| c' rest]]; try discriminate.
  - intros _. rewrite app_nil_r in Heq. subst cve_id.
    exists m. split; [exact Hshape |]. split; [| left; reflexivity].
    apply findall_single. exact Hshape.
  - intros Hc. apply N.eqb_eq in Hc. subst c. subst cve_id.
    exists m. split; [exact Hshape |]. split; [| right; reflexivity].
    unfold CVE_SCAN_REGEX_findall.
    destruct (scanned_nonempty U m Hshape) as (x & tl & ->).
    cbn [app findall_from] in *. rewrite Hm.
    replace (length (x :: tl) - 1)%nat with (length tl) by (simpl; lia).
    rewrite findall_from_skip_app. reflexivity.
Qed.

(** X11.  The key under which [/cve lookup] asks NVD, against what the
    scanner of [on_message] takes from the same text.  In an input that
    passes the validation the scanner finds exactly one identifier.
    The command's key is that identifier when the input does not end
    with a newline; when it does, the key is that identifier followed by
    the newline, and no text at all makes the scanner produce this key.
    The two hypotheses on the tables say that a newline is no decimal
    digit and that [upper()] leaves it alone. *)
Theorem lookup_key_and_scan_key (U : UnicodeTables)
    (nvd : option (text -> Outcome (option CveData))) (cve_id : text)
    (b : BotStats) :
  unicode_tables_ok U ->
  isdecimal U 10%N = false -> upper_cp U 10%N = [10%N] ->
  CVE_VALIDATE_REGEX_match U cve_id = true ->
  exists c,
    found_cves_set U cve_id = [c]
    /\ found_cves_set U c = [c]
    /\ lookup_subcommand U nvd cve_id b
       = _perform_cve_lookup nvd (str_upper U cve_id) b
    /\ ((str_upper U cve_id = c /\ forall m, cve_id <> m ++ [10%N])
        \/ (str_upper U cve_id = c ++ [10%N]
            /\ (exists m, cve_id = m ++ [10%N])
            /\ forall content,
                 ~ In (str_upper U cve_id) (found_cves_set U content))).
Proof.
  intros HU Hdec Hup10 Hvalid.
  destruct (validated_findall U cve_id Hvalid) as (m & Hm & Hfound & Hcases).
  destruct (str_upper_scanned_fixed U m HU Hm) as [Hup Hfixed].
  exists (str_upper U m).
  split.
  { unfold found_cves_set. rewrite Hfound. reflexivity. }
  split.
  { unfold found_cves_set. rewrite (findall_single U _ Hup). simpl.
    rewrite Hfixed. reflexivity. }
  split.
  { unfold lookup_subcommand. rewrite Hvalid. reflexivity. }
  destruct Hcases as [-> | ->].
  - left. split; [reflexivity |].
    intros m' ->. pose proof (scanned_last_decimal U m' 10%N Hm) as Hten.
    congruence.
  - right.
    assert (Hkey : str_upper U (m ++ [10%N]) = str_upper U m ++ [10%N]).
    { rewrite str_upper_app. unfold str_upper at 2. simpl.
      rewrite app_nil_r, Hup10. reflexivity. }
    split; [exact Hkey |]. split; [exists m; reflexivity |].
    intros content Hin. rewrite Hkey in Hin.
    apply In_found_cves_set in Hin as (m' & Hm' & Heq).
    pose proof (findall_from_scanned U content 0%nat) as Hall.
    rewrite List.Forall_forall in Hall.
    destruct (str_upper_scanned_fixed U m' HU (Hall m' Hm')) as [Hshape' _].
    rewrite <- Heq in Hshape'.
    pose proof (scanned_last_decimal U _ 10%N Hshape') as Hten.
    congruence.
Qed.

Lemma lookup_key_and_scan_key_witness :
  let cve_id := cps "cve-2024-0001" ++ [10%N] in
  unicode_tables_ok ascii_tables
  /\ isdecimal ascii_tables 10%N = false
  /\ upper_cp ascii_tables 10%N = [10%N]
  /\ CVE_VALIDATE_REGEX_match ascii_tables cve_id = true
  /\ exists c,
       found_cves_set ascii_tables cve_id = [c]
       /\ found_cves_set ascii_tables c = [c]
       /\ lookup_subcommand ascii_tables (Some example_nvd) cve_id zero_stats
          = _perform_cve_lookup (Some example_nvd) (str_upper ascii_tables cve_id)
              zero_stats
       /\ ((str_upper ascii_tables cve_id = c /\ forall m, cve_id <> m ++ [10%N])
           \/ (str_upper ascii_tables cve_id = c ++ [10%N]
               /\ (exists m, cve_id = m ++ [10%N])
               /\ forall content,
                    ~ In (str_upper ascii_tables cve_id)
                        (found_cves_set ascii_tables content))).
Proof.
  intros cve_id.
  assert (Hdec : isdecimal ascii_tables 10%N = false) by reflexivity.
  assert (Hup10 : upper_cp ascii_tables 10%N = [10%N]) by reflexivity.
  assert (Hvalid : CVE_VALIDATE_REGEX_match ascii_tables cve_id = true)
    by reflexivity.
  split; [exact ascii_tables_ok |]. split; [exact Hdec |].
  split; [exact Hup10 |]. split; [exact Hvalid |].
  exact (lookup_key_and_scan_key ascii_tables (Some example_nvd) cve_id zero_stats
           ascii_tables_ok Hdec Hup10 Hvalid).
Defined.

(** With the newline the command asks NVD for a key the client of the
    examples does not know, and answers "not found"; [on_message] finds
    the record in the same text. *)
Example lookup_with_trailing_newline :
  followups (lookup_subcommand ascii_tables (Some example_nvd)
               (cps "cve-2024-0001" ++ [10%N]) zero_stats)
  = [FollowupNotFound (cps "CVE-2024-0001" ++ [10%N])]
  /\ followups (lookup_subcommand ascii_tables (Some example_nvd)
                  (cps "cve-2024-0001") zero_stats)
     = [FollowupEmbed (CveEmbed (scored "CVE-2024-0001" 8) true)].
Proof. split; vm_compute; reflexivity. Qed.

(** X12.  [/cve lookup] answers once; it counts at most one lookup, and
    at most one of success and error for it; an identifier that fails
    the validation, or a cog without NVD client, moves no counter, and
    the identifier that fails the validation is answered without asking
    NVD. *)
Theorem lookup_counters (U : UnicodeTables)
    (nvd : option (text -> Outcome (option CveData))) (cve_id : text)
    (b : BotStats) :
  let r := lookup_subcommand U nvd cve_id b in
  let lookups := stats_cve_lookups (looked_bot r) - stats_cve_lookups b in
  let successes :=
    stats_nvd_fallback_success (looked_bot r) - stats_nvd_fallback_success b in
  let errors := stats_api_errors_nvd (looked_bot r) - stats_api_errors_nvd b in
  length (followups r) = 1%nat
  /\ 0 <= successes /\ 0 <= errors /\ successes + errors <= lookups <= 1
  /\ (lookups = 1 <->
      CVE_VALIDATE_REGEX_match U cve_id = true /\ nvd <> None)
  /\ (CVE_VALIDATE_REGEX_match U cve_id = false ->
      r = {| looked_bot := b; followups := [FollowupInvalidFormat] |}).
Proof.
  unfold lookup_subcommand, _perform_cve_lookup.
  destruct (CVE_VALIDATE_REGEX_match U cve_id);
    [destruct nvd as [get |];
       [destruct (get (str_upper U cve_id)) as [[d |] |] |] |];
    simpl; repeat split; try lia; try discriminate;
    try (intros; intuition (try lia; congruence)).
Qed.

(** ** The commands as a whole *)

(** Unfolds a command called through [invoke] down to the calls on the
    store and splits on what the store answers. *)
Ltac unfold_invoke :=
  unfold invoke, channels_add_command, channels_remove_command,
    channels_disable_global_command, channels_enable_global_command,
    verbose_enable_global_command, verbose_disable_global_command,
    verbose_channel_set_command, verbose_channel_unset_command,
    verbose_channel_setall_command, threshold_set_command, threshold_reset_command;
  unfold_cmd.

Ltac split_on_store :=
  repeat match goal with
         | |- context [match ?x with _ => _ end] =>
             lazymatch x with
             | context [match _ with _ => _ end] => fail
             | _ =>
                 destruct x eqn:?;
                 cbn [self_db db_calls replies interaction_guild_id fst snd negb]
                   in *
             end
         end.

Section CommandsAsAWhole.
Context {DB : Type} `{KEVConfigDB DB}.

(** X13.  Whatever the store does, raising included, a command answers
    exactly once and lets no exception out. *)
Theorem command_answers_once (command : SlashCommand) (interaction : Interaction)
    (s : CogState DB) :
  exists r s',
    invoke command interaction s = (Ret tt, s')
    /\ replies s' = replies s ++ [r].
Proof.
  destruct s as [db calls answers].
  destruct command; unfold_invoke; split_on_store;
    eexists _, _; split; reflexivity.
Qed.

(** X14.  A command calls the store for the guild of the interaction
    only, and makes no call at all when the cog has no store or the
    interaction has no guild id, [None] or [0]. *)
Theorem command_stays_in_guild (command : SlashCommand) (interaction : Interaction)
    (s : CogState DB) :
  exists calls,
    db_calls (run (invoke command interaction) s) = db_calls s ++ calls
    /\ Forall (fun call => interaction_guild_id interaction = Some (call_guild call))
         calls
    /\ (self_db s = None
        \/ interaction_guild_id interaction = None
        \/ interaction_guild_id interaction = Some 0 ->
        calls = []).
Proof.
  destruct s as [db calls answers].
  destruct command; unfold_invoke; split_on_store;
    first [ exists []; split; [symmetry; apply app_nil_r |];
            split; [constructor | intros _; reflexivity]
          | eexists; split; [rewrite <- ?app_assoc; reflexivity |];
            split;
            [ repeat constructor
            | cbn [self_db]; intros Hno; exfalso;
              destruct Hno as [Hno | [Hno | Hno]];
              [ discriminate Hno | discriminate Hno
              | injection Hno as ->;
                match goal with
                | Hz : (0 =? 0) = false |- _ => discriminate Hz
                end ] ] ].
Qed.

(** X15.  The row of a guild is written as a whole only with the
    defaults (enabled, not verbose, threshold "all"), and only for a
    guild for which the store has just answered that it has no row: a
    command never resets the settings of a guild that has some. *)
Theorem defaults_only_for_new_guild (command : SlashCommand)
    (interaction : Interaction) (db : DB) (guild_id : Z) (e v : bool) (t : string) :
  In (Call_set_cve_guild_config guild_id e v t)
     (db_calls (run (invoke command interaction) (fresh_cog (Some db)))) ->
  e = true /\ v = false /\ t = "all"
  /\ get_cve_guild_config db guild_id = Ret None.
Proof.
  destruct command; unfold_invoke; split_on_store; simpl;
    intros Hin;
    repeat match goal with
           | Hor : _ \/ _ |- _ => destruct Hor as [Hor | Hor]
           | Hf : False |- _ => contradiction
           | Heq : _ = Call_set_cve_guild_config _ _ _ _ |- _ =>
               first [discriminate Heq | injection Heq as <- <- <- <-]
           end;
    repeat split; try reflexivity; assumption.
Qed.

(** X16.  A command that answers that it cannot reach the store or the
    guild has made no call; one that answers that it could not ensure
    the guild's configuration has left the store as it was. *)
Theorem refused_command_writes_nothing (command : SlashCommand)
    (interaction : Interaction) (s : CogState DB) (r : Reply) :
  let s' := run (invoke command interaction) s in
  replies s' = replies s ++ [r] ->
  (r = ReplyNoDatabaseOrGuild ->
   db_calls s' = db_calls s /\ self_db s' = self_db s)
  /\ (r = ReplyEnsureFailed -> self_db s' = self_db s).
Proof.
  destruct s as [db calls answers].
  destruct command; unfold_invoke; split_on_store; simpl;
    intros Hr; apply app_inv_head in Hr; injection Hr as <-;
    (split; intros Heq; try discriminate Heq;
     try (split; reflexivity); try reflexivity).
Qed.

End CommandsAsAWhole.

Lemma defaults_only_for_new_guild_witness :
  let calls :=
    db_calls (run (invoke (CveThresholdSet high) (in_guild 1))
                (fresh_cog (Some empty_db))) in
  In (Call_set_cve_guild_config 1 true false "all") calls
  /\ (true = true /\ false = false /\ "all" = "all"
      /\ get_cve_guild_config empty_db 1 = Ret None).
Proof.
  intros calls.
  assert (Hin : In (Call_set_cve_guild_config 1 true false "all") calls)
    by (vm_compute; right; left; reflexivity).
  split; [exact Hin |].
  exact (defaults_only_for_new_guild (CveThresholdSet high) (in_guild 1) empty_db 1
           true false "all" Hin).
Defined.

Lemma refused_command_writes_nothing_witness :
  let s := fresh_cog (Some (guild_db "high")) in
  let no_guild := {| interaction_guild_id := None |} in
  let s' := run (invoke CveThresholdReset no_guild) s in
  replies s' = replies s ++ [ReplyNoDatabaseOrGuild]
  /\ db_calls s' = db_calls s /\ self_db s' = self_db s.
Proof.
  intros s no_guild s'.
  assert (Hr : replies s' = replies s ++ [ReplyNoDatabaseOrGuild]) by reflexivity.
  split; [exact Hr |].
  exact (proj1 (refused_command_writes_nothing CveThresholdReset no_guild s
                  ReplyNoDatabaseOrGuild Hr) eq_refl).
Defined.

(** A guild id of 0 is as good as none. *)
Example guild_zero_is_refused :
  run (invoke CveChannelsEnableGlobal (in_guild 0)) (fresh_cog (Some empty_db))
  = {| self_db := Some empty_db; db_calls := [];
       replies := [ReplyNoDatabaseOrGuild] |}.
Proof. reflexivity. Qed.

(** ** [/cve latest]: sorting, cutting, listing *)

Lemma sort_desc_permutation {A} (l s : list (datetime * A)) :
  sort_desc l = Ret s -> Permutation s l.
Proof.
  intros Hs.
  destruct (sort_desc_same_kind l (sort_desc_ret_same_kind l s Hs))
    as (s' & Hs' & Hperm & _).
  congruence.
Qed.

(** Sorted or not, the list the sorting step leaves holds the same
    records. *)
Lemma sort_by_published_permutation (fromisoformat : text -> option datetime)
    (leftover : list CveData -> list CveData) (cves : list CveData) :
  (forall l, Permutation (leftover l) l) ->
  Permutation (filtered_cves (sort_by_published fromisoformat leftover cves)) cves.
Proof.
  intros Hleft. unfold sort_by_published.
  destruct (decorate (get_sort_key fromisoformat) cves) as [keyed |] eqn:Hd;
    [| reflexivity].
  destruct (decorate_ret _ _ _ Hd) as [Hmap _].
  destruct (sort_desc keyed) as [s |] eqn:Hs; simpl; [| apply Hleft].
  rewrite <- Hmap. apply Permutation_map. exact (sort_desc_permutation _ _ Hs).
Qed.

(** X17.  Whether the sort goes through or raises, the records shown are
    records of the filtered list, each at most as often as it is there,
    and there are [count] of them or, when the list is shorter, all. *)
Theorem results_come_from_filtered (fromisoformat : text -> option datetime)
    (leftover : list CveData -> list CveData) (cves : list CveData) (count : nat) :
  (forall l, Permutation (leftover l) l) ->
  length (results_to_show fromisoformat leftover cves count)
  = Nat.min count (length cves)
  /\ exists rest,
       Permutation (results_to_show fromisoformat leftover cves count ++ rest) cves.
Proof.
  intros Hleft.
  pose proof (sort_by_published_permutation fromisoformat leftover cves Hleft)
    as Hperm.
  unfold results_to_show. split.
  - rewrite length_take, (Permutation_length Hperm). reflexivity.
  - exists (drop count (filtered_cves (sort_by_published fromisoformat leftover cves))).
    rewrite take_drop. exact Hperm.
Qed.

Lemma results_come_from_filtered_witness :
  let cves := [dated (PubStr (cps "not a date")); dated (PubStr (cps "2024-01-01"));
               dated PubAbsent] in
  (forall l : list CveData, Permutation ((fun l => l) l) l)
  /\ length (results_to_show fromisoformat_basic (fun l => l) cves 2)
     = Nat.min 2 (length cves)
  /\ exists rest,
       Permutation (results_to_show fromisoformat_basic (fun l => l) cves 2 ++ rest)
         cves.
Proof.
  intros cves.
  assert (Hleft : forall l : list CveData, Permutation ((fun l => l) l) l)
    by (intros l; reflexivity).
  split; [exact Hleft |].
  exact (results_come_from_filtered fromisoformat_basic (fun l => l) cves 2 Hleft).
Defined.

Lemma key_ge_transitive {A} : Transitive (@key_ge A).
Proof. intros x y z Hxy Hyz. unfold key_ge in *. lia. Qed.

Lemma StronglySorted_app_order {A} (R : A -> A -> Prop) (l1 l2 : list A) :
  StronglySorted R (l1 ++ l2) ->
  forall x y, In x l1 -> In y l2 -> R x y.
Proof.
  induction l1 as [| a l1 IH]; intros Hs x y Hx Hy; [contradiction |].
  simpl in Hs. inversion Hs as [| ? ? Hs' Hall]; subst.
  destruct Hx as [<- | Hx].
  - rewrite List.Forall_forall in Hall. apply Hall. apply in_or_app. right. exact Hy.
  - exact (IH Hs' x y Hx Hy).
Qed.

(** X18.  When the keys are of one kind (all timestamps without offset,
    or all with one), the records shown are the first [count] of the
    list by decreasing publication date: none of the records left out
    is newer than a record shown. *)
Theorem shown_are_the_newest (fromisoformat : text -> option datetime)
    (leftover : list CveData -> list CveData) (cves : list CveData)
    (keyed : list (datetime * CveData)) (count : nat) :
  decorate (get_sort_key fromisoformat) cves = Ret keyed ->
  same_kind keyed ->
  exists s,
    Permutation s keyed
    /\ results_to_show fromisoformat leftover cves count = map snd (take count s)
    /\ sort_e (sort_by_published fromisoformat leftover cves) = None
    /\ forall shown left_out,
         In shown (take count s) -> In left_out (drop count s) ->
         instant (fst left_out) <= instant (fst shown).
Proof.
  intros Hd Hkind.
  destruct (sort_desc_same_kind keyed Hkind) as (s & Hs & Hperm & Hsorted).
  exists s. split; [exact Hperm |].
  unfold results_to_show, sort_by_published. rewrite Hd, Hs. simpl.
  split; [apply firstn_map |]. split; [reflexivity |].
  intros shown left_out Hshown Hleft.
  apply (Sorted_StronglySorted key_ge_transitive) in Hsorted.
  rewrite <- (take_drop count s) in Hsorted.
  exact (StronglySorted_app_order key_ge _ _ Hsorted shown left_out Hshown Hleft).
Qed.

Lemma shown_are_the_newest_witness :
  let cves := [dated (PubStr (cps "2023-06-01")); dated PubAbsent;
               dated (PubStr (cps "2024-01-01"))] in
  let keyed := [(Naive 1685577600000000, dated (PubStr (cps "2023-06-01")));
                (Naive 0, dated PubAbsent);
                (Naive 1704067200000000, dated (PubStr (cps "2024-01-01")))] in
  decorate (get_sort_key fromisoformat_basic) cves = Ret keyed
  /\ same_kind keyed
  /\ exists s,
       Permutation s keyed
       /\ results_to_show fromisoformat_basic (fun l => l) cves 2
          = map snd (take 2 s)
       /\ sort_e (sort_by_published fromisoformat_basic (fun l => l) cves) = None
       /\ forall shown left_out,
            In shown (take 2 s) -> In left_out (drop 2 s) ->
            instant (fst left_out) <= instant (fst shown).
Proof.
  intros cves keyed.
  assert (Hd : decorate (get_sort_key fromisoformat_basic) cves = Ret keyed)
    by (vm_compute; reflexivity).
  assert (Hkind : same_kind keyed).
  { exists false. repeat constructor. }
  split; [exact Hd |]. split; [exact Hkind |].
  exact (shown_are_the_newest fromisoformat_basic (fun l => l) cves keyed 2 Hd Hkind).
Defined.

Lemma text_eqb_eq (a b : text) : text_eqb a b = true <-> a = b.
Proof.
  revert b. induction a as [| x a IH]; intros [| y b]; simpl;
    try (split; [discriminate | discriminate]); [tauto |].
  rewrite andb_true_iff, N.eqb_eq, IH. split.
  - intros [-> ->]. reflexivity.
  - intros [= -> ->]. auto.
Qed.

Lemma filter_partition {A} (f : A -> bool) (l : list A) :
  Permutation (List.filter f l ++ List.filter (fun x => negb (f x)) l) l.
Proof.
  induction l as [| x l IH]; [reflexivity |].
  simpl. destruct (f x); simpl.
  - constructor. exact IH.
  - rewrite <- Permutation_middle. constructor. exact IH.
Qed.

(** X19.  The "In KEV" filter with a catalog at hand: asking for the
    records in the catalog and asking for those outside it split the
    list in two, a record being in the first part exactly when an entry
    of the catalog has its identifier; without an answer from the
    catalog ([None]) nothing is in the catalog; without the option the
    list is left alone. *)
Theorem in_kev_filter_splits (entries : option (list KevEntry))
    (cves : list CveData) :
  let catalog := match entries with Some l => l | None => [] end in
  exists inside outside,
    in_kev_filter (Some true) (Some (Ret entries)) cves = Ret inside
    /\ in_kev_filter (Some false) (Some (Ret entries)) cves = Ret outside
    /\ Permutation (inside ++ outside) cves
    /\ (forall cve, In cve inside <->
          In cve cves /\ exists k, In k catalog /\ kev_cveID k = cve_id cve)
    /\ (forall cve, In cve outside <->
          In cve cves /\ forall k, In k catalog -> kev_cveID k <> cve_id cve)
    /\ (forall answer, in_kev_filter None answer cves = Ret cves).
Proof.
  intros catalog.
  set (listed := fun cve : CveData =>
                   existsb (text_eqb (cve_id cve)) (map kev_cveID catalog)).
  assert (Hlisted : forall cve,
             listed cve = true <->
             exists k, In k catalog /\ kev_cveID k = cve_id cve).
  { intros cve. unfold listed. rewrite existsb_exists. split.
    - intros (t & Ht & Heq). apply in_map_iff in Ht as (k & <- & Hk).
      apply text_eqb_eq in Heq. exists k. auto.
    - intros (k & Hk & Heq). exists (kev_cveID k). split.
      + apply in_map. exact Hk.
      + apply text_eqb_eq. auto. }
  exists (List.filter listed cves),
    (List.filter (fun cve => negb (listed cve)) cves).
  split; [reflexivity |]. split; [reflexivity |].
  split; [apply filter_partition |].
  split; [| split].
  - intros cve. rewrite filter_In, Hlisted. reflexivity.
  - intros cve. rewrite filter_In, negb_true_iff. split.
    + intros [Hin Hno]. split; [exact Hin |]. intros k Hk Heq.
      assert (Hyes : listed cve = true) by (apply Hlisted; eauto).
      congruence.
    + intros [Hin Hno]. split; [exact Hin |].
      destruct (listed cve) eqn:Hl; [| reflexivity].
      apply Hlisted in Hl as (k & Hk & Heq). exfalso. exact (Hno k Hk Heq).
  - intros answer. reflexivity.
Qed.

(** Without an answer from the catalog, "in KEV" shows nothing and "not
    in KEV" shows everything. *)
Example in_kev_without_catalog :
  in_kev_filter (Some true) (Some (Ret None)) [scored "CVE-2024-0001" 8] = Ret []
  /\ in_kev_filter (Some false) (Some (Ret None)) [scored "CVE-2024-0001" 8]
     = Ret [scored "CVE-2024-0001" 8].
Proof. split; reflexivity. Qed.

Lemma description_lines_short (total : nat) (results : list CveData) :
  (total <= 5)%nat ->
  forall i,
    entry_lines (description_lines_from i total results) = results
    /\ forall more, ~ In (MoreLine more) (description_lines_from i total results).
Proof.
  intros Htotal. induction results as [| cve rest IH]; intros i; simpl.
  - split; [reflexivity | intros more []].
  - assert (Hno : (5 <? total)%nat = false) by (apply Nat.ltb_ge; lia).
    rewrite Hno, andb_false_r. destruct (IH (S i)) as [Hentries Hmore].
    split; [simpl; rewrite Hentries; reflexivity |].
    intros more [Heq | Hin]; [discriminate | exact (Hmore more Hin)].
Qed.

Lemma description_lines_long (total : nat) (results : list CveData) :
  (5 < total)%nat ->
  forall i,
    (i <= 5)%nat -> (6 - i <= length results)%nat ->
    exists lines,
      description_lines_from i total results = lines ++ [MoreLine (total - 5)]
      /\ entry_lines lines = take (6 - i) results
      /\ length lines = (6 - i)%nat
      /\ forall more, ~ In (MoreLine more) lines.
Proof.
  intros Htotal. induction results as [| cve rest IH]; intros i Hi Hlen.
  - simpl in Hlen. lia.
  - cbn [description_lines_from].
    assert (Hmore : (5 <? total)%nat = true) by (apply Nat.ltb_lt; lia).
    rewrite Hmore, andb_true_r.
    destruct (5 <=? i)%nat eqn:Hfive.
    + apply Nat.leb_le in Hfive. assert (i = 5%nat) as -> by lia.
      exists [EntryLine 5 cve]. repeat split.
      intros more [Heq | []]. discriminate.
    + apply Nat.leb_gt in Hfive.
      destruct (IH (S i)) as (lines & -> & Hentries & Hlines & Hno);
        [lia | simpl in Hlen; lia |].
      exists (EntryLine i cve :: lines).
      replace (6 - i)%nat with (S (6 - S i)) by lia.
      split; [reflexivity |]. split; [simpl; rewrite Hentries; reflexivity |].
      split; [simpl; rewrite Hlines; reflexivity |].
      intros more [Heq | Hin]; [discriminate | exact (Hno more Hin)].
Qed.

Lemma entry_lines_app (l1 l2 : list ListingLine) :
  entry_lines (l1 ++ l2) = entry_lines l1 ++ entry_lines l2.
Proof.
  induction l1 as [| [i cve | more] l1 IH]; simpl; rewrite ?IH; reflexivity.
Qed.

Lemma entry_lines_first_five (results : list CveData) :
  entry_lines (description_lines results) = take 5 results.
Proof.
  unfold description_lines.
  destruct (Nat.le_gt_cases (length results) 5) as [Hshort | Hlong].
  - destruct (description_lines_short (length results) results Hshort 1%nat)
      as [-> _].
    symmetry. apply take_ge. exact Hshort.
  - destruct (description_lines_long (length results) results Hlong 1%nat)
      as (lines & -> & Hentries & _); [lia | simpl; lia |].
    rewrite entry_lines_app, Hentries. simpl. apply app_nil_r.
Qed.

(** X20.  The description of the embed lists the first five of the
    records to show, in their order; a list of five or fewer is listed
    whole and without a closing line; a longer one gets, behind its
    fifth record, one closing line with the number of records not
    listed. *)
Theorem listing_shows_at_most_five (results : list CveData) :
  entry_lines (description_lines results) = take 5 results
  /\ ((length results <= 5)%nat ->
      forall more, ~ In (MoreLine more) (description_lines results))
  /\ ((5 < length results)%nat ->
      exists lines,
        description_lines results = lines ++ [MoreLine (length results - 5)]
        /\ length lines = 5%nat
        /\ forall more, ~ In (MoreLine more) lines).
Proof.
  split; [apply entry_lines_first_five |]. unfold description_lines. split.
  - intros Hshort.
    exact (proj2 (description_lines_short (length results) results Hshort 1%nat)).
  - intros Hlong.
    destruct (description_lines_long (length results) results Hlong 1%nat)
      as (lines & Hlines & _ & Hlen & Hno); [lia | simpl; lia |].
    exists lines. auto.
Qed.

Lemma listing_shows_at_most_five_witness :
  let results :=
    map (fun id => scored id 8)
      ["CVE-2024-0001"; "CVE-2024-0002"; "CVE-2024-0003"; "CVE-2024-0004";
       "CVE-2024-0005"; "CVE-2024-0006"; "CVE-2024-0007"] in
  (5 < length results)%nat
  /\ exists lines,
       description_lines results = lines ++ [MoreLine (length results - 5)]
       /\ length lines = 5%nat
       /\ forall more, ~ In (MoreLine more) lines.
Proof.
  intros results.
  assert (Hlong : (5 < length results)%nat) by (simpl; lia).
  split; [exact Hlong |].
  exact (proj2 (proj2 (listing_shows_at_most_five results)) Hlong).
Defined.

(** X21.  What [/cve latest] answers behind the filters: "no match"
    exactly when nothing is left to show (an empty list, or a count of
    zero); otherwise a listing whose footer gives the size of the whole
    filtered list as found, and as shown the number of records cut for
    display, [count] or fewer, of which the description lists the first
    five. *)
Theorem latest_reply_counts (fromisoformat : text -> option datetime)
    (leftover : list CveData -> list CveData) (cves : list CveData) (count : nat) :
  (forall l, Permutation (leftover l) l) ->
  match latest_reply fromisoformat leftover cves count with
  | LatestNoMatch => cves = [] \/ count = 0%nat
  | LatestListing lines found shown =>
      found = length cves
      /\ shown = Nat.min count (length cves)
      /\ (0 < shown)%nat
      /\ entry_lines lines
         = take 5 (results_to_show fromisoformat leftover cves count)
  end.
Proof.
  intros Hleft.
  pose proof (sort_by_published_permutation fromisoformat leftover cves Hleft)
    as Hperm.
  unfold latest_reply, results_to_show.
  set (sorted := filtered_cves (sort_by_published fromisoformat leftover cves)) in *.
  destruct (take count sorted) as [| cve rest] eqn:Htake.
  - destruct count as [| n]; [right; reflexivity |]. left.
    destruct sorted as [| x sorted']; [| discriminate].
    apply Permutation_nil. exact Hperm.
  - assert (Hlen : length (cve :: rest) = Nat.min count (length cves)).
    { rewrite <- Htake, length_take, (Permutation_length Hperm). reflexivity. }
    split; [exact (Permutation_length Hperm) |].
    split; [exact Hlen |]. split; [simpl; lia |].
    apply entry_lines_first_five.
Qed.

Lemma latest_reply_counts_witness :
  let cves := map (fun id => scored id 8)
                ["CVE-2024-0001"; "CVE-2024-0002"; "CVE-2024-0003"; "CVE-2024-0004";
                 "CVE-2024-0005"; "CVE-2024-0006"; "CVE-2024-0007"] in
  (forall l : list CveData, Permutation ((fun l => l) l) l)
  /\ match latest_reply fromisoformat_basic (fun l => l) cves 6 with
     | LatestNoMatch => cves = [] \/ 6%nat = 0%nat
     | LatestListing lines found shown =>
         found = length cves
         /\ shown = Nat.min 6 (length cves)
         /\ (0 < shown)%nat
         /\ entry_lines lines
            = take 5 (results_to_show fromisoformat_basic (fun l => l) cves 6)
     end.
Proof.
  intros cves.
  assert (Hleft : forall l : list CveData, Permutation ((fun l => l) l) l)
    by (intros l; reflexivity).
  split; [exact Hleft |].
  exact (latest_reply_counts fromisoformat_basic (fun l => l) cves 6 Hleft).
Defined.

(** Seven records and a count of six: the footer says 7 found and 6
    shown, the description lists five and closes with "1 more". *)
Example six_shown_five_listed :
  match latest_reply fromisoformat_basic (fun l => l)
          (map (fun id => scored id 8)
             ["CVE-2024-0001"; "CVE-2024-0002"; "CVE-2024-0003"; "CVE-2024-0004";
              "CVE-2024-0005"; "CVE-2024-0006"; "CVE-2024-0007"]) 6 with
  | LatestListing lines found shown =>
      found = 7%nat /\ shown = 6%nat
      /\ length (entry_lines lines) = 5%nat
      /\ List.last lines (MoreLine 0) = MoreLine 1
  | LatestNoMatch => False
  end.
Proof. vm_compute. repeat split. Qed.

(** ** [create_cve_embed] *)

Section EmbedProperties.
Variables (str_number : Q -> text) (str_int : nat -> text) (strip : text -> text).

Local Abbreviation build := (create_cve_embed str_number str_int strip).

(** X22.  In standard mode the description of the embed has at most 103
    code points: a description of up to 100 is shown whole, a longer one
    is cut to 100 and gets "..."; a record without description shows
    "No description provided."; and the embed has at most one field. *)
Theorem standard_embed_is_short (cve_data : CveDict) :
  let e := build cve_data false in
  (length (embed_description e) <= 103)%nat
  /\ (length (embed_fields e) <= 1)%nat
  /\ (dict_description cve_data = None ->
      embed_description e = cps "No description provided.")
  /\ (forall s, dict_description cve_data = Some s ->
        embed_description e
        = if (100 <? length s)%nat then take 100 s ++ cps "..." else s).
Proof.
  unfold create_cve_embed. cbn [embed_description embed_fields].
  split; [| split; [| split]].
  - destruct (100 <? length (or_default (dict_description cve_data) ""))%nat;
      rewrite ?length_app, length_take;
      change (length (cps "...")) with 3%nat; lia.
  - destruct (number_truthy (dict_cvss cve_data)); simpl; lia.
  - intros ->. reflexivity.
  - intros s ->. cbn [or_default].
    destruct (100 <? length s)%nat eqn:Hlong; [reflexivity |].
    apply take_ge. apply Nat.ltb_ge in Hlong. lia.
Qed.

(** X23.  In both modes the embed has a "CVSS Score" field exactly when
    the record holds a score other than zero: a score of 0.0 is not
    shown. *)
Theorem score_field_iff_nonzero (cve_data : CveDict) (verbose : bool) :
  (exists f, In f (embed_fields (build cve_data verbose))
             /\ field_name f = "CVSS Score")
  <-> exists q, dict_cvss cve_data = Some q /\ ~ (q == 0)%Q.
Proof.
  assert (Htruthy : number_truthy (dict_cvss cve_data) = true
                    <-> exists q, dict_cvss cve_data = Some q /\ ~ (q == 0)%Q).
  { unfold number_truthy. destruct (dict_cvss cve_data) as [q |].
    - rewrite negb_true_iff. split.
      + intros Hq. exists q. split; [reflexivity |]. intros Heq.
        apply Qeq_bool_iff in Heq. congruence.
      + intros (q' & [= <-] & Hne). destruct (Qeq_bool q 0) eqn:Hq; [| reflexivity].
        apply Qeq_bool_iff in Hq. contradiction.
    - split; [discriminate | intros (q & Hq & _); discriminate]. }
  rewrite <- Htruthy. unfold create_cve_embed.
  destruct (number_truthy (dict_cvss cve_data)).
  - split; [reflexivity |]. intros _.
    destruct verbose;
      (eexists; split; [cbn [embed_fields app]; left; reflexivity | reflexivity]).
  - split; [| discriminate]. intros (f & Hin & Hname). exfalso.
    destruct verbose; cbn [embed_fields app] in Hin; [| contradiction].
    destruct (text_truthy (dict_cvss_vector cve_data)),
      (dict_cwe_ids cve_data), (text_truthy (dict_published cve_data)),
      (text_truthy (dict_modified cve_data)), (dict_references cve_data);
      simpl in Hin;
      repeat match goal with
             | Hor : _ \/ _ |- _ => destruct Hor as [<- | Hor]
             | Hf : False |- _ => contradiction
             end; discriminate Hname.
Qed.

End EmbedProperties.

(** A record scored 0.0 shows no score; one scored 8.0 shows it. *)
Example score_zero_is_hidden :
  let record score :=
    {| dict_id := Some (cps "CVE-2024-0001"); dict_link := None;
       dict_cvss := Some score; dict_cvss_version := None;
       dict_description := None; dict_cvss_vector := None; dict_cwe_ids := [];
       dict_published := None; dict_modified := None; dict_references := [];
       dict_source := None |} in
  embed_fields (create_cve_embed (fun _ => []) (fun _ => []) (fun s => s)
                  (record 0%Q) false) = []
  /\ length (embed_fields (create_cve_embed (fun _ => []) (fun _ => []) (fun s => s)
                             (record 8%Q) false)) = 1%nat.
Proof. split; reflexivity. Qed.
